(** * MultiTimer: a shallow embedding of [MultiTimer.py]

    The development follows the layout of the script:

    - [Py]        the Python built-ins the script relies on ([str], [zfill],
                  [float], [list.index], [list.pop], [list.remove]);
    - the world   the objects the script allocates ([SimpleTimer] instances,
                  [threading.Timer] threads, menu items) and its two global
                  lists, with the wall clock;
    - [SimpleTimer] methods and the menu handlers, written in a small
                  state-and-exception monad;
    - events      clock advance, thread wake-up and calls of the class API,
                  with the invariants that protocol-respecting use keeps;
    - theorems    about the timer engine, the registry and the labels.

    Modelling conventions.  Time is counted in microseconds, the resolution
    of [datetime] and [timedelta]: a [datetime] is an integer number of
    microseconds, and so is a [timedelta].  [total_seconds()] followed by
    [divmod] is computed on these integers (floor division, as Python's
    [divmod] does), which agrees with the floating-point computation on the
    microsecond grid.  Every method call and every thread wake-up is one
    atomic step at one clock value; races between a wake-up and a method
    call are outside the model.  The durations of the menu's entries are
    given on that grid; the float read from the dialog is a binary64 number,
    computed with the standard library's [SpecFloat].  Integers are
    unbounded: the ranges of [datetime] and [timedelta] and the longest
    wait of a thread are not checked when a statement runs, and [in_range]
    says when a call stays within them. *)

From stdpp Require Import base list strings.
From Stdlib Require Import ZArith Lia DecimalString DecimalZ DecimalPos Ascii.
From Stdlib Require Import Floats.SpecFloat.

Local Open Scope Z_scope.
Local Open Scope string_scope.

(** ** Python built-ins *)

Module Py.

(** [str(n)] for an [int]. *)
Definition str_int (n : Z) : string := NilZero.string_of_int (Z.to_int n).

(** [s.zfill(width)]: zeros are inserted after a leading sign. *)
Definition is_sign (c : ascii) : bool :=
  (Ascii.eqb c "+" || Ascii.eqb c "-")%bool.

Fixpoint zeros (n : nat) : string :=
  match n with
  | O => EmptyString
  | S n' => String "0" (zeros n')
  end.

Definition zfill (width : nat) (s : string) : string :=
  let fill := zeros (width - String.length s) in
  match s with
  | String c rest => if is_sign c then String c (fill ++ rest) else fill ++ s
  | EmptyString => fill
  end.

(** [l.index(x)]: position of the first element equal to [x].  The script
    only searches lists of [SimpleTimer] objects, a class without [__eq__],
    so Python compares by identity; objects are references here. *)
Fixpoint index (l : list nat) (x : nat) : option nat :=
  match l with
  | [] => None
  | y :: l' => if Nat.eqb y x then Some O else S <$> index l' x
  end.

(** [l.remove(x)]: drops the first element equal to [x]. *)
Fixpoint remove (l : list nat) (x : nat) : option (list nat) :=
  match l with
  | [] => None
  | y :: l' => if Nat.eqb y x then Some l' else cons y <$> remove l' x
  end.

(** [l.pop(i)] for [i >= 0]. *)
Definition pop {A} (l : list A) (i : nat) : option (A * list A) :=
  match l !! i with
  | Some x => Some (x, delete i l)
  | None => None
  end.

(** *** [float(text)]

    A text is given by its UTF-8 bytes.  CPython first brings the text to
    ASCII: a code point above 126 becomes a blank if it is a Unicode
    space, the digit it stands for if it is a Unicode decimal digit, and
    ["?"] ends the text otherwise.  Then ASCII whitespace around the text
    is dropped, underscores may stand between two digits, and what remains
    is an optional sign followed by [inf], [infinity], [nan] (any case) or
    a decimal number with an optional exponent.  The value is the binary64
    number nearest to the decimal number, ties to even; beyond the largest
    float it is an infinity.  Bytes that are not UTF-8 stand for no text:
    [float] is [None] on them. *)

(** Python floats: binary64. *)
Definition pyfloat := spec_float.

Definition fmul : pyfloat -> pyfloat -> pyfloat := SFmul 53 1024.
Definition flt : pyfloat -> pyfloat -> bool := SFltb.

(** The float of an integer: [60.0] is [of_Z 60]. *)
Definition of_Z (n : Z) : pyfloat := binary_normalize 53 1024 n 0 false.

Definition is_finite (x : pyfloat) : bool :=
  match x with
  | S754_zero _ | S754_finite _ _ _ => true
  | _ => false
  end.

(** The float nearest to [m * 10^e] for a mantissa [m >= 0] written with
    [nd] digits.  From [10^309] on the result is an infinity, and below
    [10^-330] it is a zero, whatever the digits. *)
Definition of_decimal (neg : bool) (nd : nat) (m e : Z) : pyfloat :=
  match m with
  | Zpos p =>
      if Z.leb 309 e then S754_infinity neg
      else if Z.leb (Z.of_nat nd + e) (-330) then S754_zero neg
      else if Z.leb 0 e then binary_round 53 1024 neg (p * Z.to_pos (10 ^ e)) 0
      else
        let '(q, e', l) := SFdiv_core_binary 53 1024 m 0 (10 ^ (- e)) 0 in
        binary_round_aux 53 1024 neg q e' l
  | _ => S754_zero neg
  end.

(** [math.modf]: the whole part and the fraction, both with the sign of
    the number. *)
Definition modf (x : pyfloat) : Z * pyfloat :=
  match x with
  | S754_finite s m e =>
      if Z.leb 0 e then (cond_Zopp s (Zpos m * 2 ^ e), S754_zero s)
      else (cond_Zopp s (Zpos m / 2 ^ (- e)),
            binary_normalize 53 1024 (cond_Zopp s (Zpos m mod 2 ^ (- e))) e s)
  | _ => (0, x)
  end.

(** The integer nearest to [n / d] for [d > 0], ties to even. *)
Definition round_half_even (n d : Z) : Z :=
  let q := n / d in
  let r := n mod d in
  if Z.ltb (2 * r) d then q
  else if Z.ltb d (2 * r) then q + 1
  else if Z.even q then q else q + 1.

(** The integer nearest to a finite float, ties to even. *)
Definition nearest_int (x : pyfloat) : Z :=
  match x with
  | S754_finite s m e =>
      if Z.leb 0 e then cond_Zopp s (Zpos m * 2 ^ e)
      else round_half_even (cond_Zopp s (Zpos m)) (2 ^ (- e))
  | _ => 0
  end.

(** UTF-8: the code points of a text. *)
Definition continuation (c : ascii) : option N :=
  let n := N_of_ascii c in
  if (N.leb 128 n && N.ltb n 192)%bool then Some (n - 128)%N else None.

Fixpoint decode (l : list ascii) : option (list N) :=
  match l with
  | [] => Some []
  | c :: l1 =>
      let n := N_of_ascii c in
      if N.ltb n 128 then cons n <$> decode l1
      else if N.ltb n 192 then None
      else if N.ltb n 224 then
        match l1 with
        | c1 :: l2 =>
            x1 ← continuation c1;
            let cp := ((n - 192) * 64 + x1)%N in
            if N.ltb cp 128 then None else cons cp <$> decode l2
        | _ => None
        end
      else if N.ltb n 240 then
        match l1 with
        | c1 :: c2 :: l3 =>
            x1 ← continuation c1; x2 ← continuation c2;
            let cp := (((n - 224) * 64 + x1) * 64 + x2)%N in
            if N.ltb cp 2048 then None else cons cp <$> decode l3
        | _ => None
        end
      else if N.ltb n 248 then
        match l1 with
        | c1 :: c2 :: c3 :: l4 =>
            x1 ← continuation c1; x2 ← continuation c2; x3 ← continuation c3;
            let cp := ((((n - 240) * 64 + x1) * 64 + x2) * 64 + x3)%N in
            if (N.ltb cp 65536 || N.leb 1114112 cp)%bool then None
            else cons cp <$> decode l4
        | _ => None
        end
      else None
  end.

(** [Py_UNICODE_ISSPACE] above ASCII. *)
Definition unicode_space (cp : N) : bool :=
  (N.eqb cp 133 || N.eqb cp 160 || N.eqb cp 5760
   || (N.leb 8192 cp && N.leb cp 8202)
   || N.eqb cp 8232 || N.eqb cp 8233 || N.eqb cp 8239 || N.eqb cp 8287
   || N.eqb cp 12288)%bool.

(** [Py_UNICODE_TODECIMAL]: the decimal digits of Unicode 14 come in runs
    of ten, listed here by their zeros. *)
Definition decimal_zeros : list N :=
  [48; 1632; 1776; 1984; 2406; 2534; 2662; 2790; 2918; 3046; 3174; 3302;
   3430; 3558; 3664; 3792; 3872; 4160; 4240; 6112; 6160; 6470; 6608; 6784;
   6800; 6992; 7088; 7232; 7248; 42528; 43216; 43264; 43472; 43504; 43600;
   44016; 65296; 66720; 68912; 69734; 69872; 69942; 70096; 70384; 70736;
   70864; 71248; 71360; 71472; 71904; 72016; 72784; 73040; 73120; 92768;
   92864; 93008; 120782; 120792; 120802; 120812; 120822; 123200; 123632;
   125264; 130032]%N.

Definition unicode_decimal (cp : N) : option N :=
  (fun z => cp - z)%N
  <$> List.find (fun z => (N.leb z cp && N.ltb cp (z + 10))%bool) decimal_zeros.

(** [_PyUnicode_TransformDecimalAndSpaceToASCII] *)
Fixpoint to_ascii (l : list N) : list ascii :=
  match l with
  | [] => []
  | cp :: l' =>
      if N.ltb cp 127 then ascii_of_N cp :: to_ascii l'
      else if unicode_space cp then " "%char :: to_ascii l'
      else
        match unicode_decimal cp with
        | Some d => ascii_of_N (48 + d) :: to_ascii l'
        | None => ["?"%char]
        end
  end.

Definition is_digit (c : ascii) : bool :=
  let n := nat_of_ascii c in (Nat.leb 48 n && Nat.leb n 57)%bool.

Definition digit_val (c : ascii) : Z := Z.of_nat (nat_of_ascii c - 48).

(** [Py_ISSPACE] *)
Definition is_space (c : ascii) : bool :=
  let n := nat_of_ascii c in
  ((Nat.leb 9 n && Nat.leb n 13) || Nat.eqb n 32)%bool.

Definition lower (c : ascii) : ascii :=
  let n := nat_of_ascii c in
  if (Nat.leb 65 n && Nat.leb n 90)%bool then ascii_of_nat (n + 32) else c.

Fixpoint lstrip (l : list ascii) : list ascii :=
  match l with
  | c :: l' => if is_space c then lstrip l' else l
  | [] => []
  end.

Definition strip (l : list ascii) : list ascii :=
  rev (lstrip (rev (lstrip l))).

(** Underscores: allowed only after a digit and only before a digit. *)
Fixpoint drop_underscores (prev : ascii) (l : list ascii) : option (list ascii) :=
  match l with
  | [] => if Ascii.eqb prev "_" then None else Some []
  | c :: l' =>
      if Ascii.eqb c "_" then
        if is_digit prev then drop_underscores c l' else None
      else if (Ascii.eqb prev "_" && negb (is_digit c))%bool then None
      else cons c <$> drop_underscores c l'
  end.

Fixpoint span_digits (l : list ascii) : list ascii * list ascii :=
  match l with
  | c :: l' =>
      if is_digit c then let (ds, r) := span_digits l' in (c :: ds, r)
      else ([], l)
  | [] => ([], [])
  end.

Definition digits_val (ds : list ascii) : Z :=
  fold_left (fun acc c => 10 * acc + digit_val c) ds 0.

Definition take_sign (l : list ascii) : bool * list ascii :=
  match l with
  | c :: l' =>
      if Ascii.eqb c "-" then (true, l')
      else if Ascii.eqb c "+" then (false, l')
      else (false, l)
  | [] => (false, [])
  end.

(** [exponent ::= ("e" | "E") [sign] digitpart], up to the end of the text;
    the empty rest stands for exponent 0. *)
Definition parse_exponent (l : list ascii) : option Z :=
  match l with
  | [] => Some 0
  | c :: l' =>
      if Ascii.eqb (lower c) "e" then
        let (neg, l'') := take_sign l' in
        match span_digits l'' with
        | ((_ :: _) as ds, []) =>
            Some (if (neg : bool) then - digits_val ds else digits_val ds)
        | _ => None
        end
      else None
  end.

(** [number ::= [digitpart] "." digitpart | digitpart ["."]] *)
Definition parse_number (neg : bool) (l : list ascii) : option pyfloat :=
  let (ip, r) := span_digits l in
  let (fp, r') :=
    match r with
    | c :: r1 => if Ascii.eqb c "." then span_digits r1 else ([], r)
    | [] => ([], [])
    end in
  match (ip ++ fp)%list with
  | [] => None
  | ds =>
      e ← parse_exponent r';
      Some (of_decimal neg (List.length ds) (digits_val ds)
              (e - Z.of_nat (List.length fp)))
  end.

Definition float_chars (l : list ascii) : option pyfloat :=
  body ← drop_underscores "000" (strip l);
  let (neg, r) := take_sign body in
  let word := String.string_of_list_ascii (map lower r) in
  if (String.eqb word "inf" || String.eqb word "infinity")%bool
  then Some (S754_infinity neg)
  else if String.eqb word "nan" then Some S754_nan
  else parse_number neg r.

Definition float (text : string) : option pyfloat :=
  cps ← decode (String.list_ascii_of_string text);
  float_chars (to_ascii cps).

(** The whole number of microseconds [timedelta(seconds=x)] makes of a
    finite float [x]: the whole seconds are taken exactly; the fraction is
    multiplied by [1e6] as a float and rounded to the nearest integer, ties
    to even. *)
Definition microseconds (x : pyfloat) : Z :=
  let (whole, fraction) := modf x in
  whole * 1000000 + nearest_int (fmul (of_Z 1000000) fraction).

End Py.

(** ** Objects of the script *)

(** A float number of seconds, as [start_timer] and [SimpleTimer] receive
    it: a finite value on the microsecond grid, an infinity or a NaN; or
    any float, as [create_custom_timer] computes it.  A thread waits for
    the duration as [timedelta] rounds it. *)
Inductive seconds :=
| Sec (us : Z)
| SecInf (neg : bool)
| SecNan
| SecFloat (x : Py.pyfloat).

(** Callables stored as a timer's [action]: the script's [show_alert], or a
    callable of the caller's that the model only records. *)
Inductive callback :=
| show_alert_fn
| extern_fn (name : string).

(** The menu handlers of the script. *)
Inductive handler :=
| start_timer_fn
| create_custom_timer_fn
| pause_timer_fn
| resume_timer_fn
| cancel_timer_fn
| update_submenus_fn.

Inductive pyval :=
| VRef (r : nat)
| VSeconds (x : seconds)
| VStr (s : string).

Inductive exn :=
| ValueError
| TypeError
| AttributeError
| RuntimeError
| IndexError
| OverflowError
| Dangling.   (* a reference outside the heap: no Python program reaches it *)

(** The attributes of a [SimpleTimer].  [__timer] refers to a thread object
    by its position in the heap of threads; [__time_remaining] does not exist
    before the first [pause()]. *)
Record SimpleTimer := mkSimpleTimer {
  title : string;
  duration : seconds;
  started : bool;
  paused : bool;
  finished : bool;
  action : option callback;
  args : list pyval;
  creation_time : Z;
  end_time : Z;
  __timer : nat;
  __time_remaining : option Z
}.

(** A [threading.Timer]: [Timer(interval, function)] is a thread that waits
    on its [finished] event for [interval], calls [function] unless the event
    was set meanwhile, and sets the event.  [function] is always the bound
    method [run_action] of a [SimpleTimer], kept as that timer's reference. *)
Inductive phase :=
| Initial                 (* created, [start()] not called *)
| Waiting (deadline : Z)  (* in [finished.wait(interval)] *)
| Done.                   (* [run()] has returned or died *)

Record Timer := mkTimer {
  interval : Z;
  function : nat;
  event_set : bool;    (* the flag of the [finished] event *)
  stage : phase
}.

(** What the script uses of a PyXA menu item. *)
Record MenuItem := mkMenuItem {
  item_title : string;
  item_enabled : bool;
  item_action : option handler;
  item_args : list pyval;
  item_deleted : bool
}.

(** One invocation of a timer's [action]: the callable, the arguments it
    received ([self] first), the clock, and the attributes of [self] at that
    moment. *)
Record Call := mkCall {
  call_fn : callback;
  call_self : nat;
  call_args : list pyval;
  call_time : Z;
  call_view : SimpleTimer
}.

Record World := mkWorld {
  now : Z;                         (* what [datetime.now()] returns *)
  timers : list SimpleTimer;       (* heap: a reference is a position *)
  threads : list Timer;
  items : list MenuItem;
  active_timers : list nat;        (* the global [active_timers] *)
  timer_submenus : list nat;       (* the global [timer_submenus] *)
  status_indicator : MenuItem;     (* the global [status_indicator] *)
  calls : list Call;               (* most recent first *)
  alerts : list string             (* titles of the alerts shown *)
}.

(** Attribute assignment. *)
Definition set_started (b : bool) (t : SimpleTimer) : SimpleTimer :=
  mkSimpleTimer (title t) (duration t) b (paused t) (finished t) (action t)
    (args t) (creation_time t) (end_time t) (__timer t) (__time_remaining t).
Definition set_paused (b : bool) (t : SimpleTimer) : SimpleTimer :=
  mkSimpleTimer (title t) (duration t) (started t) b (finished t) (action t)
    (args t) (creation_time t) (end_time t) (__timer t) (__time_remaining t).
Definition set_finished (b : bool) (t : SimpleTimer) : SimpleTimer :=
  mkSimpleTimer (title t) (duration t) (started t) (paused t) b (action t)
    (args t) (creation_time t) (end_time t) (__timer t) (__time_remaining t).
Definition set_end_time (e : Z) (t : SimpleTimer) : SimpleTimer :=
  mkSimpleTimer (title t) (duration t) (started t) (paused t) (finished t)
    (action t) (args t) (creation_time t) e (__timer t) (__time_remaining t).
Definition set___timer (r : nat) (t : SimpleTimer) : SimpleTimer :=
  mkSimpleTimer (title t) (duration t) (started t) (paused t) (finished t)
    (action t) (args t) (creation_time t) (end_time t) r (__time_remaining t).
Definition set___time_remaining (d : Z) (t : SimpleTimer) : SimpleTimer :=
  mkSimpleTimer (title t) (duration t) (started t) (paused t) (finished t)
    (action t) (args t) (creation_time t) (end_time t) (__timer t) (Some d).

Definition mark_event (b : bool) (th : Timer) : Timer :=
  mkTimer (interval th) (function th) b (stage th).
Definition set_stage (p : phase) (th : Timer) : Timer :=
  mkTimer (interval th) (function th) (event_set th) p.

Definition set_item_title (s : string) (m : MenuItem) : MenuItem :=
  mkMenuItem s (item_enabled m) (item_action m) (item_args m) (item_deleted m).
Definition set_item_enabled (b : bool) (m : MenuItem) : MenuItem :=
  mkMenuItem (item_title m) b (item_action m) (item_args m) (item_deleted m).
Definition set_item_action (h : handler) (m : MenuItem) : MenuItem :=
  mkMenuItem (item_title m) (item_enabled m) (Some h) (item_args m) (item_deleted m).
Definition set_item_deleted (m : MenuItem) : MenuItem :=
  mkMenuItem (item_title m) (item_enabled m) (item_action m) (item_args m) true.

Definition with_now (z : Z) (w : World) : World :=
  mkWorld z (timers w) (threads w) (items w) (active_timers w)
    (timer_submenus w) (status_indicator w) (calls w) (alerts w).
Definition with_timers (l : list SimpleTimer) (w : World) : World :=
  mkWorld (now w) l (threads w) (items w) (active_timers w)
    (timer_submenus w) (status_indicator w) (calls w) (alerts w).
Definition with_threads (l : list Timer) (w : World) : World :=
  mkWorld (now w) (timers w) l (items w) (active_timers w)
    (timer_submenus w) (status_indicator w) (calls w) (alerts w).
Definition with_items (l : list MenuItem) (w : World) : World :=
  mkWorld (now w) (timers w) (threads w) l (active_timers w)
    (timer_submenus w) (status_indicator w) (calls w) (alerts w).
Definition with_active_timers (l : list nat) (w : World) : World :=
  mkWorld (now w) (timers w) (threads w) (items w) l
    (timer_submenus w) (status_indicator w) (calls w) (alerts w).
Definition with_timer_submenus (l : list nat) (w : World) : World :=
  mkWorld (now w) (timers w) (threads w) (items w) (active_timers w)
    l (status_indicator w) (calls w) (alerts w).
Definition with_status_indicator (m : MenuItem) (w : World) : World :=
  mkWorld (now w) (timers w) (threads w) (items w) (active_timers w)
    (timer_submenus w) m (calls w) (alerts w).
Definition with_calls (l : list Call) (w : World) : World :=
  mkWorld (now w) (timers w) (threads w) (items w) (active_timers w)
    (timer_submenus w) (status_indicator w) l (alerts w).
Definition with_alerts (l : list string) (w : World) : World :=
  mkWorld (now w) (timers w) (threads w) (items w) (active_timers w)
    (timer_submenus w) (status_indicator w) (calls w) l.

(** ** Statements: state passing with exceptions

    A statement maps the world to an outcome and the world it leaves.  An
    exception keeps what was written before it was raised, as in Python. *)

Inductive result (A : Type) :=
| Ok (a : A)
| Raise (e : exn).
Arguments Ok {A} a.
Arguments Raise {A} e.

Definition M (A : Type) : Type := World -> result A * World.

Definition ret {A} (a : A) : M A := fun w => (Ok a, w).
Definition raise {A} (e : exn) : M A := fun w => (Raise e, w).
Definition bind {A B} (m : M A) (k : A -> M B) : M B :=
  fun w => match m w with
           | (Ok a, w') => k a w'
           | (Raise e, w') => (Raise e, w')
           end.

Declare Scope py_scope.
Delimit Scope py_scope with py.
Notation "x <- m ;; k" := (bind m (fun x => k))
  (at level 100, m at next level, right associativity) : py_scope.
Notation "m ;; k" := (bind m (fun _ => k))
  (at level 100, right associativity) : py_scope.
Local Open Scope py_scope.

Definition gets {A} (f : World -> A) : M A := fun w => (Ok (f w), w).
Definition modify (f : World -> World) : M unit := fun w => (Ok tt, f w).
Definition of_option {A} (o : option A) (e : exn) : M A :=
  match o with
  | Some a => ret a
  | None => raise e
  end.
Definition of_result {A} (r : result A) : M A := fun w => (r, w).

(** The world a statement leaves, whatever its outcome. *)
Definition run {A} (m : M A) (w : World) : World := snd (m w).

(** ** The clock, the heaps and [threading.Timer] *)

Definition datetime_now : M Z := gets now.

(** [timedelta(seconds=x)], in microseconds: a NaN raises [ValueError], an
    infinity raises [OverflowError].  The range of [timedelta] is not
    checked here. *)
Definition timedelta_of (x : seconds) : result Z :=
  match x with
  | Sec us => Ok us
  | SecInf _ | SecFloat (S754_infinity _) => Raise OverflowError
  | SecNan | SecFloat S754_nan => Raise ValueError
  | SecFloat x => Ok (Py.microseconds x)
  end.

Definition timedelta (x : seconds) : M Z := of_result (timedelta_of x).

Definition timer_get (self : nat) : M SimpleTimer :=
  fun w => of_option (timers w !! self) Dangling w.

Definition timer_set (self : nat) (f : SimpleTimer -> SimpleTimer) : M unit :=
  tm <- timer_get self ;;
  modify (fun w => with_timers (<[self := f tm]> (timers w)) w).

Definition thread_get (i : nat) : M Timer :=
  fun w => of_option (threads w !! i) Dangling w.

Definition thread_set (i : nat) (f : Timer -> Timer) : M unit :=
  th <- thread_get i ;;
  modify (fun w => with_threads (<[i := f th]> (threads w)) w).

Definition item_get (i : nat) : M MenuItem :=
  fun w => of_option (items w !! i) Dangling w.

Definition item_set (i : nat) (f : MenuItem -> MenuItem) : M unit :=
  m <- item_get i ;;
  modify (fun w => with_items (<[i := f m]> (items w)) w).

(** [Timer(interval, self.run_action)] *)
Definition thread_new (interval : Z) (self : nat) : M nat :=
  fun w => (Ok (length (threads w)),
            with_threads (threads w ++ [mkTimer interval self false Initial]) w).

(** [Thread.start()]: a thread can be started once. *)
Definition thread_start (i : nat) : M unit :=
  th <- thread_get i ;;
  match stage th with
  | Initial =>
      clock <- datetime_now ;;
      thread_set i (set_stage (Waiting (clock + interval th)))
  | _ => raise RuntimeError
  end.

(** [Timer.cancel()]: sets the [finished] event. *)
Definition thread_cancel (i : nat) : M unit :=
  thread_set i (mark_event true).

(** ** The registry: globals and labels *)

(** [update_status_indicator()] *)
Definition update_status_indicator : M unit :=
  ts <- gets active_timers ;;
  let num_timers := length ts in
  match num_timers with
  | O =>
      modify (fun w => with_status_indicator
                (set_item_title "No active timers" (status_indicator w)) w) ;;
      modify (fun w => with_status_indicator
                (set_item_enabled false (status_indicator w)) w)
  | 1%nat =>
      modify (fun w => with_status_indicator
                (set_item_title "1 active timer" (status_indicator w)) w)
  | _ =>
      modify (fun w => with_status_indicator
                (set_item_title (Py.str_int (Z.of_nat num_timers) ++ " active timers")
                   (status_indicator w)) w)
  end.

(** [submenu = timer_submenus.pop(active_timers.index(timer))] followed by
    [submenu.delete()], the first two lines of [show_alert] and of
    [cancel_timer]. *)
Definition pop_submenu (timer : nat) : M unit :=
  ts <- gets active_timers ;;
  i <- of_option (Py.index ts timer) ValueError ;;
  subs <- gets timer_submenus ;;
  popped <- of_option (Py.pop subs i) IndexError ;;
  modify (with_timer_submenus (snd popped)) ;;
  item_set (fst popped) set_item_deleted.

(** [active_timers.remove(timer)] *)
Definition remove_active (timer : nat) : M unit :=
  ts <- gets active_timers ;;
  ts' <- of_option (Py.remove ts timer) ValueError ;;
  modify (with_active_timers ts').

(** [show_alert(timer)] *)
Definition show_alert (timer : nat) : M unit :=
  pop_submenu timer ;;
  remove_active timer ;;
  update_status_indicator ;;
  tm <- timer_get timer ;;
  modify (fun w => with_alerts
            (("Your timer for " ++ title tm ++ " has ended!") :: alerts w) w).

(** ** [SimpleTimer] *)

Module SimpleTimer.

(** [SimpleTimer(title, duration, action, args)]; the new object's
    reference is returned.  [args or []] is [[]] for [None].  The range of
    [datetime] is not checked in [clock + delta]. *)
Definition init (title : string) (duration : seconds)
    (action : option callback) (args : option (list pyval)) : M nat :=
  self <- gets (fun w => length (timers w)) ;;
  creation_time <- datetime_now ;;
  clock <- datetime_now ;;
  delta <- timedelta duration ;;
  th <- thread_new delta self ;;
  modify (fun w => with_timers
            (timers w ++ [mkSimpleTimer title duration false false false
                            action (default [] args) creation_time
                            (clock + delta) th None]) w) ;;
  ret self.

(** The property [time_remaining], on the attributes and a clock value. *)
Definition time_remaining_at (tm : SimpleTimer) (clock : Z) : result Z :=
  if finished tm then Ok 0
  else if paused tm then
    match __time_remaining tm with
    | Some r => Ok r
    | None => Raise AttributeError
    end
  else Ok (end_time tm - clock).

Definition time_remaining (self : nat) : M Z :=
  tm <- timer_get self ;;
  clock <- datetime_now ;;
  of_result (time_remaining_at tm clock).

Definition start (self : nat) : M unit :=
  timer_set self (set_started true) ;;
  tm <- timer_get self ;;
  thread_start (__timer tm).

Definition cancel (self : nat) : M unit :=
  tm <- timer_get self ;;
  thread_cancel (__timer tm).

Definition pause (self : nat) : M unit :=
  r <- time_remaining self ;;
  timer_set self (set___time_remaining r) ;;
  timer_set self (set_paused true) ;;
  tm <- timer_get self ;;
  thread_cancel (__timer tm).

Definition resume (self : nat) : M unit :=
  clock <- datetime_now ;;
  r <- time_remaining self ;;
  timer_set self (set_end_time (clock + r)) ;;
  r' <- time_remaining self ;;
  th <- thread_new r' self ;;
  timer_set self (set___timer th) ;;
  thread_start th ;;
  timer_set self (set_paused false).

(** Whether a callable accepts a timer followed by [args]: [show_alert]
    takes the timer alone; nothing is known against a callable of the
    caller's. *)
Definition accepts (f : callback) (args : list pyval) : bool :=
  match f, args with
  | show_alert_fn, _ :: _ => false
  | _, _ => true
  end.

(** [self.action(self, *self.args)]: [None] is not callable, and a call
    with the wrong number of arguments raises before the callable runs.  A
    call that is made is recorded with the attributes of [self] as they are
    at that moment; then the callable runs. *)
Definition call_action (self : nat) : M unit :=
  tm <- timer_get self ;;
  match action tm with
  | None => raise TypeError
  | Some f =>
      if accepts f (args tm) then
        clock <- datetime_now ;;
        modify (fun w => with_calls
                  (mkCall f self (VRef self :: args tm) clock tm :: calls w) w) ;;
        match f with
        | show_alert_fn => show_alert self
        | extern_fn _ => ret tt
        end
      else raise TypeError
  end.

Definition run_action (self : nat) : M unit :=
  timer_set self (set_finished true) ;;
  call_action self.

End SimpleTimer.

(** [Timer.run()], from the moment the thread leaves [finished.wait]: it
    leaves when the event is set or the interval is over, calls its function
    unless the event is set, and sets the event.  An exception in the
    function ends the thread before the event is set. *)
Definition wake (i : nat) : M unit :=
  th <- thread_get i ;;
  clock <- datetime_now ;;
  match stage th with
  | Waiting deadline =>
      if (event_set th || Z.leb deadline clock)%bool then
        thread_set i (set_stage Done) ;;
        (if event_set th then ret tt else SimpleTimer.run_action (function th)) ;;
        thread_set i (mark_event true)
      else ret tt
  | _ => ret tt
  end.

(** ** Remaining-time strings *)

(** [divmod(a, b)] for [b > 0]: floor division and its remainder. *)
Definition divmod (a b : Z) : Z * Z := (a / b, a mod b).

(** The string built in [update_submenus] (and in [pause_timer]) from
    [timer.time_remaining.total_seconds()], given in microseconds.  [int()]
    truncates the seconds; hours and minutes are whole numbers. *)
Definition update_submenus_time_str (total : Z) : string :=
  let (hours, remainder) := divmod total 3600000000 in
  let (minutes, seconds) := divmod remainder 60000000 in
  let time_str :=
    Py.zfill 2 (Py.str_int minutes) ++ ":"
      ++ Py.zfill 2 (Py.str_int (Z.quot seconds 1000000)) in
  if Z.ltb 0 hours then Py.zfill 2 (Py.str_int hours) ++ ":" ++ time_str
  else time_str.

(** The string built in [start_timer] for the label of a new submenu. *)
Definition start_timer_time_str (total : Z) : string :=
  let (hours, remainder) := divmod total 3600000000 in
  let (minutes, seconds) := divmod remainder 60000000 in
  let time_str :=
    Py.str_int minutes ++ ":" ++ Py.str_int (Z.quot seconds 1000000) in
  if Z.ltb 0 hours then Py.str_int hours ++ ":" ++ time_str
  else time_str.

(** [title[0:title.index("(") + 1]] *)
Definition label_stem (label : string) : M string :=
  i <- of_option (String.index 0 "(" label) ValueError ;;
  ret (String.substring 0 (i + 1) label).

(** ** Menu handlers

    A handler receives the clicked item, the mouse button (unused by every
    handler, and left out) and the item's [args]. *)

(** [menu.new_item(...)] and [item.new_subitem(...)]: a fresh menu item. *)
Definition new_item (label : string) (act : option handler) (a : list pyval) : M nat :=
  fun w => (Ok (length (items w)),
            with_items (items w ++ [mkMenuItem label true act a false]) w).

(** [cancel_timer(item, button, timer)] *)
Definition cancel_timer (item timer : nat) : M unit :=
  pop_submenu timer ;;
  SimpleTimer.cancel timer ;;
  remove_active timer ;;
  update_status_indicator.

(** [resume_timer(item, button, timer)] *)
Definition resume_timer (item timer : nat) : M unit :=
  SimpleTimer.resume timer ;;
  item_set item (set_item_title "Pause") ;;
  item_set item (set_item_action pause_timer_fn).

(** [pause_timer(item, button, timer)]; its [time_str] is computed and
    dropped. *)
Definition pause_timer (item timer : nat) : M unit :=
  SimpleTimer.pause timer ;;
  total <- SimpleTimer.time_remaining timer ;;
  let time_str := update_submenus_time_str total in
  item_set item (set_item_title "Resume") ;;
  item_set item (set_item_action resume_timer_fn).

(** The body of the loop of [update_submenus], and the loop over
    [enumerate(active_timers)]. *)
Definition update_submenu (index timer : nat) : M unit :=
  subs <- gets timer_submenus ;;
  submenu <- of_option (subs !! index) IndexError ;;
  total <- SimpleTimer.time_remaining timer ;;
  let time_str := update_submenus_time_str total in
  tm <- timer_get timer ;;
  let time_str := if paused tm then "Paused, " ++ time_str else time_str in
  m <- item_get submenu ;;
  stem <- label_stem (item_title m) ;;
  item_set submenu (set_item_title (stem ++ time_str ++ " remaining)")).

Fixpoint update_submenus_from (index : nat) (ts : list nat) : M unit :=
  match ts with
  | [] => ret tt
  | timer :: ts' =>
      update_submenu index timer ;;
      update_submenus_from (S index) ts'
  end.

(** [update_submenus(menu, button)] *)
Definition update_submenus : M unit :=
  ts <- gets active_timers ;;
  update_submenus_from 0 ts.

(** [duration < 60] on floats. *)
Definition lt_60 (x : seconds) : bool :=
  match x with
  | Sec us => Z.ltb us 60000000
  | SecInf neg => neg
  | SecNan => false
  | SecFloat x => Py.flt x (Py.of_Z 60)
  end.

Section Handlers.

(** How Python prints the floats of a custom timer's title:
    [f"{duration}"] and [f"{round(duration / 60.0, 2)}"]. *)
Variable float_str : seconds -> string.
Variable round_minutes_str : seconds -> string.

(** The title [start_timer] gives a timer: the item's, or one made from the
    duration for the custom entry. *)
Definition timer_title (title : string) (duration : seconds) : string :=
  if String.eqb title "Custom Timer..." then
    if lt_60 duration then float_str duration ++ " seconds"
    else round_minutes_str duration ++ " minutes"
  else title.

(** [start_timer(item, button, duration)] *)
Definition start_timer (item : nat) (duration : seconds) : M unit :=
  m <- item_get item ;;
  let title := timer_title (item_title m) duration in
  timer <- SimpleTimer.init title duration (Some show_alert_fn) None ;;
  modify (fun w => with_active_timers (active_timers w ++ [timer]) w) ;;
  modify (fun w => with_status_indicator
            (set_item_enabled true (status_indicator w)) w) ;;
  update_status_indicator ;;
  total <- SimpleTimer.time_remaining timer ;;
  let time_str := start_timer_time_str total in
  timer_submenu <- new_item (title ++ " (" ++ time_str ++ " remaining)") None [] ;;
  new_item "Pause" (Some pause_timer_fn) [VRef timer] ;;
  new_item "Cancel" (Some cancel_timer_fn) [VRef timer] ;;
  modify (fun w => with_timer_submenus (timer_submenus w ++ [timer_submenu]) w) ;;
  SimpleTimer.start timer.

(** [create_custom_timer(item, button)]; [response] is what the dialog
    returned: [None] when it was dismissed, else the button and the text. *)
Definition create_custom_timer (item : nat) (response : option (string * string)) : M unit :=
  match response with
  | Some answer =>
      duration <- of_option (Py.float (snd answer)) ValueError ;;
      start_timer item (SecFloat (Py.fmul duration (Py.of_Z 60)))
  | None => ret tt
  end.

(** ** Events

    What can happen to the script while the menu is up: the clock
    advances, a timer thread wakes up, the class is used directly, or a
    handler runs. *)
Inductive event :=
| Tick (d : N)
| Wake (i : nat)
| New (title : string) (duration : seconds) (action : option callback)
      (args : option (list pyval))
| Start (t : nat)
| Cancel (t : nat)
| Pause (t : nat)
| Resume (t : nat)
| StartTimer (item : nat) (duration : seconds)
| CreateCustomTimer (item : nat) (response : option (string * string))
| PauseTimer (item t : nat)
| ResumeTimer (item t : nat)
| CancelTimer (item t : nat)
| UpdateSubmenus.

Definition tick (d : N) : M unit :=
  modify (fun w => with_now (now w + Z.of_N d) w).

Definition step (e : event) : M unit :=
  match e with
  | Tick d => tick d
  | Wake i => wake i
  | New title duration action args =>
      SimpleTimer.init title duration action args ;; ret tt
  | Start t => SimpleTimer.start t
  | Cancel t => SimpleTimer.cancel t
  | Pause t => SimpleTimer.pause t
  | Resume t => SimpleTimer.resume t
  | StartTimer item duration => start_timer item duration
  | CreateCustomTimer item response => create_custom_timer item response
  | PauseTimer item t => pause_timer item t
  | ResumeTimer item t => resume_timer item t
  | CancelTimer item t => cancel_timer item t
  | UpdateSubmenus => update_submenus
  end.

(** An exception ends the handler or the thread that raised it; the menu
    goes on with the next event. *)
Fixpoint exec (tr : list event) (w : World) : World :=
  match tr with
  | [] => w
  | e :: tr' => exec tr' (run (step e) w)
  end.

(** Use of the class as its docstrings intend: [resume()] is called on a
    paused timer only ("Resumes the timer from a paused state"). *)
Definition is_paused (t : nat) (w : World) : bool :=
  match timers w !! t with
  | Some tm => paused tm
  | None => false
  end.

Definition protocol_ok (e : event) (w : World) : bool :=
  match e with
  | Resume t | ResumeTimer _ t => is_paused t w
  | _ => true
  end.

Fixpoint respects (tr : list event) (w : World) : bool :=
  match tr with
  | [] => true
  | e :: tr' => protocol_ok e w && respects tr' (run (step e) w)
  end.

(** Which events call a method of timer [t]. *)
Definition resumes (t : nat) (e : event) : bool :=
  match e with
  | Resume t' | ResumeTimer _ t' => Nat.eqb t' t
  | _ => false
  end.

Definition pauses (t : nat) (e : event) : bool :=
  match e with
  | Pause t' | PauseTimer _ t' => Nat.eqb t' t
  | _ => false
  end.

Definition cancels (t : nat) (e : event) : bool :=
  match e with
  | Cancel t' | CancelTimer _ t' => Nat.eqb t' t
  | _ => false
  end.

Definition starts (t : nat) (e : event) : bool :=
  match e with
  | Start t' => Nat.eqb t' t
  | _ => false
  end.


End Handlers.

(** A float printer for runs that start no custom timer, where the
    printers are never called. *)
Definition unprinted (x : seconds) : string := EmptyString.

(** The script's [__main__] block, at clock [t0]: the status indicator is
    greyed out and the menu holds the five fixed durations and the custom
    entry (items 0 to 5). *)
Definition main (t0 : Z) : World :=
  mkWorld t0 [] []
    [ mkMenuItem "1 minute" true (Some start_timer_fn) [VSeconds (Sec 60000000)] false;
      mkMenuItem "5 minutes" true (Some start_timer_fn) [VSeconds (Sec 300000000)] false;
      mkMenuItem "10 minutes" true (Some start_timer_fn) [VSeconds (Sec 600000000)] false;
      mkMenuItem "30 minutes" true (Some start_timer_fn) [VSeconds (Sec 1800000000)] false;
      mkMenuItem "1 hour" true (Some start_timer_fn) [VSeconds (Sec 3600000000)] false;
      mkMenuItem "Custom Timer..." true (Some create_custom_timer_fn) [] false ]
    [] []
    (mkMenuItem "No active timers" false (Some update_submenus_fn) [] false)
    [] [].

(** * Notions used in the statements *)

(** The attributes [SimpleTimer(...)] and [resume()] give a timer. *)
Definition new_timer (title : string) (d : Z) (action : option callback)
    (args : option (list pyval)) (w : World) : SimpleTimer :=
  mkSimpleTimer title (Sec d) false false false action (default [] args)
    (now w) (now w + d) (length (threads w)) None.

(** The same for any duration [x] that [timedelta] turns into [d]
    microseconds. *)
Definition created_timer (title : string) (x : seconds) (d : Z)
    (action : option callback) (args : option (list pyval)) (w : World)
    : SimpleTimer :=
  mkSimpleTimer title x false false false action (default [] args)
    (now w) (now w + d) (length (threads w)) None.

Definition resumed (self : nat) (r : Z) (tm : SimpleTimer) (w : World) : SimpleTimer :=
  set_paused false (set___timer (length (threads w)) (set_end_time (now w + r) tm)).

(** ** The timer engine and the menus

    The clock, the two heaps of timers and threads and the record of calls
    make up the engine; the menu items, the two global lists, the status
    indicator and the alerts are the menus.  The methods of [SimpleTimer]
    neither read nor write the menus, and the registry code does not write
    the engine. *)

Definition same_engine (w w' : World) : Prop :=
  now w = now w' /\ timers w = timers w' /\ threads w = threads w'
  /\ calls w = calls w'.

(** A statement that leaves the engine as it found it. *)
Definition menu_only {A} (m : M A) : Prop :=
  forall w, same_engine w (snd (m w)).

(** A statement whose outcome and whose effect on the engine depend on the
    engine alone. *)
Definition engine_fn {A} (m : M A) : Prop :=
  forall w1 w2, same_engine w1 w2 ->
    fst (m w1) = fst (m w2) /\ same_engine (snd (m w1)) (snd (m w2)).

(** ** Calls, threads and well-formed heaps *)

(** The recorded calls whose [self] is timer [t], most recent first. *)
Definition calls_of (t : nat) (w : World) : list Call :=
  filter (fun c => call_self c = t) (calls w).

(** A thread that will not call its function any more: its event is set, or
    it has run. *)
Definition dead (th : Timer) : Prop :=
  event_set th = true \/ stage th = Done.

(** References point into the heaps, and the thread a timer holds runs that
    timer's [run_action]. *)
Definition wf (w : World) : Prop :=
  (forall t tm, timers w !! t = Some tm ->
     exists th, threads w !! __timer tm = Some th /\ function th = t)
  /\ (forall i th, threads w !! i = Some th ->
        (function th < length (timers w))%nat)
  /\ (forall c, c ∈ calls w -> (call_self c < length (timers w))%nat).

(** What use according to the docstrings maintains: the threads a timer has
    dropped are dead, a paused timer's thread is cancelled, and a paused
    timer holds its remaining time (zero if it is finished). *)
Definition orderly (w : World) : Prop :=
  forall t tm, timers w !! t = Some tm ->
    (forall i th, threads w !! i = Some th -> function th = t ->
       i <> __timer tm -> dead th)
    /\ (paused tm = true ->
         exists th, threads w !! __timer tm = Some th /\ event_set th = true)
    /\ (paused tm = true ->
         exists r, __time_remaining tm = Some r /\ (finished tm = true -> r = 0)).

(** ** What an event does to the engine *)

Inductive effect :=
| Ticked
| Created
| Started (t : nat)
| Armed (t : nat)
| Cancelled (t : nat)
| Paused (t : nat)
| Resumed (t : nat)
| Woken (i : nat).

(** The record of calls after [run_action] of timer [t] with attributes
    [tm]: a call is added when the action is callable with the arguments. *)
Definition fired_calls (t : nat) (tm : SimpleTimer) (w : World) : list Call :=
  match action tm with
  | Some f =>
      if SimpleTimer.accepts f (args tm) then
        mkCall f t (VRef t :: args tm) (now w) (set_finished true tm) :: calls w
      else calls w
  | None => calls w
  end.

Inductive does : effect -> World -> World -> Prop :=
| does_tick w d :
    does Ticked w (with_now (now w + Z.of_N d) w)
| does_create w title x d action args :
    does Created w
      (with_timers (timers w ++ [created_timer title x d action args w])
         (with_threads (threads w ++ [mkTimer d (length (timers w)) false Initial]) w))
| does_started w t tm :
    timers w !! t = Some tm ->
    does (Started t) w (with_timers (<[t := set_started true tm]> (timers w)) w)
| does_armed w t tm th :
    timers w !! t = Some tm ->
    threads w !! __timer tm = Some th ->
    stage th = Initial ->
    does (Armed t) w
      (with_threads
         (<[__timer tm := set_stage (Waiting (now w + interval th)) th]> (threads w)) w)
| does_cancel w t tm th :
    timers w !! t = Some tm ->
    threads w !! __timer tm = Some th ->
    does (Cancelled t) w
      (with_threads (<[__timer tm := mark_event true th]> (threads w)) w)
| does_pause w t tm th r :
    timers w !! t = Some tm ->
    threads w !! __timer tm = Some th ->
    SimpleTimer.time_remaining_at tm (now w) = Ok r ->
    does (Paused t) w
      (with_threads (<[__timer tm := mark_event true th]> (threads w))
         (with_timers
            (<[t := set_paused true (set___time_remaining r tm)]> (timers w)) w))
| does_resume w t tm r :
    timers w !! t = Some tm ->
    SimpleTimer.time_remaining_at tm (now w) = Ok r ->
    does (Resumed t) w
      (with_timers (<[t := resumed t r tm w]> (timers w))
         (with_threads (threads w ++ [mkTimer r t false (Waiting (now w + r))]) w))
| does_skip w i th d :
    threads w !! i = Some th ->
    stage th = Waiting d ->
    event_set th = true ->
    does (Woken i) w
      (with_threads (<[i := mark_event true (set_stage Done th)]> (threads w)) w)
| does_fire w i th d tm th' :
    threads w !! i = Some th ->
    stage th = Waiting d ->
    event_set th = false ->
    d <= now w ->
    timers w !! function th = Some tm ->
    th' = set_stage Done th \/ th' = mark_event true (set_stage Done th) ->
    does (Woken i) w
      (with_calls (fired_calls (function th) tm w)
         (with_threads (<[i := th']> (threads w))
            (with_timers (<[function th := set_finished true tm]> (timers w)) w))).

(** A sequence of effects, up to the menus. *)
Inductive does_all : list effect -> World -> World -> Prop :=
| does_nil w w' :
    same_engine w w' -> does_all [] w w'
| does_cons l ls w w1 w' :
    does l w w1 -> does_all ls w1 w' -> does_all (l :: ls) w w'.


(** The effects an event can have, in order. *)
Definition caused (e : event) (w : World) (ls : list effect) : Prop :=
  match e with
  | Tick _ => ls = [Ticked]
  | Wake i => ls = [] \/ ls = [Woken i]
  | New _ _ _ _ => ls = [] \/ ls = [Created]
  | Start t => ls = [] \/ ls = [Started t] \/ ls = [Started t; Armed t]
  | Cancel t | CancelTimer _ t => ls = [] \/ ls = [Cancelled t]
  | Pause t | PauseTimer _ t => ls = [] \/ ls = [Paused t]
  | Resume t | ResumeTimer _ t => ls = [] \/ ls = [Resumed t]
  | StartTimer _ _ | CreateCustomTimer _ _ =>
      ls = [] \/ ls = [Created; Started (length (timers w)); Armed (length (timers w))]
  | UpdateSubmenus => ls = []
  end.

(** ** Invariants of a single timer *)

(** Timer [t] exists and none of its threads will call [run_action]. *)
Definition silent (t : nat) (w : World) : Prop :=
  (t < length (timers w))%nat
  /\ forall i th, threads w !! i = Some th -> function th = t -> dead th.

(** A call of action [f] made by [run_action] of timer [t]: the timer
    itself then the stored arguments [a] were passed, and at that moment the
    timer was finished and its [time_remaining] was zero. *)
Definition completion_call (t : nat) (f : callback) (a : list pyval) (c : Call) : Prop :=
  call_self c = t /\ call_fn c = f /\ call_args c = VRef t :: a
  /\ finished (call_view c) = true
  /\ SimpleTimer.time_remaining_at (call_view c) (call_time c) = Ok 0.


Section Expiry.

Variable float_str : seconds -> string.
Variable round_minutes_str : seconds -> string.


End Expiry.

(** ** Positions after a removal *)

(** When position [i] is removed from a list, position [j] of the new list
    holds what position [shifted i j] held: the elements before [i] keep
    their places, the others move one place down. *)
Definition shifted (i j : nat) : nat := if Nat.ltb j i then j else S j.

(** * Further notions *)

(** ** Attributes that are never reassigned *)

(** What no statement of the script assigns after construction: the title,
    the duration, the action with its arguments and the creation time; and
    the two flags that are only ever set. *)
Definition same_identity (tm tm' : SimpleTimer) : Prop :=
  title tm' = title tm /\ duration tm' = duration tm
  /\ action tm' = action tm /\ args tm' = args tm
  /\ creation_time tm' = creation_time tm
  /\ (started tm = true -> started tm' = true)
  /\ (finished tm = true -> finished tm' = true).

(** [pause()] stores the remaining time before it sets [paused]. *)
Definition remaining_stored (w : World) : Prop :=
  forall t tm, timers w !! t = Some tm -> paused tm = true ->
    is_Some (__time_remaining tm).

(** ** Threads that have run *)

(** A thread of timer [t] that has left its wait. *)
Definition has_run (t : nat) (th : Timer) : bool :=
  Nat.eqb (function th) t
  && match stage th with
     | Done => true
     | _ => false
     end.

Definition threads_run (t : nat) (w : World) : nat :=
  length (List.filter (has_run t) (threads w)).

(** ** The status indicator *)

(** The title [update_status_indicator] writes for [n] active timers, and
    what it makes of the status indicator. *)
Definition status_label (n : nat) : string :=
  match n with
  | O => "No active timers"
  | 1%nat => "1 active timer"
  | _ => Py.str_int (Z.of_nat n) ++ " active timers"
  end.

Definition indicate (n : nat) (m : MenuItem) : MenuItem :=
  match n with
  | O => set_item_enabled false (set_item_title (status_label n) m)
  | _ => set_item_title (status_label n) m
  end.

(** ** Whole numbers as floats *)

(** The float of a whole number below [2^53]: the number itself, its
    mantissa brought to 53 bits. *)
Definition whole (s : bool) (q : positive) : Py.pyfloat :=
  S754_finite s (Nat.iter (Z.to_nat (53 - Zpos (digits2_pos q))) xO q)
    (Zpos (digits2_pos q) - 53).

(** ** The ranges of [datetime] and [timedelta]

    The statements count with unbounded integers, where a [datetime] lies
    in the years 1 to 9999 and a [timedelta] within 999999999 days:
    Python raises [OverflowError] in a call that leaves these ranges, and
    such a call is not described here.  Likewise a thread cannot wait
    longer than [threading.TIMEOUT_MAX], 9223372036 seconds: the thread of
    a timer with a longer interval ends with [OverflowError] as soon as it
    runs.  [in_range e w] says that the call or the tick [e] stays within
    these bounds from world [w]; the clock is counted in microseconds from
    [datetime.min]. *)
Definition datetime_max : Z := 315537897599999999.

Definition timeout_max : Z := 9223372036000000.

Definition in_datetime (t : Z) : bool :=
  (Z.leb 0 t && Z.leb t datetime_max)%bool.

Definition in_timedelta (d : Z) : bool :=
  (Z.leb (-86399999913600000000) d && Z.leb d 86399999999999999999)%bool.

Definition in_wait (d : Z) : bool := Z.leb d timeout_max.

(** What [create_custom_timer] passes to [start_timer] for a text that
    [float()] accepts: [float(text) * 60.0]. *)
Definition custom_duration (text : string) : option seconds :=
  (fun x => SecFloat (Py.fmul x (Py.of_Z 60))) <$> Py.float text.

(** [timedelta(seconds=x)], [datetime.now() + timedelta(seconds=x)] and
    the wait of [Timer(x, ...)]. *)
Definition fits (x : seconds) (w : World) : bool :=
  match timedelta_of x with
  | Ok d => (in_timedelta d && in_datetime (now w + d) && in_wait d)%bool
  | Raise _ => true
  end.

Definition in_range (e : event) (w : World) : bool :=
  (in_datetime (now w)
   && match e with
      | Tick d => in_datetime (now w + Z.of_N d)
      | New _ x _ _ | StartTimer _ x => fits x w
      | CreateCustomTimer _ (Some answer) =>
          match custom_duration (snd answer) with
          | Some x => fits x w
          | None => true
          end
      | Resume t | ResumeTimer _ t =>
          match timers w !! t with
          | Some tm =>
              match SimpleTimer.time_remaining_at tm (now w) with
              | Ok r => (in_datetime (now w + r) && in_wait r)%bool
              | Raise _ => true
              end
          | None => true
          end
      | _ => true
      end)%bool.

(** ** Runs driven by the menu

    The menu host calls the [action] of the item that is clicked with the
    item, the mouse button and the item's [args]; the status indicator's
    action runs when the pointer is over it.  The Pause and Cancel entries
    of a timer sit in the timer's submenu, which [show_alert] and
    [cancel_timer] delete when they take the timer out of [active_timers]:
    they can be clicked while the timer is in that list.  Besides, time
    passes and the threads of the timers wake up. *)
Inductive input :=
| Elapse (d : N)
| Expire (i : nat)
| Hover
| Click (item : nat) (response : option (string * string)).

Definition listed (t : nat) (w : World) : bool :=
  match Py.index (active_timers w) t with
  | Some _ => true
  | None => false
  end.

Section Menu.

Variable float_str : seconds -> string.
Variable round_minutes_str : seconds -> string.

(** The handler call, if any, that an input leads to; [response] is what
    the dialog of [create_custom_timer] returns. *)
Definition dispatch (inp : input) (w : World) : option event :=
  match inp with
  | Elapse d => Some (Tick d)
  | Expire i => if Nat.ltb i (length (threads w)) then Some (Wake i) else None
  | Hover => Some UpdateSubmenus
  | Click item response =>
      match items w !! item with
      | Some mi =>
          match item_action mi, item_args mi with
          | Some start_timer_fn, [VSeconds d] => Some (StartTimer item d)
          | Some create_custom_timer_fn, [] => Some (CreateCustomTimer item response)
          | Some pause_timer_fn, [VRef t] =>
              if listed t w then Some (PauseTimer item t) else None
          | Some resume_timer_fn, [VRef t] =>
              if listed t w then Some (ResumeTimer item t) else None
          | Some cancel_timer_fn, [VRef t] =>
              if listed t w then Some (CancelTimer item t) else None
          | _, _ => None
          end
      | None => None
      end
  end.

(** One input, and a sequence of inputs, from world [w]. *)
Definition react (inp : input) (w : World) : World :=
  match dispatch inp w with
  | Some e => run (step float_str round_minutes_str e) w
  | None => w
  end.

Fixpoint play (ins : list input) (w : World) : World :=
  match ins with
  | [] => w
  | inp :: ins' => play ins' (react inp w)
  end.

(** The handler calls and wake-ups of such a run, in order. *)
Fixpoint menu_events (ins : list input) (w : World) : list event :=
  match ins with
  | [] => []
  | inp :: ins' =>
      match dispatch inp w with
      | Some e => e :: menu_events ins' (run (step float_str round_minutes_str e) w)
      | None => menu_events ins' w
      end
  end.

End Menu.

(** ** The worlds the registry code leaves *)

(** After [start_timer] for a timer titled [ttl] whose duration [x] is [d]
    microseconds: the timer and its thread are allocated and started, the
    submenu and its two entries are created, and timer and submenu are
    appended to the two lists. *)
Definition with_new_timer (ttl : string) (x : seconds) (d : Z) (w : World)
    : World :=
  let t := length (timers w) in
  let n := length (items w) in
  mkWorld (now w)
    (timers w
     ++ [set_started true (created_timer ttl x d (Some show_alert_fn) None w)])
    (threads w ++ [mkTimer d t false (Waiting (now w + d))])
    (items w
     ++ [mkMenuItem (ttl ++ " (" ++ start_timer_time_str d ++ " remaining)")
           true None [] false;
         mkMenuItem "Pause" true (Some pause_timer_fn) [VRef t] false;
         mkMenuItem "Cancel" true (Some cancel_timer_fn) [VRef t] false])
    (active_timers w ++ [t])
    (timer_submenus w ++ [n])
    (indicate (S (length (active_timers w)))
       (set_item_enabled true (status_indicator w)))
    (calls w) (alerts w).

(** After the registry part of [show_alert] and [cancel_timer], for the
    timer at position [i] whose submenu is item [m]. *)
Definition without_timer (i m : nat) (mi : MenuItem) (w : World) : World :=
  mkWorld (now w) (timers w) (threads w)
    (<[m := set_item_deleted mi]> (items w))
    (delete i (active_timers w))
    (delete i (timer_submenus w))
    (indicate (length (delete i (active_timers w))) (status_indicator w))
    (calls w) (alerts w).

(** The text of the alert [show_alert] displays. *)
Definition alert_title (tm : SimpleTimer) : string :=
  "Your timer for " ++ title tm ++ " has ended!".

(** The label [update_submenus] gives a submenu whose label was [old],
    with its first "(" at position [i], for a timer with attributes [tm]
    and remaining time [r]. *)
Definition refreshed (old : string) (i : nat) (tm : SimpleTimer) (r : Z) : string :=
  String.substring 0 (i + 1) old
  ++ (if paused tm then "Paused, " ++ update_submenus_time_str r
      else update_submenus_time_str r)
  ++ " remaining)".

(** ** What a run driven by the menu keeps *)

(** The two lists go together and hold no object twice. *)
Definition lists_paired (w : World) : Prop :=
  length (active_timers w) = length (timer_submenus w)
  /\ NoDup (active_timers w) /\ NoDup (timer_submenus w).

(** The status indicator counts the active timers, and is greyed out when
    there is none. *)
Definition status_current (w : World) : Prop :=
  item_title (status_indicator w) = status_label (length (active_timers w))
  /\ item_enabled (status_indicator w)
     = negb (Nat.eqb (length (active_timers w)) 0).

(** Every timer was made by [start_timer]. *)
Definition timers_from_menu (w : World) : Prop :=
  forall t tm, timers w !! t = Some tm ->
    action tm = Some show_alert_fn /\ args tm = [] /\ started tm = true.

(** An active timer is not finished. *)
Definition active_unfinished (w : World) : Prop :=
  forall t, t ∈ active_timers w ->
    exists tm, timers w !! t = Some tm /\ finished tm = false.

(** A timer's action has been called once if the timer is finished and
    not at all otherwise; a timer that is not active has no thread left
    that could call it. *)
Definition called_once (w : World) : Prop :=
  forall t tm, timers w !! t = Some tm ->
    (finished tm = false -> calls_of t w = [])
    /\ (finished tm = true -> exists c, calls_of t w = [c])
    /\ (t ∉ active_timers w -> silent t w).

(** A submenu in [timer_submenus] is displayed, has no action of its own
    and has a "(" in its label. *)
Definition submenus_shown (w : World) : Prop :=
  forall m, m ∈ timer_submenus w ->
    exists mi, items w !! m = Some mi /\ item_action mi = None
               /\ item_deleted mi = false
               /\ is_Some (String.index 0 "(" (item_title mi)).

(** The label of an active timer's submenu starts with the timer's title
    and " (", when the title itself has no "(". *)
Definition labels_titled (w : World) : Prop :=
  forall j t m tm mi,
    active_timers w !! j = Some t -> timer_submenus w !! j = Some m ->
    timers w !! t = Some tm -> items w !! m = Some mi ->
    String.index 0 "(" (title tm) = None ->
    exists rest, item_title mi = title tm ++ " (" ++ rest.

(** The entry that pauses and resumes a timer. *)
Definition is_toggle (mi : MenuItem) : bool :=
  match item_action mi with
  | Some pause_timer_fn | Some resume_timer_fn => true
  | _ => false
  end.

(** The arguments of the entries: a finite duration for [start_timer], a
    timer for the entries of a submenu; and an active timer's entry reads
    "Pause" with action [pause_timer] while the timer runs, "Resume" with
    action [resume_timer] while it is paused. *)
Definition entries_bound (w : World) : Prop :=
  forall item mi, items w !! item = Some mi ->
    match item_action mi with
    | Some start_timer_fn => exists d, item_args mi = [VSeconds (Sec d)]
    | Some pause_timer_fn =>
        exists t, item_args mi = [VRef t] /\ (t < length (timers w))%nat
                  /\ item_title mi = "Pause"
                  /\ (t ∈ active_timers w -> is_paused t w = false)
    | Some resume_timer_fn =>
        exists t, item_args mi = [VRef t] /\ (t < length (timers w))%nat
                  /\ item_title mi = "Resume"
                  /\ (t ∈ active_timers w -> is_paused t w = true)
    | Some cancel_timer_fn =>
        exists t, item_args mi = [VRef t] /\ (t < length (timers w))%nat
    | _ => True
    end.

(** A timer has one such entry. *)
Definition toggle_unique (w : World) : Prop :=
  forall i1 i2 m1 m2 t,
    items w !! i1 = Some m1 -> items w !! i2 = Some m2 ->
    is_toggle m1 = true -> is_toggle m2 = true ->
    item_args m1 = [VRef t] -> item_args m2 = [VRef t] -> i1 = i2.

(** One alert was shown for each call of [show_alert]. *)
Definition alerts_shown (w : World) : Prop :=
  alerts w = map (fun c => alert_title (call_view c)) (calls w).

Record tidy (w : World) : Prop := mk_tidy {
  tidy_wf : wf w;
  tidy_orderly : orderly w;
  tidy_lists : lists_paired w;
  tidy_status : status_current w;
  tidy_timers : timers_from_menu w;
  tidy_active : active_unfinished w;
  tidy_calls : called_once w;
  tidy_submenus : submenus_shown w;
  tidy_labels : labels_titled w;
  tidy_entries : entries_bound w;
  tidy_toggle : toggle_unique w;
  tidy_alerts : alerts_shown w
}.

(** * Properties *)

(** ** Running statements *)

Lemma bind_ok {A B} (m : M A) (k : A -> M B) w a w' :
  m w = (Ok a, w') -> bind m k w = k a w'.
Proof. unfold bind. intros ->. reflexivity. Qed.

Lemma bind_raise {A B} (m : M A) (k : A -> M B) w e w' :
  m w = (Raise e, w') -> bind m k w = (Raise e, w').
Proof. unfold bind. intros ->. reflexivity. Qed.

Lemma bind_assoc {A B C} (m : M A) (k : A -> M B) (k' : B -> M C) w :
  bind (bind m k) k' w = bind m (fun a => bind (k a) k') w.
Proof. unfold bind. by destruct (m w) as [[a | e] w']. Qed.

Lemma bind_gets {A B} (f : World -> A) (k : A -> M B) w :
  bind (gets f) k w = k (f w) w.
Proof. reflexivity. Qed.

Lemma timer_get_ok self w tm :
  timers w !! self = Some tm -> timer_get self w = (Ok tm, w).
Proof. unfold timer_get. intros ->. reflexivity. Qed.

Lemma timer_get_dangling self w :
  timers w !! self = None -> timer_get self w = (Raise Dangling, w).
Proof. unfold timer_get. intros ->. reflexivity. Qed.

Lemma timer_set_ok self f w tm :
  timers w !! self = Some tm ->
  timer_set self f w = (Ok tt, with_timers (<[self := f tm]> (timers w)) w).
Proof. unfold timer_set, bind, timer_get. intros ->. reflexivity. Qed.

Lemma timer_set_dangling self f w :
  timers w !! self = None -> timer_set self f w = (Raise Dangling, w).
Proof. unfold timer_set, bind, timer_get. intros ->. reflexivity. Qed.

Lemma thread_get_ok i w th :
  threads w !! i = Some th -> thread_get i w = (Ok th, w).
Proof. unfold thread_get. intros ->. reflexivity. Qed.

Lemma thread_get_dangling i w :
  threads w !! i = None -> thread_get i w = (Raise Dangling, w).
Proof. unfold thread_get. intros ->. reflexivity. Qed.

Lemma thread_set_ok i f w th :
  threads w !! i = Some th ->
  thread_set i f w = (Ok tt, with_threads (<[i := f th]> (threads w)) w).
Proof. unfold thread_set, bind, thread_get. intros ->. reflexivity. Qed.

Lemma thread_set_dangling i f w :
  threads w !! i = None -> thread_set i f w = (Raise Dangling, w).
Proof. unfold thread_set, bind, thread_get. intros ->. reflexivity. Qed.

Lemma time_remaining_ok self w tm :
  timers w !! self = Some tm ->
  SimpleTimer.time_remaining self w = (SimpleTimer.time_remaining_at tm (now w), w).
Proof.
  intros H. unfold SimpleTimer.time_remaining.
  rewrite (bind_ok _ _ _ _ _ (timer_get_ok _ _ _ H)). reflexivity.
Qed.

Lemma time_remaining_dangling self w :
  timers w !! self = None ->
  SimpleTimer.time_remaining self w = (Raise Dangling, w).
Proof.
  intros H. unfold SimpleTimer.time_remaining.
  rewrite (bind_raise _ _ _ _ _ (timer_get_dangling _ _ H)). reflexivity.
Qed.

Lemma thread_start_ok i w th :
  threads w !! i = Some th ->
  stage th = Initial ->
  thread_start i w =
    (Ok tt,
     with_threads (<[i := set_stage (Waiting (now w + interval th)) th]> (threads w)) w).
Proof.
  intros Hth Hst. unfold thread_start.
  rewrite (bind_ok _ _ _ _ _ (thread_get_ok _ _ _ Hth)), Hst.
  unfold datetime_now, gets. unfold bind at 1.
  rewrite (thread_set_ok _ _ _ _ Hth). reflexivity.
Qed.

Lemma thread_start_twice i w th :
  threads w !! i = Some th ->
  stage th <> Initial ->
  thread_start i w = (Raise RuntimeError, w).
Proof.
  intros Hth Hst. unfold thread_start.
  rewrite (bind_ok _ _ _ _ _ (thread_get_ok _ _ _ Hth)).
  destruct (stage th); [done | reflexivity | reflexivity].
Qed.

Lemma thread_cancel_ok i w th :
  threads w !! i = Some th ->
  thread_cancel i w =
    (Ok tt, with_threads (<[i := mark_event true th]> (threads w)) w).
Proof. apply thread_set_ok. Qed.

Lemma lookup_insert_same {A} (l : list A) i x y :
  l !! i = Some y -> <[i := x]> l !! i = Some x.
Proof. intros H. apply list_lookup_insert_eq. eapply lookup_lt_Some, H. Qed.

(** Worlds in normal form: the constructor applied to the updated fields. *)
Ltac norm :=
  unfold with_now, with_timers, with_threads, with_items, with_active_timers,
    with_timer_submenus, with_status_indicator, with_calls, with_alerts in *;
  cbn [now timers threads items active_timers timer_submenus status_indicator
       calls alerts fst snd] in *.

(** One statement of a method body, when it succeeds on a heap lookup. *)
Ltac run_step :=
  erewrite bind_ok
    by (first [ apply time_remaining_ok | apply timer_set_ok | apply timer_get_ok
              | apply thread_set_ok | apply thread_get_ok ];
        norm; eauto using lookup_insert_same);
  norm.

(** ** What each method of [SimpleTimer] does *)

Lemma init_ok title d action args w :
  SimpleTimer.init title (Sec d) action args w =
    (Ok (length (timers w)),
     with_timers (timers w ++ [new_timer title d action args w])
       (with_threads (threads w ++ [mkTimer d (length (timers w)) false Initial]) w)).
Proof. reflexivity. Qed.

Lemma init_returns title x d action args w :
  timedelta_of x = Ok d ->
  SimpleTimer.init title x action args w =
    (Ok (length (timers w)),
     with_timers
       (timers w ++ [mkSimpleTimer title x false false false action
                       (default [] args) (now w) (now w + d)
                       (length (threads w)) None])
       (with_threads (threads w ++ [mkTimer d (length (timers w)) false Initial]) w)).
Proof.
  intros H. unfold SimpleTimer.init, timedelta, of_result, bind, gets, datetime_now.
  simpl. by rewrite H.
Qed.

Lemma init_raises title x e action args w :
  timedelta_of x = Raise e ->
  SimpleTimer.init title x action args w = (Raise e, w).
Proof.
  intros H. unfold SimpleTimer.init, timedelta, of_result, bind, gets, datetime_now.
  simpl. by rewrite H.
Qed.

Lemma init_not_finite title x action args w :
  (forall d, timedelta_of x <> Ok d) ->
  exists e, SimpleTimer.init title x action args w = (Raise e, w).
Proof.
  intros H. destruct (timedelta_of x) as [d | e] eqn:Hx.
  - by destruct (H d).
  - exists e. by apply init_raises.
Qed.

Lemma cancel_ok self w tm th :
  timers w !! self = Some tm ->
  threads w !! __timer tm = Some th ->
  SimpleTimer.cancel self w =
    (Ok tt, with_threads (<[__timer tm := mark_event true th]> (threads w)) w).
Proof.
  intros Htm Hth. unfold SimpleTimer.cancel. run_step.
  erewrite thread_cancel_ok by eauto. reflexivity.
Qed.

Lemma pause_ok self w tm th r :
  timers w !! self = Some tm ->
  threads w !! __timer tm = Some th ->
  SimpleTimer.time_remaining_at tm (now w) = Ok r ->
  SimpleTimer.pause self w =
    (Ok tt,
     with_threads (<[__timer tm := mark_event true th]> (threads w))
       (with_timers
          (<[self := set_paused true (set___time_remaining r tm)]> (timers w)) w)).
Proof.
  intros Htm Hth Hr. unfold SimpleTimer.pause.
  erewrite bind_ok; [| rewrite (time_remaining_ok _ _ _ Htm), Hr; reflexivity].
  do 3 run_step. erewrite thread_cancel_ok by (norm; eauto).
  norm. rewrite list_insert_insert_eq. reflexivity.
Qed.

Lemma pause_raises self w tm e :
  timers w !! self = Some tm ->
  SimpleTimer.time_remaining_at tm (now w) = Raise e ->
  SimpleTimer.pause self w = (Raise e, w).
Proof.
  intros Htm Hr. unfold SimpleTimer.pause.
  erewrite bind_raise; [reflexivity |].
  rewrite (time_remaining_ok _ _ _ Htm), Hr. reflexivity.
Qed.

(** The remaining time read a second time in [resume], after [end_time]
    was assigned, is the one read first. *)
Lemma time_remaining_at_resumed tm clock r :
  SimpleTimer.time_remaining_at tm clock = Ok r ->
  SimpleTimer.time_remaining_at (set_end_time (clock + r) tm) clock = Ok r.
Proof.
  unfold SimpleTimer.time_remaining_at. simpl.
  destruct (finished tm); [done |].
  destruct (paused tm); [done |].
  intros [= <-]. f_equal. lia.
Qed.

Lemma resume_ok self w tm r :
  timers w !! self = Some tm ->
  SimpleTimer.time_remaining_at tm (now w) = Ok r ->
  SimpleTimer.resume self w =
    (Ok tt,
     with_timers (<[self := resumed self r tm w]> (timers w))
       (with_threads (threads w ++ [mkTimer r self false (Waiting (now w + r))]) w)).
Proof.
  intros Htm Hr. unfold SimpleTimer.resume.
  unfold datetime_now at 1. unfold gets at 1. unfold bind at 1.
  erewrite bind_ok; [| rewrite (time_remaining_ok _ _ _ Htm), Hr; reflexivity].
  run_step.
  erewrite bind_ok;
    [| erewrite time_remaining_ok by (norm; eauto using lookup_insert_same);
       norm; rewrite (time_remaining_at_resumed _ _ _ Hr); reflexivity ].
  unfold thread_new at 1. unfold bind at 1. norm.
  run_step.
  erewrite bind_ok
    by (eapply thread_start_ok; [norm; apply list_lookup_middle |]; reflexivity).
  norm.
  erewrite timer_set_ok by (norm; eauto using lookup_insert_same).
  norm. rewrite !list_insert_insert_eq.
  rewrite insert_app_r_alt by lia. rewrite Nat.sub_diag. reflexivity.
Qed.

Lemma resume_raises self w tm e :
  timers w !! self = Some tm ->
  SimpleTimer.time_remaining_at tm (now w) = Raise e ->
  SimpleTimer.resume self w = (Raise e, w).
Proof.
  intros Htm Hr. unfold SimpleTimer.resume.
  unfold datetime_now at 1. unfold gets at 1. unfold bind at 1.
  erewrite bind_raise; [reflexivity |].
  rewrite (time_remaining_ok _ _ _ Htm), Hr. reflexivity.
Qed.

Lemma start_ok self w tm th :
  timers w !! self = Some tm ->
  threads w !! __timer tm = Some th ->
  stage th = Initial ->
  SimpleTimer.start self w =
    (Ok tt,
     with_threads
       (<[__timer tm := set_stage (Waiting (now w + interval th)) th]> (threads w))
       (with_timers (<[self := set_started true tm]> (timers w)) w)).
Proof.
  intros Htm Hth Hst. unfold SimpleTimer.start. do 2 run_step.
  erewrite thread_start_ok by (norm; eauto). reflexivity.
Qed.

Lemma start_twice self w tm th :
  timers w !! self = Some tm ->
  threads w !! __timer tm = Some th ->
  stage th <> Initial ->
  SimpleTimer.start self w =
    (Raise RuntimeError, with_timers (<[self := set_started true tm]> (timers w)) w).
Proof.
  intros Htm Hth Hst. unfold SimpleTimer.start. do 2 run_step.
  erewrite thread_start_twice by (norm; eauto). reflexivity.
Qed.

(** ** The timer engine and the menus *)

Lemma same_engine_refl w : same_engine w w.
Proof. by repeat split. Qed.

Lemma same_engine_sym w w' : same_engine w w' -> same_engine w' w.
Proof. intros (? & ? & ? & ?). by repeat split. Qed.

Lemma same_engine_trans w1 w2 w3 :
  same_engine w1 w2 -> same_engine w2 w3 -> same_engine w1 w3.
Proof.
  intros (? & ? & ? & ?) (? & ? & ? & ?). repeat split; congruence.
Qed.

Lemma menu_only_bind {A B} (m : M A) (k : A -> M B) :
  menu_only m -> (forall a, menu_only (k a)) -> menu_only (bind m k).
Proof.
  intros Hm Hk w. unfold bind. specialize (Hm w).
  destruct (m w) as [[a | e] w1]; simpl in *; [| done].
  eapply same_engine_trans; [exact Hm | apply Hk].
Qed.

Lemma menu_only_ret {A} (a : A) : menu_only (ret a).
Proof. intros w. apply same_engine_refl. Qed.

Lemma menu_only_raise {A} e : menu_only (@raise A e).
Proof. intros w. apply same_engine_refl. Qed.

Lemma menu_only_gets {A} (f : World -> A) : menu_only (gets f).
Proof. intros w. apply same_engine_refl. Qed.

Lemma menu_only_of_option {A} (o : option A) e : menu_only (of_option o e).
Proof. destruct o; [apply menu_only_ret | apply menu_only_raise]. Qed.

Lemma menu_only_of_result {A} (r : result A) : menu_only (of_result r).
Proof. intros w. apply same_engine_refl. Qed.

Lemma menu_only_modify f :
  (forall w, same_engine w (f w)) -> menu_only (modify f).
Proof. intros H w. apply H. Qed.

Lemma menu_only_timer_get t : menu_only (timer_get t).
Proof. intros w. unfold timer_get. apply menu_only_of_option. Qed.

Lemma menu_only_item_get i : menu_only (item_get i).
Proof. intros w. unfold item_get. apply menu_only_of_option. Qed.

Lemma menu_only_item_set i f : menu_only (item_set i f).
Proof.
  apply menu_only_bind; [apply menu_only_item_get |].
  intros m. by apply menu_only_modify.
Qed.

Lemma menu_only_new_item label act a : menu_only (new_item label act a).
Proof. by intros w. Qed.

Lemma menu_only_time_remaining t : menu_only (SimpleTimer.time_remaining t).
Proof.
  apply menu_only_bind; [apply menu_only_timer_get |]. intros tm.
  apply menu_only_bind; [apply menu_only_gets |]. intros clock.
  apply menu_only_of_result.
Qed.

(** Closes [menu_only] goals by following the structure of the statement. *)
Ltac menu_only :=
  repeat first
    [ apply menu_only_ret | apply menu_only_raise | apply menu_only_gets
    | apply menu_only_of_option | apply menu_only_of_result
    | apply menu_only_timer_get | apply menu_only_item_get
    | apply menu_only_item_set | apply menu_only_new_item
    | apply menu_only_time_remaining
    | apply menu_only_modify; intros ?; by repeat split
    | apply menu_only_bind; [| intros ?]
    | match goal with |- menu_only (match ?x with _ => _ end) => destruct x end
    | match goal with |- menu_only (if ?x then _ else _) => destruct x end ].

Lemma menu_only_update_status_indicator : menu_only update_status_indicator.
Proof. unfold update_status_indicator. menu_only. Qed.

Lemma menu_only_pop_submenu t : menu_only (pop_submenu t).
Proof. unfold pop_submenu. menu_only. Qed.

Lemma menu_only_remove_active t : menu_only (remove_active t).
Proof. unfold remove_active. menu_only. Qed.

Lemma menu_only_show_alert t : menu_only (show_alert t).
Proof.
  unfold show_alert.
  apply menu_only_bind; [apply menu_only_pop_submenu | intros _].
  apply menu_only_bind; [apply menu_only_remove_active | intros _].
  apply menu_only_bind; [apply menu_only_update_status_indicator | intros _].
  menu_only.
Qed.

Lemma menu_only_label_stem s : menu_only (label_stem s).
Proof. unfold label_stem. menu_only. Qed.

Lemma menu_only_update_submenu i t : menu_only (update_submenu i t).
Proof.
  unfold update_submenu.
  do 5 (apply menu_only_bind; [menu_only | intros ?]).
  apply menu_only_bind; [apply menu_only_label_stem | intros ?]. menu_only.
Qed.

Lemma menu_only_update_submenus_from ts :
  forall i, menu_only (update_submenus_from i ts).
Proof.
  induction ts as [| t ts IH]; intros i; simpl; [apply menu_only_ret |].
  apply menu_only_bind; [apply menu_only_update_submenu | intros _; apply IH].
Qed.

Lemma menu_only_update_submenus : menu_only update_submenus.
Proof.
  apply menu_only_bind; [apply menu_only_gets |].
  intros ts. apply menu_only_update_submenus_from.
Qed.

Lemma engine_fn_bind {A B} (m : M A) (k : A -> M B) :
  engine_fn m -> (forall a, engine_fn (k a)) -> engine_fn (bind m k).
Proof.
  intros Hm Hk w1 w2 H. unfold bind. destruct (Hm w1 w2 H) as [Hr Hw].
  destruct (m w1) as [[a1 | e1] w1'], (m w2) as [[a2 | e2] w2'];
    simpl in *; simplify_eq; [by apply Hk | done].
Qed.

Lemma engine_fn_ret {A} (a : A) : engine_fn (ret a).
Proof. by intros w1 w2 H. Qed.

Lemma engine_fn_raise {A} e : engine_fn (@raise A e).
Proof. by intros w1 w2 H. Qed.

Lemma engine_fn_of_option {A} (o : option A) e : engine_fn (of_option o e).
Proof. destruct o; [apply engine_fn_ret | apply engine_fn_raise]. Qed.

Lemma engine_fn_of_result {A} (r : result A) : engine_fn (of_result r).
Proof. by intros w1 w2 H. Qed.

Lemma engine_fn_datetime_now : engine_fn datetime_now.
Proof. intros w1 w2 H. split; [| done]. simpl. f_equal. apply H. Qed.

Lemma engine_fn_timedelta x : engine_fn (timedelta x).
Proof. apply engine_fn_of_result. Qed.

Lemma engine_fn_timer_get t : engine_fn (timer_get t).
Proof.
  intros w1 w2 H. unfold timer_get.
  destruct H as (? & Ht & ? & ?). rewrite <- Ht.
  destruct (timers w1 !! t); simpl; by repeat split.
Qed.

Lemma engine_fn_thread_get i : engine_fn (thread_get i).
Proof.
  intros w1 w2 H. unfold thread_get.
  destruct H as (? & ? & Ht & ?). rewrite <- Ht.
  destruct (threads w1 !! i); simpl; by repeat split.
Qed.

Lemma engine_fn_timer_set t f : engine_fn (timer_set t f).
Proof.
  apply engine_fn_bind; [apply engine_fn_timer_get |].
  intros tm w1 w2 (? & Ht & ? & ?). split; [done |].
  repeat split; simpl; congruence.
Qed.

Lemma engine_fn_thread_set i f : engine_fn (thread_set i f).
Proof.
  apply engine_fn_bind; [apply engine_fn_thread_get |].
  intros tm w1 w2 (? & ? & Ht & ?). split; [done |].
  repeat split; simpl; congruence.
Qed.

Lemma engine_fn_thread_new d t : engine_fn (thread_new d t).
Proof.
  intros w1 w2 (? & ? & Ht & ?). unfold thread_new. simpl.
  rewrite Ht. by repeat split.
Qed.

Lemma engine_fn_thread_start i : engine_fn (thread_start i).
Proof.
  apply engine_fn_bind; [apply engine_fn_thread_get |]. intros th.
  destruct (stage th); [| apply engine_fn_raise ..].
  apply engine_fn_bind; [apply engine_fn_datetime_now |]. intros clock.
  apply engine_fn_thread_set.
Qed.

Lemma engine_fn_thread_cancel i : engine_fn (thread_cancel i).
Proof. apply engine_fn_thread_set. Qed.

Lemma engine_fn_time_remaining t : engine_fn (SimpleTimer.time_remaining t).
Proof.
  apply engine_fn_bind; [apply engine_fn_timer_get |]. intros tm.
  apply engine_fn_bind; [apply engine_fn_datetime_now |]. intros clock.
  apply engine_fn_of_result.
Qed.

Ltac engine_fn :=
  repeat first
    [ apply engine_fn_ret | apply engine_fn_raise | apply engine_fn_of_option
    | apply engine_fn_of_result | apply engine_fn_datetime_now
    | apply engine_fn_timedelta | apply engine_fn_timer_get
    | apply engine_fn_thread_get | apply engine_fn_timer_set
    | apply engine_fn_thread_set | apply engine_fn_thread_new
    | apply engine_fn_thread_start | apply engine_fn_thread_cancel
    | apply engine_fn_time_remaining
    | apply engine_fn_bind; [| intros ?] ].

Lemma engine_fn_init title x action args :
  engine_fn (SimpleTimer.init title x action args).
Proof.
  unfold SimpleTimer.init.
  apply engine_fn_bind.
  { intros w1 w2 (? & Ht & ? & ?). simpl. rewrite Ht. by repeat split. }
  intros self. do 4 (apply engine_fn_bind; [engine_fn | intros ?]).
  apply engine_fn_bind; [| intros ?; engine_fn].
  intros w1 w2 (? & Ht & ? & ?). simpl. rewrite Ht. by repeat split.
Qed.

Lemma engine_fn_start t : engine_fn (SimpleTimer.start t).
Proof. unfold SimpleTimer.start. engine_fn. Qed.

Lemma engine_fn_cancel t : engine_fn (SimpleTimer.cancel t).
Proof. unfold SimpleTimer.cancel. engine_fn. Qed.

Lemma engine_fn_pause t : engine_fn (SimpleTimer.pause t).
Proof. unfold SimpleTimer.pause. engine_fn. Qed.

Lemma engine_fn_resume t : engine_fn (SimpleTimer.resume t).
Proof. unfold SimpleTimer.resume. engine_fn. Qed.

(** What follows an engine statement in a handler is registry code. *)
Lemma before_menu {A B} (m : M A) (k : A -> M B) w :
  (forall a, menu_only (k a)) ->
  same_engine (snd (m w)) (snd (bind m k w)).
Proof.
  intros Hk. unfold bind. destruct (m w) as [[a | e] w1]; simpl.
  - apply Hk.
  - apply same_engine_refl.
Qed.

(** ** Events as effects on the engine *)

Lemma does_all_engine ls w w1 w2 :
  does_all ls w w1 -> same_engine w1 w2 -> does_all ls w w2.
Proof.
  induction 1 as [w w' H | l ls w wa w' Hl Hls IH]; intros H2.
  - constructor. by eapply same_engine_trans.
  - econstructor; [exact Hl | by apply IH].
Qed.

Lemma does_one l w w' : does l w w' -> does_all [l] w w'.
Proof. intros H. econstructor; [exact H |]. constructor. apply same_engine_refl. Qed.

Lemma does_none w : does_all [] w w.
Proof. constructor. apply same_engine_refl. Qed.

Lemma wf_thread w t tm :
  wf w -> timers w !! t = Some tm ->
  exists th, threads w !! __timer tm = Some th /\ function th = t.
Proof. intros (H & _) Ht. by apply H. Qed.

Lemma cancel_does t w :
  wf w ->
  exists ls, does_all ls w (run (SimpleTimer.cancel t) w)
             /\ (ls = [] \/ ls = [Cancelled t]).
Proof.
  intros Hwf. unfold run. destruct (timers w !! t) as [tm |] eqn:Htm.
  - destruct (wf_thread _ _ _ Hwf Htm) as (th & Hth & _).
    rewrite (cancel_ok _ _ _ _ Htm Hth). exists [Cancelled t]. split; [| by right].
    apply does_one. by econstructor.
  - unfold SimpleTimer.cancel. rewrite (bind_raise _ _ _ _ _ (timer_get_dangling _ _ Htm)).
    exists []. split; [apply does_none | by left].
Qed.

Lemma pause_does t w :
  wf w ->
  exists ls, does_all ls w (run (SimpleTimer.pause t) w)
             /\ (ls = [] \/ ls = [Paused t]).
Proof.
  intros Hwf. unfold run. destruct (timers w !! t) as [tm |] eqn:Htm.
  - destruct (wf_thread _ _ _ Hwf Htm) as (th & Hth & _).
    destruct (SimpleTimer.time_remaining_at tm (now w)) as [r | e] eqn:Hr.
    + rewrite (pause_ok _ _ _ _ _ Htm Hth Hr). exists [Paused t]. split; [| by right].
      apply does_one. by econstructor.
    + rewrite (pause_raises _ _ _ _ Htm Hr). exists []. split; [apply does_none | by left].
  - unfold SimpleTimer.pause.
    rewrite (bind_raise _ _ _ _ _ (time_remaining_dangling _ _ Htm)).
    exists []. split; [apply does_none | by left].
Qed.

Lemma resume_does t w :
  exists ls, does_all ls w (run (SimpleTimer.resume t) w)
             /\ (ls = [] \/ ls = [Resumed t]).
Proof.
  unfold run. destruct (timers w !! t) as [tm |] eqn:Htm.
  - destruct (SimpleTimer.time_remaining_at tm (now w)) as [r | e] eqn:Hr.
    + rewrite (resume_ok _ _ _ _ Htm Hr). exists [Resumed t]. split; [| by right].
      apply does_one. by econstructor.
    + rewrite (resume_raises _ _ _ _ Htm Hr). exists []. split; [apply does_none | by left].
  - unfold SimpleTimer.resume, datetime_now, gets. unfold bind at 1.
    rewrite (bind_raise _ _ _ _ _ (time_remaining_dangling _ _ Htm)).
    exists []. split; [apply does_none | by left].
Qed.

Lemma start_does t w :
  wf w ->
  exists ls, does_all ls w (run (SimpleTimer.start t) w)
             /\ (ls = [] \/ ls = [Started t] \/ ls = [Started t; Armed t]).
Proof.
  intros Hwf. unfold run. destruct (timers w !! t) as [tm |] eqn:Htm.
  - destruct (wf_thread _ _ _ Hwf Htm) as (th & Hth & _).
    assert (stage th = Initial \/ stage th <> Initial) as [Hst | Hst]
      by (destruct (stage th); [by left | by right ..]).
    + rewrite (start_ok _ _ _ _ Htm Hth Hst).
      exists [Started t; Armed t]. split; [| by right; right].
      econstructor; [by econstructor |].
      apply does_one.
      assert (timers (with_timers (<[t := set_started true tm]> (timers w)) w) !! t
              = Some (set_started true tm)) as Htm'
        by (norm; eauto using lookup_insert_same).
      exact (does_armed _ t _ th Htm' Hth Hst).
    + rewrite (start_twice _ _ _ _ Htm Hth Hst).
      exists [Started t]. split; [| by right; left].
      apply does_one. by econstructor.
  - unfold SimpleTimer.start.
    rewrite (bind_raise _ _ _ _ _ (timer_set_dangling _ _ _ Htm)).
    exists []. split; [apply does_none | by left].
Qed.

Lemma new_does title x action args w :
  exists ls, does_all ls w (run (SimpleTimer.init title x action args) w)
             /\ (ls = [] \/ ls = [Created]).
Proof.
  unfold run. destruct (timedelta_of x) as [d | e] eqn:Hx.
  - rewrite (init_returns _ _ _ _ _ _ Hx). exists [Created]. split; [| by right].
    apply does_one. apply (does_create w title x d action args).
  - rewrite (init_raises _ _ _ _ _ _ Hx). exists []. split; [apply does_none | by left].
Qed.

(** A thread that is due (waiting, with its event set or its interval
    over) leaves its wait; a wake-up of any other thread changes nothing. *)
Lemma wake_cases i w :
  wf w ->
  (exists w1, does (Woken i) w w1 /\ same_engine w1 (run (wake i) w))
  \/ (run (wake i) w = w
      /\ forall th d, threads w !! i = Some th -> stage th = Waiting d ->
           event_set th = false /\ now w < d).
Proof.
  intros Hwf. unfold run.
  destruct (threads w !! i) as [th |] eqn:Hth; cycle 1.
  { unfold wake. rewrite (bind_raise _ _ _ _ _ (thread_get_dangling _ _ Hth)).
    by right. }
  unfold wake. rewrite (bind_ok _ _ _ _ _ (thread_get_ok _ _ _ Hth)).
  unfold datetime_now. rewrite !bind_gets.
  destruct (stage th) as [| d |] eqn:Hst;
    [right; split; [done | intros ? ? [= <-]; congruence] |
    | right; split; [done | intros ? ? [= <-]; congruence] ].
  assert (Hone : forall w', does_all [Woken i] w w' ->
            exists w1, does (Woken i) w w1 /\ same_engine w1 w').
  { intros w' H. inversion H as [| l ls wa w1 wb Hl Hrest]; subst.
    inversion Hrest; subst. by exists w1. }
  destruct (event_set th) eqn:Hev; cbn [orb].
  - (* the event is set: the function is not called *)
    erewrite bind_ok by (by apply thread_set_ok).
    unfold ret at 1. unfold bind at 1.
    erewrite thread_set_ok by (norm; eauto using lookup_insert_same).
    norm. rewrite list_insert_insert_eq.
    left. apply Hone, does_one.
    exact (does_skip w i th d Hth Hst Hev).
  - destruct (Z.leb d (now w)) eqn:Hd; cycle 1.
    { right. split; [done |]. intros ? ? [= <-] Hw.
      apply Z.leb_gt in Hd. split; [done | congruence]. }
    apply Z.leb_le in Hd. left. apply Hone.
    erewrite bind_ok by (by apply thread_set_ok).
    destruct Hwf as (Hwf1 & Hwf2 & Hwf3).
    destruct (lookup_lt_is_Some_2 (timers w) (function th)) as [tm Htm];
      [by eapply Hwf2 |].
    cbv iota. unfold SimpleTimer.run_action. rewrite !bind_assoc.
    erewrite (bind_ok (timer_set _ _)) by (apply timer_set_ok; norm; eauto).
    unfold SimpleTimer.call_action. rewrite !bind_assoc.
    erewrite (bind_ok (timer_get _))
      by (apply timer_get_ok; norm; eauto using lookup_insert_same).
    norm. cbn [action set_finished args].
    pose proof (does_fire w i th d tm (set_stage Done th) Hth Hst Hev Hd Htm
                  (or_introl eq_refl)) as Hquit.
    pose proof (does_fire w i th d tm (mark_event true (set_stage Done th))
                  Hth Hst Hev Hd Htm (or_intror eq_refl)) as Hset.
    unfold fired_calls in Hquit, Hset.
    destruct (action tm) as [f |] eqn:Hact; [| by apply does_one].
    destruct (SimpleTimer.accepts f (args tm)) eqn:Hacc; [| by apply does_one].
    rewrite !bind_assoc. unfold datetime_now, gets. unfold bind at 1.
    rewrite !bind_assoc. unfold modify at 1. unfold bind at 1. norm.
    destruct f as [| name].
    + unfold bind.
      match goal with
      | |- context [show_alert ?t ?w3] =>
          pose proof (menu_only_show_alert t w3) as Hm;
          destruct (show_alert t w3) as [[[] | e] w4]
      end; cbn [fst snd] in Hm; destruct Hm as (Hm1 & Hm2 & Hm3 & Hm4);
        norm.
      * erewrite thread_set_ok
          by (rewrite <- Hm3; eauto using lookup_insert_same).
        econstructor; [exact Hset |]. constructor.
        repeat split; norm; try done.
        by rewrite <- Hm3, list_insert_insert_eq.
      * econstructor; [exact Hquit |]. constructor. by repeat split.
    + unfold ret at 1. unfold bind at 1.
      erewrite thread_set_ok by (norm; eauto using lookup_insert_same).
      norm. rewrite list_insert_insert_eq. by apply does_one.
Qed.

Lemma wake_does i w :
  wf w ->
  exists ls, does_all ls w (run (wake i) w) /\ (ls = [] \/ ls = [Woken i]).
Proof.
  intros Hwf. destruct (wake_cases i w Hwf) as [(w1 & H1 & H2) | (H1 & _)].
  - exists [Woken i]. split; [| by right].
    econstructor; [exact H1 | by constructor].
  - exists []. split; [| by left]. rewrite H1. apply does_none.
Qed.

Lemma after_menu_ok {A B} (p : M A) (k : A -> M B) (m : M B) w :
  menu_only p -> engine_fn m ->
  (exists a, fst (p w) = Ok a) ->
  (forall a w1, p w = (Ok a, w1) -> same_engine w w1 ->
     same_engine (snd (m w1)) (snd (k a w1))) ->
  same_engine (snd (m w)) (snd (bind p k w)).
Proof.
  intros Hp Hm [a Ha] Hok. unfold bind. specialize (Hp w).
  destruct (p w) as [[a' | e] w1] eqn:E; simpl in *; [| done].
  eapply same_engine_trans; [| by apply Hok]. by apply Hm.
Qed.

Lemma update_status_indicator_returns w :
  fst (update_status_indicator w) = Ok tt.
Proof.
  unfold update_status_indicator, gets. unfold bind at 1.
  by destruct (length (active_timers w)) as [| [| n]].
Qed.

Section Traces.

Variable float_str : seconds -> string.
Variable round_minutes_str : seconds -> string.

Local Abbreviation start_timer' := (start_timer float_str round_minutes_str).
Local Abbreviation create_custom_timer' := (create_custom_timer float_str round_minutes_str).
Local Abbreviation step' := (step float_str round_minutes_str).
Local Abbreviation exec' := (exec float_str round_minutes_str).
Local Abbreviation respects' := (respects float_str round_minutes_str).

Lemma cancel_timer_does item t w :
  wf w ->
  exists ls, does_all ls w (run (cancel_timer item t) w)
             /\ (ls = [] \/ ls = [Cancelled t]).
Proof.
  intros Hwf. unfold run, cancel_timer, bind at 1.
  pose proof (menu_only_pop_submenu t w) as Hp.
  destruct (pop_submenu t w) as [[[] | e] w1]; cbn [fst snd] in *.
  - destruct (cancel_does t w Hwf) as (ls & Hls & Hcase).
    exists ls. split; [| done].
    eapply does_all_engine; [exact Hls |].
    eapply same_engine_trans; [by apply engine_fn_cancel |].
    apply before_menu. intros _.
    apply menu_only_bind; [apply menu_only_remove_active | intros _].
    apply menu_only_update_status_indicator.
  - exists []. split; [by constructor | by left].
Qed.

Lemma pause_timer_does item t w :
  wf w ->
  exists ls, does_all ls w (run (pause_timer item t) w)
             /\ (ls = [] \/ ls = [Paused t]).
Proof.
  intros Hwf. destruct (pause_does t w Hwf) as (ls & Hls & Hcase).
  exists ls. split; [| done].
  eapply does_all_engine; [exact Hls |].
  apply before_menu. intros _. menu_only.
Qed.

Lemma resume_timer_does item t w :
  exists ls, does_all ls w (run (resume_timer item t) w)
             /\ (ls = [] \/ ls = [Resumed t]).
Proof.
  destruct (resume_does t w) as (ls & Hls & Hcase).
  exists ls. split; [| done].
  eapply does_all_engine; [exact Hls |].
  apply before_menu. intros _. menu_only.
Qed.

Lemma update_submenus_does w :
  does_all [] w (run update_submenus w).
Proof. constructor. apply menu_only_update_submenus. Qed.

Lemma start_armed_does t w tm th :
  timers w !! t = Some tm ->
  threads w !! __timer tm = Some th ->
  stage th = Initial ->
  does_all [Started t; Armed t] w (run (SimpleTimer.start t) w).
Proof.
  intros Htm Hth Hst. unfold run. rewrite (start_ok _ _ _ _ Htm Hth Hst).
  econstructor; [by econstructor |]. apply does_one.
  assert (timers (with_timers (<[t := set_started true tm]> (timers w)) w) !! t
          = Some (set_started true tm)) as Htm'
    by (norm; eauto using lookup_insert_same).
  exact (does_armed _ t _ th Htm' Hth Hst).
Qed.

(** The rest of [start_timer], once the timer object exists, does to the
    engine what [timer.start()] does. *)
Lemma start_timer_rest_engine title timer w tm :
  timers w !! timer = Some tm ->
  paused tm = false ->
  same_engine (snd (SimpleTimer.start timer w))
    (snd ((modify (fun w => with_active_timers (active_timers w ++ [timer]) w) ;;
           modify (fun w => with_status_indicator
                     (set_item_enabled true (status_indicator w)) w) ;;
           update_status_indicator ;;
           total <- SimpleTimer.time_remaining timer ;;
           timer_submenu <-
             new_item (title ++ " (" ++ start_timer_time_str total ++ " remaining)")
               None [] ;;
           new_item "Pause" (Some pause_timer_fn) [VRef timer] ;;
           new_item "Cancel" (Some cancel_timer_fn) [VRef timer] ;;
           modify (fun w => with_timer_submenus
                     (timer_submenus w ++ [timer_submenu]) w) ;;
           SimpleTimer.start timer) w)).
Proof.
  intros Htm Hp.
  do 3 (apply after_menu_ok;
        [ first [apply menu_only_update_status_indicator | menu_only]
        | apply engine_fn_start
        | first [ by eexists; apply update_status_indicator_returns
                | by eexists ]
        | intros ? ? _ (_ & Heq & _ & _); rewrite Heq in Htm; clear Heq ]).
  apply after_menu_ok; [menu_only | apply engine_fn_start | |].
  { rewrite (time_remaining_ok _ _ _ Htm). unfold SimpleTimer.time_remaining_at.
    rewrite Hp. destruct (finished tm); by eexists. }
  intros total ? _ (_ & Heq & _ & _); rewrite Heq in Htm; clear Heq.
  apply after_menu_ok; [menu_only | apply engine_fn_start | by eexists |].
  intros timer_submenu ? _ _.
  do 3 (apply after_menu_ok; [menu_only | apply engine_fn_start | by eexists |];
        intros ? ? _ _).
  apply same_engine_refl.
Qed.

Lemma start_timer_does item x w :
  wf w ->
  exists ls, does_all ls w (run (start_timer' item x) w)
             /\ (ls = [] \/ ls = [Created; Started (length (timers w));
                                   Armed (length (timers w))]).
Proof.
  intros Hwf. unfold run, start_timer.
  destruct (items w !! item) as [m |] eqn:Hitem; cycle 1.
  { erewrite bind_raise by (unfold item_get; rewrite Hitem; reflexivity).
    exists []. split; [apply does_none | by left]. }
  erewrite bind_ok by (unfold item_get; rewrite Hitem; reflexivity).
  destruct (timedelta_of x) as [d | e] eqn:Hx; cycle 1.
  { erewrite bind_raise by (by apply init_raises).
    exists []; split; [apply does_none | by left]. }
  erewrite bind_ok by (by apply init_returns).
  exists [Created; Started (length (timers w)); Armed (length (timers w))].
  split; [| by right].
  econstructor; [eapply (does_create w) |].
  eapply does_all_engine.
  { eapply start_armed_does.
    - norm. by apply list_lookup_middle.
    - norm. cbn [__timer created_timer]. by apply list_lookup_middle.
    - reflexivity. }
  eapply start_timer_rest_engine.
  - norm. by apply list_lookup_middle.
  - reflexivity.
Qed.

Lemma create_custom_timer_does item response w :
  wf w ->
  exists ls, does_all ls w (run (create_custom_timer' item response) w)
             /\ (ls = [] \/ ls = [Created; Started (length (timers w));
                                   Armed (length (timers w))]).
Proof.
  intros Hwf. unfold create_custom_timer.
  destruct response as [answer |]; [| exists []; split; [apply does_none | by left]].
  destruct (Py.float answer.2) as [x |] eqn:Hx.
  - unfold run. erewrite bind_ok by reflexivity.
    by apply start_timer_does.
  - unfold run. erewrite bind_raise by reflexivity.
    exists []. split; [apply does_none | by left].
Qed.

(** Every event, seen from the engine, is a sequence of effects. *)
Lemma step_does e w :
  wf w -> exists ls, does_all ls w (run (step' e) w) /\ caused e w ls.
Proof.
  intros Hwf.
  destruct e as [d | i | ttl x act a | t | t | t | t | item x | item response
                | item t | item t | item t |]; cbn [step caused].
  - exists [Ticked]. split; [| done]. apply does_one. constructor.
  - by apply wake_does.
  - destruct (new_does ttl x act a w) as (ls & H1 & H2).
    exists ls. split; [| done].
    eapply does_all_engine; [exact H1 |]. apply before_menu. intros _. menu_only.
  - by apply start_does.
  - by apply cancel_does.
  - by apply pause_does.
  - by apply resume_does.
  - by apply start_timer_does.
  - by apply create_custom_timer_does.
  - by apply pause_timer_does.
  - by apply resume_timer_does.
  - by apply cancel_timer_does.
  - exists []. split; [apply update_submenus_does | done].
Qed.

(** ** Well-formed heaps stay well-formed *)

Lemma wf_set_thread w i th th' :
  threads w !! i = Some th -> function th' = function th ->
  wf w -> wf (with_threads (<[i := th']> (threads w)) w).
Proof.
  intros Hth Hf (H1 & H2 & H3). repeat split; norm.
  - intros t tm Htm. destruct (H1 t tm Htm) as (th0 & Hth0 & Hf0).
    destruct (decide (i = __timer tm)) as [-> | Hne].
    + exists th'. split; [eauto using lookup_insert_same | congruence].
    + exists th0. by rewrite list_lookup_insert_ne.
  - intros j thj Hj. apply list_lookup_insert_Some in Hj as [(-> & -> & _) | (_ & Hj)].
    + rewrite Hf. eauto.
    + eauto.
  - done.
Qed.

Lemma wf_set_timer w t tm tm' :
  timers w !! t = Some tm -> __timer tm' = __timer tm ->
  wf w -> wf (with_timers (<[t := tm']> (timers w)) w).
Proof.
  intros Htm Hf (H1 & H2 & H3). repeat split; norm.
  - intros t0 tm0 H0. apply list_lookup_insert_Some in H0 as [(-> & -> & _) | (_ & H0)].
    + rewrite Hf. eauto.
    + eauto.
  - intros j thj Hj. rewrite length_insert. eauto.
  - intros c Hc. rewrite length_insert. eauto.
Qed.

Lemma wf_fired_calls w0 w t tm :
  (t < length (timers w))%nat -> calls w = calls w0 ->
  wf w -> wf (with_calls (fired_calls t tm w0) w).
Proof.
  intros Ht Hcalls (H1 & H2 & H3). repeat split; norm; [done | done |].
  intros c Hc. unfold fired_calls in Hc. rewrite <- Hcalls in Hc.
  destruct (action tm); [| eauto].
  destruct (SimpleTimer.accepts c0 (args tm)); [| eauto].
  apply elem_of_cons in Hc as [-> | Hc]; [done | eauto].
Qed.

Lemma wf_alloc w tm th :
  __timer tm = length (threads w) -> function th = length (timers w) ->
  wf w -> wf (with_timers (timers w ++ [tm]) (with_threads (threads w ++ [th]) w)).
Proof.
  intros Htm Hth (H1 & H2 & H3). repeat split; norm.
  - intros t0 tm0 H0. apply lookup_app_Some in H0 as [H0 | (Hle & H0)].
    + destruct (H1 _ _ H0) as (th0 & Hth0 & Hf0). exists th0.
      split; [| done]. by apply lookup_app_l_Some.
    + apply list_lookup_singleton_Some in H0 as (H0 & <-).
      exists th. rewrite Htm. split; [by apply list_lookup_middle |].
      rewrite Hth. lia.
  - intros j thj Hj. rewrite length_app. simpl.
    apply lookup_app_Some in Hj as [Hj | (Hle & Hj)].
    + specialize (H2 _ _ Hj). lia.
    + apply list_lookup_singleton_Some in Hj as (_ & <-). lia.
  - intros c Hc. rewrite length_app. specialize (H3 _ Hc). lia.
Qed.

Lemma wf_resumed w t tm tm' th :
  timers w !! t = Some tm ->
  __timer tm' = length (threads w) -> function th = t ->
  wf w ->
  wf (with_timers (<[t := tm']> (timers w)) (with_threads (threads w ++ [th]) w)).
Proof.
  intros Htm Htm' Hth (H1 & H2 & H3). repeat split; norm.
  - intros t0 tm0 H0. apply list_lookup_insert_Some in H0 as [(-> & -> & _) | (_ & H0)].
    + exists th. rewrite Htm'. split; [by apply list_lookup_middle | done].
    + destruct (H1 _ _ H0) as (th0 & Hth0 & Hf0). exists th0.
      split; [| done]. by apply lookup_app_l_Some.
  - intros j thj Hj. rewrite length_insert.
    apply lookup_app_Some in Hj as [Hj | (Hle & Hj)]; [eauto |].
    apply list_lookup_singleton_Some in Hj as (_ & <-). rewrite Hth.
    by eapply lookup_lt_Some.
  - intros c Hc. rewrite length_insert. eauto.
Qed.

Lemma does_wf l w w' : does l w w' -> wf w -> wf w'.
Proof.
  intros H Hwf. destruct H.
  - done.
  - by apply wf_alloc.
  - by eapply wf_set_timer.
  - by eapply wf_set_thread.
  - by eapply wf_set_thread.
  - eapply (wf_set_thread (with_timers _ w)); [done | done |].
    by eapply wf_set_timer.
  - by eapply wf_resumed.
  - by eapply wf_set_thread.
  - apply wf_fired_calls; [| done |].
    + norm. rewrite length_insert. by eapply lookup_lt_Some.
    + eapply (wf_set_thread (with_timers _ w)); [done | |].
      * by destruct H4 as [-> | ->].
      * by eapply wf_set_timer.
Qed.

Lemma wf_engine w w' : same_engine w w' -> wf w -> wf w'.
Proof.
  intros (_ & Ht & Hth & Hc) (H1 & H2 & H3). unfold wf.
  rewrite <- Ht, <- Hth, <- Hc. done.
Qed.

Lemma does_all_wf ls w w' : does_all ls w w' -> wf w -> wf w'.
Proof.
  induction 1 as [w w' H | l ls w w1 w' Hl Hls IH]; intros Hwf.
  - by eapply wf_engine.
  - apply IH. by eapply does_wf.
Qed.

Lemma step_wf e w : wf w -> wf (run (step' e) w).
Proof.
  intros Hwf. destruct (step_does e w Hwf) as (ls & Hls & _).
  by eapply does_all_wf.
Qed.

Lemma exec_wf tr : forall w, wf w -> wf (exec' tr w).
Proof.
  induction tr as [| e tr IH]; intros w Hwf; simpl; [done |].
  apply IH. by apply step_wf.
Qed.

Lemma wf_main t0 : wf (main t0).
Proof.
  repeat split; simpl.
  - intros t tm H. by rewrite lookup_nil in H.
  - intros i th H. by rewrite lookup_nil in H.
  - intros c H. by apply elem_of_nil in H.
Qed.

(** ** Orderly use stays orderly *)

Lemma dead_mark_event th : dead (mark_event true th).
Proof. by left. Qed.

Lemma dead_done th : dead (set_stage Done th).
Proof. by right. Qed.

Lemma orderly_set_thread w i th th' :
  threads w !! i = Some th ->
  function th' = function th ->
  (dead th -> dead th') ->
  (event_set th = true -> event_set th' = true) ->
  orderly w -> orderly (with_threads (<[i := th']> (threads w)) w).
Proof.
  intros Hth Hf Hd He Hord t tm Htm. norm.
  destruct (Hord t tm Htm) as (HA & HB & HC). repeat split; [| | done].
  - intros j thj Hj Hfj Hne.
    apply list_lookup_insert_Some in Hj as [(-> & -> & _) | (_ & Hj)].
    + apply Hd. eapply HA; [done | congruence | done].
    + by eapply HA.
  - intros Hp. destruct (HB Hp) as (th0 & Hth0 & He0).
    destruct (decide (i = __timer tm)) as [-> | Hne].
    + exists th'. split; [eauto using lookup_insert_same |].
      apply He. congruence.
    + exists th0. by rewrite list_lookup_insert_ne.
Qed.

Lemma orderly_set_timer w t tm tm' :
  timers w !! t = Some tm ->
  __timer tm' = __timer tm ->
  (paused tm' = true ->
     paused tm = true /\ __time_remaining tm' = __time_remaining tm
     /\ finished tm' = finished tm) ->
  orderly w -> orderly (with_timers (<[t := tm']> (timers w)) w).
Proof.
  intros Htm Hf Hp Hord t0 tm0 H0. norm.
  apply list_lookup_insert_Some in H0 as [(-> & -> & _) | (_ & H0)]; [| eauto].
  destruct (Hord _ _ Htm) as (HA & HB & HC). rewrite Hf. repeat split.
  - done.
  - intros Hp'. apply HB. by apply Hp.
  - intros Hp'. destruct (Hp Hp') as (H1 & -> & ->). by apply HC.
Qed.

(** A thread that may still call its function belongs to a timer that is
    not paused, and is the thread that timer holds. *)
Lemma live_current w i th tm :
  orderly w ->
  threads w !! i = Some th ->
  timers w !! function th = Some tm ->
  ~ dead th ->
  i = __timer tm /\ paused tm = false.
Proof.
  intros Hord Hth Htm Hlive.
  destruct (Hord _ _ Htm) as (HA & HB & _).
  assert (i = __timer tm) as ->.
  { destruct (decide (i = __timer tm)); [done |]. destruct Hlive. by eapply HA. }
  split; [done |]. destruct (paused tm); [| done].
  destruct (HB eq_refl) as (th0 & Hth0 & He). destruct Hlive. left. congruence.
Qed.

Lemma does_orderly l w w' :
  does l w w' -> wf w -> orderly w ->
  (forall t, l = Resumed t -> is_paused t w = true) ->
  orderly w'.
Proof.
  intros H Hwf Hord Hres. destruct H.
  - done.
  - (* a new timer with its thread *)
    destruct Hwf as (H1 & H2 & H3).
    intros t tm Htm. norm.
    apply lookup_app_Some in Htm as [Htm | (Hle & Htm)].
    + destruct (Hord _ _ Htm) as (HA & HB & HC). repeat split; [| | done].
      * intros j thj Hj Hfj Hne.
        apply lookup_app_Some in Hj as [Hj | (_ & Hj)]; [by eapply HA |].
        apply list_lookup_singleton_Some in Hj as (_ & <-). simpl in Hfj.
        apply lookup_lt_Some in Htm. lia.
      * intros Hp. destruct (HB Hp) as (th0 & Hth0 & He0). exists th0.
        split; [by apply lookup_app_l_Some | done].
    + apply list_lookup_singleton_Some in Htm as (Ht & <-).
      assert (t = length (timers w)) as ->.
      { lia. }
      repeat split; [| done | done].
      intros j thj Hj Hfj Hne. cbn [__timer created_timer] in Hne.
      apply lookup_app_Some in Hj as [Hj | (Hge & Hj)].
      * specialize (H2 _ _ Hj). lia.
      * apply list_lookup_singleton_Some in Hj as (Hj & _). lia.
  - by eapply orderly_set_timer.
  - eapply orderly_set_thread; [done | done | | done | done].
    intros [He | Hd]; [by left | simpl in *; congruence].
  - eapply orderly_set_thread; [done | done | | done | done].
    intros _. apply dead_mark_event.
  - (* pause *)
    intros t0 tm0 Htm0. norm.
    assert (Hdead : forall j thj,
              <[__timer tm := mark_event true th]> (threads w) !! j = Some thj ->
              forall t1 tm1, timers w !! t1 = Some tm1 -> function thj = t1 ->
              j <> __timer tm1 -> dead thj).
    { intros j thj Hj t1 tm1 Htm1 Hfj Hne.
      apply list_lookup_insert_Some in Hj as [(<- & <- & _) | (_ & Hj)].
      - apply dead_mark_event.
      - destruct (Hord _ _ Htm1) as (HA & _). by eapply HA. }
    apply list_lookup_insert_Some in Htm0 as [(<- & <- & _) | (Hne & Htm0)].
    + repeat split.
      * intros j thj Hj Hfj Hnej. by eapply Hdead.
      * intros _. exists (mark_event true th).
        split; [eauto using lookup_insert_same | done].
      * intros _. exists r. split; [done |]. simpl. intros Hfin.
        unfold SimpleTimer.time_remaining_at in H1. rewrite Hfin in H1. congruence.
    + destruct (Hord _ _ Htm0) as (HA & HB & HC). repeat split; [| | done].
      * intros j thj Hj Hfj Hnej. by eapply Hdead.
      * intros Hp. destruct (HB Hp) as (th0 & Hth0 & He0).
        destruct (decide (__timer tm = __timer tm0)) as [Heq | Hneq].
        -- exists (mark_event true th). rewrite <- Heq.
           split; [eauto using lookup_insert_same | done].
        -- exists th0. by rewrite list_lookup_insert_ne.
  - (* resume, on a paused timer *)
    specialize (Hres t eq_refl). unfold is_paused in Hres. rewrite H in Hres.
    intros t0 tm0 Htm0. norm.
    apply list_lookup_insert_Some in Htm0 as [(<- & <- & _) | (Hne & Htm0)].
    + destruct (Hord _ _ H) as (HA & HB & HC). repeat split; [| done | done].
      intros j thj Hj Hfj Hnej. cbn [__timer resumed set_paused set___timer] in Hnej.
      apply lookup_app_Some in Hj as [Hj | (Hge & Hj)].
      * destruct (decide (j = __timer tm)) as [-> | Hnej'].
        -- destruct (HB Hres) as (th0 & Hth0 & He0). left. congruence.
        -- by eapply HA.
      * apply list_lookup_singleton_Some in Hj as (Hj & _). lia.
    + destruct (Hord _ _ Htm0) as (HA & HB & HC). repeat split; [| | done].
      * intros j thj Hj Hfj Hnej.
        apply lookup_app_Some in Hj as [Hj | (_ & Hj)]; [by eapply HA |].
        apply list_lookup_singleton_Some in Hj as (_ & <-). simpl in Hfj. done.
      * intros Hp. destruct (HB Hp) as (th0 & Hth0 & He0). exists th0.
        split; [by apply lookup_app_l_Some | done].
  - (* a cancelled thread wakes up *)
    eapply orderly_set_thread; [done | done | | done | done].
    intros _. apply dead_mark_event.
  - (* a thread fires *)
    assert (~ dead th) as Hlive
      by (intros [He | Hd]; simpl in *; congruence).
    destruct (live_current _ _ _ _ Hord H H3 Hlive) as (Hcur & Hnp).
    assert (orderly (with_timers (<[function th := set_finished true tm]>
                                    (timers w)) w)) as Hord1.
    { eapply orderly_set_timer; [done | done | | done].
      simpl. congruence. }
    assert (orderly (with_threads (<[i := th']> (threads w))
                       (with_timers (<[function th := set_finished true tm]>
                                       (timers w)) w))) as Hord2.
    { eapply (orderly_set_thread (with_timers _ w)); [done | | | | done].
      - by destruct H4 as [-> | ->].
      - intros _. destruct H4 as [-> | ->]; by right.
      - congruence. }
    exact Hord2.
Qed.

Lemma orderly_engine w w' : same_engine w w' -> orderly w -> orderly w'.
Proof.
  intros (_ & Ht & Hth & _) H. unfold orderly. rewrite <- Ht, <- Hth. done.
Qed.

Lemma does_all_orderly ls w w' :
  does_all ls w w' -> wf w -> orderly w ->
  (forall t, Resumed t ∉ ls) ->
  orderly w'.
Proof.
  induction 1 as [w w' H | l ls w w1 w' Hl Hls IH]; intros Hwf Hord Hno.
  - by eapply orderly_engine.
  - apply IH.
    + by eapply does_wf.
    + eapply does_orderly; [done | done | done |].
      intros t ->. destruct (Hno t). by left.
    + intros t Hin. destruct (Hno t). by right.
Qed.

(** Membership in an explicit list of effects. *)
Ltac in_effects :=
  repeat match goal with
  | H : _ ∈ [] |- _ => by apply elem_of_nil in H
  | H : _ ∈ _ :: _ |- _ => apply elem_of_cons in H as [H | H]; [try discriminate |]
  end.

Lemma step_orderly e w :
  wf w -> orderly w -> protocol_ok e w = true -> orderly (run (step' e) w).
Proof.
  intros Hwf Hord Hok. destruct (step_does e w Hwf) as (ls & Hls & Hc).
  assert (Hplain : (forall t, Resumed t ∉ ls) -> orderly (run (step' e) w))
    by (by eapply does_all_orderly).
  assert (Hres : forall t, is_paused t w = true ->
            ls = [] \/ ls = [Resumed t] -> orderly (run (step' e) w)).
  { intros t Hp [-> | ->].
    - apply Hplain. intros t0 Hin. by apply elem_of_nil in Hin.
    - inversion Hls as [| l ls' w0 w1 w2 Hl Hrest]; subst.
      inversion Hrest; subst.
      eapply orderly_engine; [done |].
      eapply does_orderly; [done | done | done |].
      by intros t0 [= <-]. }
  destruct e; cbn [caused protocol_ok] in *;
    try (by eapply Hres);
    apply Hplain; intros t0 Hin;
    repeat match goal with
    | H : _ \/ _ |- _ => destruct H
    end; subst; in_effects.
Qed.

Lemma exec_orderly tr :
  forall w, wf w -> orderly w -> respects' tr w = true -> orderly (exec' tr w).
Proof.
  induction tr as [| e tr IH]; intros w Hwf Hord Hres; simpl in *; [done |].
  apply andb_prop in Hres as [Hok Hres].
  apply IH; [by apply step_wf | by apply step_orderly | done].
Qed.

Lemma orderly_main t0 : orderly (main t0).
Proof. intros t tm H. simpl in H. by rewrite lookup_nil in H. Qed.

(** ** Invariants along a trace *)

(** A property of the engine that every allowed effect keeps is kept by
    every trace whose events cause allowed effects only. *)
Lemma exec_invariant (P : World -> Prop) (allowed : effect -> Prop)
    (ok : event -> bool) :
  (forall w w', same_engine w w' -> P w -> P w') ->
  (forall l w w', does l w w' -> wf w -> allowed l -> P w -> P w') ->
  (forall e w ls, ok e = true -> P w -> caused e w ls -> Forall allowed ls) ->
  forall tr w, wf w -> P w -> forallb ok tr = true -> P (exec' tr w).
Proof.
  intros Heng Hdoes Hcaused.
  assert (Hall : forall ls w w', does_all ls w w' -> wf w -> Forall allowed ls ->
                   P w -> P w').
  { induction 1 as [w w' H | l ls w w1 w' Hl Hls IH]; intros Hwf Hok HP.
    - by eapply Heng.
    - apply Forall_cons in Hok as [Hl' Hok].
      apply IH; [by eapply does_wf | done | by eapply Hdoes]. }
  induction tr as [| e tr IH]; intros w Hwf HP Hok; simpl in *; [done |].
  apply andb_prop in Hok as [He Hok].
  destruct (step_does e w Hwf) as (ls & Hls & Hc).
  apply IH; [by apply step_wf | | done].
  eapply Hall; [done | done | by eapply Hcaused | done].
Qed.

Lemma calls_of_engine t w w' : same_engine w w' -> calls_of t w = calls_of t w'.
Proof. intros (_ & _ & _ & Hc). unfold calls_of. by rewrite Hc. Qed.

Lemma silent_engine t w w' : same_engine w w' -> silent t w -> silent t w'.
Proof.
  intros (_ & Ht & Hth & _) H. unfold silent. by rewrite <- Ht, <- Hth.
Qed.

Lemma silent_set_thread t w i th th' :
  threads w !! i = Some th -> (function th = t -> dead th') ->
  function th' = function th ->
  silent t w -> silent t (with_threads (<[i := th']> (threads w)) w).
Proof.
  intros Hth Hd Hf (Hlt & Hs). split; [done |]. norm.
  intros j thj Hj Hfj.
  apply list_lookup_insert_Some in Hj as [(-> & -> & _) | (_ & Hj)].
  - apply Hd. congruence.
  - by eapply Hs.
Qed.

Lemma silent_set_timer t w t0 tm' :
  silent t w -> silent t (with_timers (<[t0 := tm']> (timers w)) w).
Proof. intros (Hlt & Hs). split; [norm; by rewrite length_insert | done]. Qed.

Lemma silent_with_calls t w cs : silent t w -> silent t (with_calls cs w).
Proof. done. Qed.

Lemma does_silent l w w' t :
  does l w w' -> l <> Resumed t -> silent t w ->
  silent t w' /\ calls_of t w' = calls_of t w.
Proof.
  intros H Hne Hs. destruct H.
  - done.
  - split; [| done]. destruct Hs as (Hlt & Hs). split; norm.
    + rewrite length_app. lia.
    + intros j thj Hj Hfj.
      apply lookup_app_Some in Hj as [Hj | (_ & Hj)]; [by eapply Hs |].
      apply list_lookup_singleton_Some in Hj as (_ & <-). simpl in Hfj. lia.
  - split; [by apply silent_set_timer | done].
  - split; [| done]. eapply silent_set_thread; [done | | done | done].
    intros Hf. destruct Hs as (_ & Hs). destruct (Hs _ _ H0 Hf) as [He | Hd].
    + by left.
    + congruence.
  - split; [| done]. eapply silent_set_thread; [done | | done | done].
    intros _. apply dead_mark_event.
  - split; [| done].
    eapply (silent_set_thread _ (with_timers _ w)); [done | | done |].
    + intros _. apply dead_mark_event.
    + by apply silent_set_timer.
  - split; [| done]. destruct Hs as (Hlt & Hs). split; norm.
    + by rewrite length_insert.
    + intros j thj Hj Hfj.
      apply lookup_app_Some in Hj as [Hj | (_ & Hj)]; [by eapply Hs |].
      apply list_lookup_singleton_Some in Hj as (_ & <-). simpl in Hfj.
      congruence.
  - split; [| done]. eapply silent_set_thread; [done | | done | done].
    intros _. apply dead_mark_event.
  - assert (function th <> t) as Hft.
    { intros Hf. destruct Hs as (_ & Hs).
      destruct (Hs _ _ H Hf) as [He | Hd]; congruence. }
    split.
    + apply silent_with_calls.
      eapply (silent_set_thread _ (with_timers _ w)); [done | | | ].
      * intros Hf. destruct H4 as [-> | ->]; simpl in Hf; congruence.
      * by destruct H4 as [-> | ->].
      * by apply silent_set_timer.
    + unfold calls_of, fired_calls. norm.
      destruct (action tm); [| done].
      destruct (SimpleTimer.accepts _ _); [| done].
      rewrite filter_cons_False; [done | done].
Qed.

(** ** The timer engine *)

(** C1.  Pausing a running timer and resuming it at the same clock value
    leaves [time_remaining] as it was and leaves the timer running: both
    calls return, the timer is started, not paused and not finished, its
    [end_time] is unchanged, and it holds a fresh thread that waits until
    [end_time] with its event clear. *)
Theorem pause_then_resume_running (w : World) (t : nat) (tm : SimpleTimer)
    (th : Timer) :
  timers w !! t = Some tm ->
  threads w !! __timer tm = Some th ->
  started tm = true -> paused tm = false -> finished tm = false ->
  exists w1 w2 tm2,
    SimpleTimer.pause t w = (Ok tt, w1)
    /\ SimpleTimer.resume t w1 = (Ok tt, w2)
    /\ now w2 = now w
    /\ fst (SimpleTimer.time_remaining t w) = Ok (end_time tm - now w)
    /\ fst (SimpleTimer.time_remaining t w2) = Ok (end_time tm - now w)
    /\ timers w2 !! t = Some tm2
    /\ started tm2 = true /\ paused tm2 = false /\ finished tm2 = false
    /\ end_time tm2 = end_time tm
    /\ threads w2 !! __timer tm2 =
         Some (mkTimer (end_time tm - now w) t false (Waiting (end_time tm))).
Proof.
  intros Htm Hth Hs Hp Hf.
  assert (Hr : SimpleTimer.time_remaining_at tm (now w) = Ok (end_time tm - now w))
    by (unfold SimpleTimer.time_remaining_at; by rewrite Hf, Hp).
  set (r := end_time tm - now w) in *.
  set (tm1 := set_paused true (set___time_remaining r tm)).
  set (w1 := with_threads (<[__timer tm := mark_event true th]> (threads w))
               (with_timers (<[t := tm1]> (timers w)) w)).
  assert (Htm1 : timers w1 !! t = Some tm1)
    by (subst w1; norm; eauto using lookup_insert_same).
  assert (Hr1 : SimpleTimer.time_remaining_at tm1 (now w1) = Ok r)
    by (unfold SimpleTimer.time_remaining_at; simpl; by rewrite Hf).
  exists w1. eexists. exists (resumed t r tm1 w1).
  split; [by apply pause_ok |].
  split; [by apply resume_ok |].
  split; [done |].
  split; [by rewrite (time_remaining_ok _ _ _ Htm) |].
  assert (Hend : now w + r = end_time tm) by (subst r; lia).
  split.
  { erewrite time_remaining_ok by (norm; eauto using lookup_insert_same).
    unfold SimpleTimer.time_remaining_at. simpl. rewrite Hf. simpl.
    f_equal. lia. }
  split; [norm; eauto using lookup_insert_same |].
  repeat split; try done.
  simpl. subst w1. norm. rewrite Hend.
  by apply list_lookup_middle.
Qed.


(** Where an effect on timers comes from. *)
Lemma caused_origin e w ls l :
  caused e w ls -> l ∈ ls ->
  match l with
  | Paused t => pauses t e = true
  | Resumed t => resumes t e = true
  | Cancelled t => cancels t e = true
  | Started t | Armed t => starts t e = true \/ t = length (timers w)
  | _ => True
  end.
Proof.
  intros Hc Hin.
  destruct e; cbn [caused] in Hc;
    repeat match goal with
    | H : _ \/ _ |- _ => destruct H
    end; subst; in_effects; subst;
    cbn [pauses resumes cancels starts]; rewrite ?Nat.eqb_refl; auto.
Qed.

Lemma exec_app tr tr' w : exec' (tr ++ tr') w = exec' tr' (exec' tr w).
Proof. revert w. induction tr as [| e tr IH]; intros w; simpl; [done | apply IH]. Qed.

(** [__time_remaining] is written by [pause()] alone. *)
Lemma does_keeps_remaining l w w' t tm :
  does l w w' -> l <> Paused t -> timers w !! t = Some tm ->
  exists tm', timers w' !! t = Some tm'
              /\ __time_remaining tm' = __time_remaining tm.
Proof.
  intros H Hne Htm.
  assert (Hset : forall t0 tm0 tm0' (f : World -> World),
            timers w !! t0 = Some tm0 ->
            __time_remaining tm0' = __time_remaining tm0 ->
            exists tm', <[t0 := tm0']> (timers w) !! t = Some tm'
                        /\ __time_remaining tm' = __time_remaining tm).
  { intros t0 tm0 tm0' _ H0 Heq. destruct (decide (t0 = t)) as [-> | Hn].
    - exists tm0'. split; [eauto using lookup_insert_same | congruence].
    - exists tm. by rewrite list_lookup_insert_ne. }
  destruct H; norm; eauto.
  - exists tm. split; [by apply lookup_app_l_Some | done].
  - destruct (decide (t0 = t)) as [-> | Hn]; [done |].
    exists tm. by rewrite list_lookup_insert_ne.
Qed.

Lemma pause_stores t w r :
  wf w ->
  fst (SimpleTimer.time_remaining t w) = Ok r ->
  exists tm', timers (run (SimpleTimer.pause t) w) !! t = Some tm'
              /\ __time_remaining tm' = Some r.
Proof.
  intros Hwf Hr. destruct (timers w !! t) as [tm |] eqn:Htm; cycle 1.
  { by rewrite (time_remaining_dangling _ _ Htm) in Hr. }
  rewrite (time_remaining_ok _ _ _ Htm) in Hr. simpl in Hr.
  destruct (wf_thread _ _ _ Hwf Htm) as (th & Hth & _).
  unfold run. rewrite (pause_ok _ _ _ _ _ Htm Hth Hr). norm.
  eexists. split; [eauto using lookup_insert_same | done].
Qed.

Lemma pause_timer_engine item t w :
  same_engine (run (SimpleTimer.pause t) w) (run (pause_timer item t) w).
Proof. apply before_menu. intros _. menu_only. Qed.

(** C2.  [time_remaining] is zero for a finished timer; for a paused timer
    it is the remaining time that the last [pause()] captured, whatever
    happened since; otherwise it is [end_time] minus the clock, which is
    negative once the clock has passed [end_time]. *)
Theorem time_remaining_by_state :
  (forall w t tm,
     timers w !! t = Some tm -> finished tm = true ->
     SimpleTimer.time_remaining t w = (Ok 0, w))
  /\ (forall t0 tr0 t item e r tr tm,
        let wp := exec' tr0 (main t0) in
        let w := exec' tr (run (step' e) wp) in
        e = Pause t \/ e = PauseTimer item t ->
        fst (SimpleTimer.time_remaining t wp) = Ok r ->
        forallb (fun e => negb (pauses t e)) tr = true ->
        timers w !! t = Some tm -> finished tm = false -> paused tm = true ->
        SimpleTimer.time_remaining t w = (Ok r, w))
  /\ (forall w t tm,
        timers w !! t = Some tm -> finished tm = false -> paused tm = false ->
        SimpleTimer.time_remaining t w = (Ok (end_time tm - now w), w)
        /\ (end_time tm < now w -> end_time tm - now w < 0)).
Proof.
  split; [| split].
  - intros w t tm Htm Hf. rewrite (time_remaining_ok _ _ _ Htm).
    unfold SimpleTimer.time_remaining_at. by rewrite Hf.
  - intros t0 tr0 t item e r tr tm wp w He Hr Htr Htm Hf Hp.
    assert (Hwf : wf wp) by apply exec_wf, wf_main.
    assert (Hstored : exists tm', timers w !! t = Some tm'
                                  /\ __time_remaining tm' = Some r).
    { subst w.
      apply (exec_invariant
               (fun w => exists tm', timers w !! t = Some tm'
                                     /\ __time_remaining tm' = Some r)
               (fun l => l <> Paused t)
               (fun e => negb (pauses t e))).
      - intros w1 w2 (_ & Ht & _ & _). by rewrite Ht.
      - intros l w1 w2 Hl _ Hne (tm1 & Htm1 & Hs1).
        destruct (does_keeps_remaining _ _ _ _ _ Hl Hne Htm1) as (tm2 & H2 & H3).
        exists tm2. split; [done | congruence].
      - intros e0 w1 ls Hok _ Hc. apply Forall_forall. intros l Hin ->.
        pose proof (caused_origin _ _ _ _ Hc Hin) as Ho. simpl in Ho.
        by rewrite Ho in Hok.
      - by apply step_wf.
      - destruct (pause_stores t wp r Hwf Hr) as (tm' & H1 & H2).
        destruct He as [-> | ->]; cbn [step]; [by exists tm' |].
        destruct (pause_timer_engine item t wp) as (_ & Ht & _ & _).
        rewrite <- Ht. by exists tm'.
      - done. }
    destruct Hstored as (tm' & Htm' & Hs). simplify_eq.
    rewrite (time_remaining_ok _ _ _ Htm).
    unfold SimpleTimer.time_remaining_at. by rewrite Hf, Hp, Hs.
  - intros w t tm Htm Hf Hp. split; [| lia].
    rewrite (time_remaining_ok _ _ _ Htm).
    unfold SimpleTimer.time_remaining_at. by rewrite Hf, Hp.
Qed.

(** C9.  In every run of the script in which [resume()] is only called on
    paused timers, [pause()] on a paused timer returns and changes
    nothing: no attribute of any timer, no thread, no recorded call. *)
Theorem pause_when_paused (t0 : Z) (tr0 : list event) (t : nat) (tm : SimpleTimer) :
  respects' tr0 (main t0) = true ->
  timers (exec' tr0 (main t0)) !! t = Some tm ->
  paused tm = true ->
  SimpleTimer.pause t (exec' tr0 (main t0)) = (Ok tt, exec' tr0 (main t0)).
Proof.
  intros Hres Htm Hp.
  assert (Hwf : wf (exec' tr0 (main t0))) by apply exec_wf, wf_main.
  assert (Hord : orderly (exec' tr0 (main t0)))
    by (apply exec_orderly; [apply wf_main | apply orderly_main | done]).
  set (w := exec' tr0 (main t0)) in *.
  destruct (Hord _ _ Htm) as (_ & HB & HC).
  destruct (HB Hp) as (th & Hth & He).
  destruct (HC Hp) as (r & Hr & Hzero).
  assert (Hrem : SimpleTimer.time_remaining_at tm (now w) = Ok r).
  { unfold SimpleTimer.time_remaining_at. rewrite Hp, Hr.
    destruct (finished tm); [by rewrite Hzero | done]. }
  rewrite (pause_ok _ _ _ _ _ Htm Hth Hrem). f_equal.
  assert (mark_event true th = th) as -> by (destruct th; simpl in *; by subst).
  assert (set_paused true (set___time_remaining r tm) = tm) as ->
    by (destruct tm; simpl in *; by subst).
  rewrite !list_insert_id by done. by destruct w.
Qed.

(** ** Cancelling *)

Lemma cancel_silences w t tm :
  wf w -> orderly w -> timers w !! t = Some tm ->
  fst (SimpleTimer.cancel t w) = Ok tt
  /\ silent t (run (SimpleTimer.cancel t) w)
  /\ calls_of t (run (SimpleTimer.cancel t) w) = calls_of t w
  /\ timers (run (SimpleTimer.cancel t) w) = timers w
  /\ now (run (SimpleTimer.cancel t) w) = now w.
Proof.
  intros Hwf Hord Htm.
  destruct (wf_thread _ _ _ Hwf Htm) as (th & Hth & Hf).
  unfold run. rewrite (cancel_ok _ _ _ _ Htm Hth). norm.
  repeat split; [by eapply lookup_lt_Some | ].
  intros j thj Hj Hfj. norm.
  apply list_lookup_insert_Some in Hj as [(<- & <- & _) | (Hne & Hj)].
  - apply dead_mark_event.
  - destruct (Hord _ _ Htm) as (HA & _). by eapply HA.
Qed.

Lemma cancel_timer_engine item t w :
  fst (pop_submenu t w) = Ok tt ->
  same_engine (run (SimpleTimer.cancel t) w) (run (cancel_timer item t) w).
Proof.
  intros Hpop. unfold run, cancel_timer, bind at 1.
  pose proof (menu_only_pop_submenu t w) as Hp.
  destruct (pop_submenu t w) as [[[] | e] w1]; cbn [fst snd] in *; [| done].
  eapply same_engine_trans; [by apply engine_fn_cancel |].
  apply before_menu. intros _.
  apply menu_only_bind; [apply menu_only_remove_active | intros _].
  apply menu_only_update_status_indicator.
Qed.

(** Whatever happens short of [resume()], a silent timer stays silent and
    no call of its action is recorded. *)
Lemma silent_forever t tr w :
  wf w -> silent t w ->
  forallb (fun e => negb (resumes t e)) tr = true ->
  silent t (exec' tr w) /\ calls_of t (exec' tr w) = calls_of t w.
Proof.
  intros Hwf Hs Htr.
  apply (exec_invariant
           (fun w' => silent t w' /\ calls_of t w' = calls_of t w)
           (fun l => l <> Resumed t)
           (fun e => negb (resumes t e))); [ | | | done | done | done].
  - intros w1 w2 He (H1 & H2). split; [by eapply silent_engine |].
    by rewrite <- (calls_of_engine _ _ _ He).
  - intros l w1 w2 Hl _ Hne (H1 & H2).
    destruct (does_silent _ _ _ _ Hl Hne H1) as (H3 & H4).
    split; [done | congruence].
  - intros e0 w1 ls Hok _ Hc. apply Forall_forall. intros l Hin ->.
    pose proof (caused_origin _ _ _ _ Hc Hin) as Ho. simpl in Ho.
    by rewrite Ho in Hok.
Qed.

(** In every run of the script in which [resume()] is only called on
    paused timers: once [cancel()] has been called on a timer that is
    started and not finished (running or paused), no call of its action is
    recorded any more as long as [resume()] is not called on that timer,
    whatever else happens: the clock advancing, threads waking up, any
    handler or method call.  The same holds when the timer is cancelled
    from the menu. *)
Theorem cancel_prevents_callback (t0 : Z) (tr0 : list event) (t : nat)
    (tm : SimpleTimer) (tr : list event) :
  let w := exec' tr0 (main t0) in
  respects' tr0 (main t0) = true ->
  timers w !! t = Some tm ->
  started tm = true -> finished tm = false ->
  forallb (fun e => negb (resumes t e)) tr = true ->
  calls_of t (exec' tr (run (step' (Cancel t)) w)) = calls_of t w
  /\ (forall item, fst (pop_submenu t w) = Ok tt ->
        calls_of t (exec' tr (run (step' (CancelTimer item t)) w)) = calls_of t w).
Proof.
  intros w Hres Htm _ _ Htr.
  assert (Hwf : wf w) by apply exec_wf, wf_main.
  assert (Hord : orderly w)
    by (apply exec_orderly; [apply wf_main | apply orderly_main | done]).
  destruct (cancel_silences w t tm Hwf Hord Htm) as (_ & Hs & Hc & _).
  split.
  - destruct (silent_forever t tr (run (step' (Cancel t)) w)) as (_ & H);
      [by apply step_wf | done | done |].
    cbn [step] in *. congruence.
  - intros item Hpop.
    pose proof (cancel_timer_engine item t w Hpop) as He.
    destruct (silent_forever t tr (run (step' (CancelTimer item t)) w)) as (_ & H);
      [by apply step_wf | by eapply silent_engine | done |].
    cbn [step] in *. rewrite H, <- (calls_of_engine _ _ _ He). done.
Qed.

(** What a silent timer keeps: [finished] always, and [paused] and
    [end_time] unless it is paused or resumed. *)
Lemma silent_keeps l w w' t tm :
  does l w w' -> silent t w -> timers w !! t = Some tm ->
  exists tm', timers w' !! t = Some tm'
              /\ finished tm' = finished tm
              /\ (l <> Paused t -> l <> Resumed t ->
                  paused tm' = paused tm /\ end_time tm' = end_time tm).
Proof.
  intros H Hs Htm.
  assert (Hset : forall t0 tm0 tm0',
            timers w !! t0 = Some tm0 ->
            finished tm0' = finished tm0 ->
            (t0 = t -> l <> Paused t -> l <> Resumed t ->
             paused tm0' = paused tm0 /\ end_time tm0' = end_time tm0) ->
            exists tm', <[t0 := tm0']> (timers w) !! t = Some tm'
                        /\ finished tm' = finished tm
                        /\ (l <> Paused t -> l <> Resumed t ->
                            paused tm' = paused tm /\ end_time tm' = end_time tm)).
  { intros t0 tm0 tm0' H0 Hf Hpe. destruct (decide (t0 = t)) as [-> | Hn].
    - exists tm0'. split; [eauto using lookup_insert_same |].
      simplify_eq. split; [done | by apply Hpe].
    - exists tm. by rewrite list_lookup_insert_ne. }
  destruct H; norm.
  - by exists tm.
  - exists tm. split; [by apply lookup_app_l_Some | done].
  - eapply Hset; [done | done | done].
  - by exists tm.
  - by exists tm.
  - eapply Hset; [done | done |]. by intros ->.
  - eapply Hset; [done | done |]. by intros ->.
  - by exists tm.
  - assert (function th <> t) as Hft.
    { intros Hf. destruct Hs as (_ & Hs).
      destruct (Hs _ _ H Hf) as [He | Hd]; congruence. }
    exists tm. by rewrite list_lookup_insert_ne.
Qed.

(** C10.  In every run of the script in which [resume()] is only called on
    paused timers, [cancel()] returns and leaves every attribute of every
    timer, and the clock, as they were.  If the timer was neither paused nor
    finished, then from there on, as long as it is neither paused nor
    resumed, [time_remaining] is [end_time] minus the clock, never the zero
    of a finished timer; it is negative once the clock has passed
    [end_time], and the clock does pass it. *)
Theorem cancel_changes_no_attribute (t0 : Z) (tr0 : list event) (t : nat)
    (tm : SimpleTimer) :
  let w := exec' tr0 (main t0) in
  let w1 := run (step' (Cancel t)) w in
  respects' tr0 (main t0) = true ->
  timers w !! t = Some tm ->
  fst (SimpleTimer.cancel t w) = Ok tt
  /\ timers w1 = timers w
  /\ now w1 = now w
  /\ (paused tm = false -> finished tm = false ->
      forall tr,
        forallb (fun e => negb (resumes t e) && negb (pauses t e)) tr = true ->
        let w2 := exec' tr w1 in
        SimpleTimer.time_remaining t w2 = (Ok (end_time tm - now w2), w2)
        /\ (end_time tm < now w2 -> end_time tm - now w2 < 0)
        /\ exists d, end_time tm < now (exec' (tr ++ [Tick d]) w1)).
Proof.
  intros w w1 Hres Htm. cbn [step] in w1.
  assert (Hwf : wf w) by apply exec_wf, wf_main.
  assert (Hord : orderly w)
    by (apply exec_orderly; [apply wf_main | apply orderly_main | done]).
  destruct (cancel_silences w t tm Hwf Hord Htm) as (Hok & Hs & _ & Ht & Hn).
  fold w1 in Hs, Ht, Hn.
  split; [done |]. split; [done |]. split; [done |].
  intros Hp Hf tr Htr w2.
  assert (Hinv : silent t w2
                 /\ exists tm', timers w2 !! t = Some tm'
                      /\ finished tm' = false /\ paused tm' = false
                      /\ end_time tm' = end_time tm).
  { subst w2.
    apply (exec_invariant
             (fun w' => silent t w'
                        /\ exists tm', timers w' !! t = Some tm'
                             /\ finished tm' = false /\ paused tm' = false
                             /\ end_time tm' = end_time tm)
             (fun l => l <> Resumed t /\ l <> Paused t)
             (fun e => negb (resumes t e) && negb (pauses t e))%bool).
    - intros wa wb He (H1 & H2). split; [by eapply silent_engine |].
      destruct He as (_ & He & _ & _). by rewrite <- He.
    - intros l wa wb Hl _ (Hnr & Hnp) (H1 & tm1 & Htm1 & Hf1 & Hp1 & He1).
      split; [by eapply does_silent |].
      destruct (silent_keeps _ _ _ _ _ Hl H1 Htm1) as (tm2 & Htm2 & Hf2 & Hpe).
      destruct (Hpe Hnp Hnr) as (Hp2 & He2).
      exists tm2. repeat split; congruence.
    - intros e0 wa ls Hev _ Hc. apply andb_prop in Hev as [Hr Hq].
      apply Forall_forall. intros l Hin.
      pose proof (caused_origin _ _ _ _ Hc Hin) as Ho.
      split; intros ->; simpl in Ho; rewrite Ho in *; done.
    - by apply (step_wf (Cancel t)).
    - split; [done |]. exists tm. by rewrite Ht.
    - done. }
  destruct Hinv as (_ & tm' & Htm' & Hf' & Hp' & He').
  split; [| split; [lia |]].
  - rewrite (time_remaining_ok _ _ _ Htm').
    unfold SimpleTimer.time_remaining_at. by rewrite Hf', Hp', He'.
  - exists (Z.to_N (end_time tm - now w2 + 1)).
    rewrite exec_app. fold w2. cbn [exec step run tick modify snd]. norm. lia.
Qed.

(** ** Natural expiry *)












(** ** The status indicator *)

(** C6.  [update_status_indicator] returns, and afterwards the title of the
    status indicator is "No active timers", and the item is disabled, when
    no timer is active; "1 active timer" when one is; and the count in
    decimal followed by " active timers" when more are. *)
Theorem status_indicator_title (w : World) :
  let n := length (active_timers w) in
  let w' := run update_status_indicator w in
  fst (update_status_indicator w) = Ok tt
  /\ (n = 0%nat ->
      item_title (status_indicator w') = "No active timers"
      /\ item_enabled (status_indicator w') = false)
  /\ (n = 1%nat -> item_title (status_indicator w') = "1 active timer")
  /\ ((1 < n)%nat ->
      item_title (status_indicator w')
      = Py.str_int (Z.of_nat n) ++ " active timers").
Proof.
  intros n w'. split; [apply update_status_indicator_returns |].
  subst n w'. unfold run, update_status_indicator. rewrite bind_gets.
  destruct (length (active_timers w)) as [| [| n]].
  - split; [done |]. split; [done | lia].
  - split; [done |]. split; [done | lia].
  - split; [done |]. split; [done |]. done.
Qed.

Example two_active_timers :
  Py.str_int 2 ++ " active timers" = "2 active timers".
Proof. reflexivity. Qed.

Example twelve_active_timers :
  Py.str_int 12 ++ " active timers" = "12 active timers".
Proof. reflexivity. Qed.

(** ** Remaining-time strings *)

Lemma string_length_app (s1 s2 : string) :
  String.length (s1 ++ s2) = (String.length s1 + String.length s2)%nat.
Proof. induction s1 as [| c s1 IH]; simpl; [done | by rewrite IH]. Qed.

Lemma zeros_length n : String.length (Py.zeros n) = n.
Proof. induction n as [| n IH]; simpl; [done | by rewrite IH]. Qed.

(** [zfill(2)] gives at least two characters, and exactly two to the
    numbers below 100 that are not negative. *)
Lemma zfill_2_at_least (s : string) : (2 <= String.length (Py.zfill 2 s))%nat.
Proof.
  unfold Py.zfill. destruct s as [| c s]; [simpl; lia |].
  destruct (Py.is_sign c); simpl String.length;
    rewrite ?string_length_app, ?zeros_length; simpl; lia.
Qed.

Lemma zfill_2_below_60 (n : Z) :
  0 <= n < 60 -> String.length (Py.zfill 2 (Py.str_int n)) = 2%nat.
Proof.
  intros Hn.
  assert (Hall : forallb
            (fun k => Nat.eqb (String.length (Py.zfill 2 (Py.str_int (Z.of_nat k)))) 2)
            (seq 0 60) = true) by (vm_compute; reflexivity).
  rewrite forallb_forall in Hall.
  specialize (Hall (Z.to_nat n)). rewrite Z2Nat.id in Hall by lia.
  apply Nat.eqb_eq, Hall, in_seq. lia.
Qed.

(** The string of [update_submenus]: minutes and seconds on two digits
    each; an hours field of at least two digits in front exactly when an
    hour or more remains. *)
Lemma update_submenus_time_str_fields (total : Z) :
  exists mm ss,
    String.length mm = 2%nat /\ String.length ss = 2%nat
    /\ (total < 3600000000 -> update_submenus_time_str total = mm ++ ":" ++ ss)
    /\ (3600000000 <= total ->
        exists hh, (2 <= String.length hh)%nat
                   /\ update_submenus_time_str total = hh ++ ":" ++ mm ++ ":" ++ ss).
Proof.
  unfold update_submenus_time_str, divmod.
  set (hours := total / 3600000000).
  set (remainder := total mod 3600000000).
  assert (0 <= remainder < 3600000000) by (apply Z.mod_pos_bound; lia).
  assert (0 <= remainder / 60000000 < 60)
    by (split; [apply Z.div_pos; lia | apply Z.div_lt_upper_bound; lia]).
  assert (0 <= remainder mod 60000000 < 60000000) by (apply Z.mod_pos_bound; lia).
  assert (0 <= Z.quot (remainder mod 60000000) 1000000 < 60).
  { rewrite Z.quot_div_nonneg by lia.
    split; [apply Z.div_pos; lia | apply Z.div_lt_upper_bound; lia]. }
  exists (Py.zfill 2 (Py.str_int (remainder / 60000000))),
         (Py.zfill 2 (Py.str_int (Z.quot (remainder mod 60000000) 1000000))).
  split; [by apply zfill_2_below_60 |]. split; [by apply zfill_2_below_60 |].
  split.
  - intros Hlt. assert (hours <= 0) by (apply Z.lt_succ_r, Z.div_lt_upper_bound; lia).
    destruct (Z.ltb_spec 0 hours); [lia | done].
  - intros Hge. assert (1 <= hours) by (apply Z.div_le_lower_bound; lia).
    destruct (Z.ltb_spec 0 hours); [| lia].
    eexists. split; [apply zfill_2_at_least | done].
Qed.

Example update_submenus_125_seconds :
  update_submenus_time_str 125000000 = "02:05".
Proof. reflexivity. Qed.

Example update_submenus_3725_seconds :
  update_submenus_time_str 3725000000 = "01:02:05".
Proof. reflexivity. Qed.

Example start_timer_125_seconds : start_timer_time_str 125000000 = "2:5".
Proof. reflexivity. Qed.

Example start_timer_3725_seconds : start_timer_time_str 3725000000 = "1:2:5".
Proof. reflexivity. Qed.

(** C7.  The label [start_timer] gives the submenu of a new timer carries a
    remaining-time string that is not padded: clicking "1 minute" at any
    clock value creates the item "1 minute (1:0 remaining)", where the
    string of [update_submenus] for the same remaining time is "01:00". *)
Theorem start_timer_label_unpadded (t0 : Z) :
  item_title <$> items (exec' [StartTimer 0 (Sec 60000000)] (main t0)) !! 6%nat
  = Some "1 minute (1:0 remaining)"
  /\ update_submenus_time_str 60000000 = "01:00".
Proof.
  split; [| reflexivity].
  cbn [exec step]. unfold run, start_timer.
  erewrite (bind_ok (item_get _)) by reflexivity.
  erewrite (bind_ok (SimpleTimer.init _ _ _ _)) by apply init_ok.
  cbn -[Z.add Z.sub start_timer_time_str].
  replace (t0 + 60000000 - t0) with 60000000 by lia.
  reflexivity.
Qed.

(** ** The custom-duration dialog *)

(** A float that is not finite gets no further: [SimpleTimer(...)] raises
    on its [timedelta] before the timer is registered. *)
Lemma start_timer_not_finite item x w :
  (forall d, timedelta_of x <> Ok d) ->
  exists e, start_timer' item x w = (Raise e, w).
Proof.
  intros Hx. unfold start_timer.
  destruct (items w !! item) as [m |] eqn:Hitem.
  - erewrite bind_ok by (unfold item_get; rewrite Hitem; reflexivity).
    destruct (init_not_finite
                (timer_title float_str round_minutes_str (item_title m) x)
                x (Some show_alert_fn) None w Hx) as (e & He).
    exists e. by erewrite bind_raise.
  - exists Dangling.
    by erewrite bind_raise by (unfold item_get; rewrite Hitem; reflexivity).
Qed.

Lemma start_timer_raises item mi x e w :
  items w !! item = Some mi -> timedelta_of x = Raise e ->
  start_timer' item x w = (Raise e, w).
Proof.
  intros Hitem Hx. unfold start_timer.
  erewrite bind_ok by (unfold item_get; rewrite Hitem; reflexivity).
  by erewrite bind_raise by (by apply init_raises).
Qed.



(** The text of a finite number holds a decimal digit. *)
Lemma span_digits_parts l ds r :
  Py.span_digits l = (ds, r) -> l = (ds ++ r)%list.
Proof.
  revert ds r. induction l as [| c l IH]; intros ds r H; simpl in H.
  - by simplify_eq.
  - destruct (Py.is_digit c); [| by simplify_eq].
    destruct (Py.span_digits l) as [ds' r'] eqn:E. simplify_eq.
    simpl. f_equal. by apply IH.
Qed.

Lemma span_digits_digits l ds r :
  Py.span_digits l = (ds, r) -> Forall (fun c => Py.is_digit c = true) ds.
Proof.
  revert ds r. induction l as [| c l IH]; intros ds r H; simpl in H.
  - simplify_eq. constructor.
  - destruct (Py.is_digit c) eqn:Hc; [| simplify_eq; constructor].
    destruct (Py.span_digits l) as [ds' r'] eqn:E. simplify_eq.
    constructor; [done | by eapply IH].
Qed.

Lemma drop_underscores_sub l : forall prev body c,
  Py.drop_underscores prev l = Some body -> c ∈ body -> c ∈ l.
Proof.
  induction l as [| x l IH]; intros prev body c H Hin; simpl in H.
  - destruct (Ascii.eqb prev "_"); simplify_eq. by apply elem_of_nil in Hin.
  - destruct (Ascii.eqb x "_").
    + destruct (Py.is_digit prev); [| done]. right. by eapply IH.
    + destruct (Ascii.eqb prev "_" && negb (Py.is_digit x))%bool; [done |].
      destruct (Py.drop_underscores x l) as [b |] eqn:E; simpl in H; simplify_eq.
      apply elem_of_cons in Hin as [-> | Hin]; [by left | right; by eapply IH].
Qed.

Lemma lstrip_sub l c : c ∈ Py.lstrip l -> c ∈ l.
Proof.
  induction l as [| x l IH]; simpl; [done |].
  destruct (Py.is_space x); [| done]. intros H. right. by apply IH.
Qed.

Lemma strip_sub l c : c ∈ Py.strip l -> c ∈ l.
Proof.
  unfold Py.strip. intros H.
  apply list_elem_of_In, in_rev, list_elem_of_In, lstrip_sub in H.
  apply list_elem_of_In, in_rev, list_elem_of_In in H. by apply lstrip_sub.
Qed.

Lemma take_sign_sub l neg r c : Py.take_sign l = (neg, r) -> c ∈ r -> c ∈ l.
Proof.
  destruct l as [| x l]; simpl; [by intros [= <- <-] |].
  destruct (Ascii.eqb x "-"); [intros [= <- <-]; by right |].
  destruct (Ascii.eqb x "+"); [intros [= <- <-]; by right |].
  by intros [= <- <-].
Qed.

Lemma to_ascii_digit cps c :
  c ∈ Py.to_ascii cps -> Py.is_digit c = true ->
  exists cp, cp ∈ cps /\ is_Some (Py.unicode_decimal cp).
Proof.
  induction cps as [| cp cps IH]; simpl; [by intros ?%elem_of_nil |].
  intros Hin Hc.
  destruct (N.ltb_spec cp 127) as [Hlt | Hge].
  { apply elem_of_cons in Hin as [-> | Hin].
    - exists cp. split; [by left |].
      unfold Py.is_digit in Hc. unfold nat_of_ascii in Hc.
      rewrite N_ascii_embedding in Hc by lia.
      apply andb_prop in Hc as [H1 H2].
      apply Nat.leb_le in H1, H2.
      unfold Py.unicode_decimal. cbn [Py.decimal_zeros List.find].
      assert (N.leb 48 cp && N.ltb cp (48 + 10) = true)%bool as ->; [| by eexists].
      apply andb_true_intro. split; [apply N.leb_le | apply N.ltb_lt]; lia.
    - destruct (IH Hin Hc) as (cp' & ? & ?). exists cp'. split; [by right | done]. }
  destruct (Py.unicode_space cp).
  { apply elem_of_cons in Hin as [-> | Hin]; [done |].
    destruct (IH Hin Hc) as (cp' & ? & ?). exists cp'. split; [by right | done]. }
  destruct (Py.unicode_decimal cp) as [d |] eqn:Hd.
  - apply elem_of_cons in Hin as [-> | Hin].
    + exists cp. split; [by left | by rewrite Hd].
    + destruct (IH Hin Hc) as (cp' & ? & ?). exists cp'. split; [by right | done].
  - apply list_elem_of_singleton in Hin as ->. done.
Qed.

Lemma float_number_has_digit text x :
  Py.float text = Some x -> Py.is_finite x = true ->
  exists cps cp,
    Py.decode (String.list_ascii_of_string text) = Some cps
    /\ cp ∈ cps /\ is_Some (Py.unicode_decimal cp).
Proof.
  unfold Py.float. intros H Hfin.
  destruct (Py.decode (String.list_ascii_of_string text)) as [cps |]; [| done].
  cbn in H. exists cps.
  enough (exists c, c ∈ Py.to_ascii cps /\ Py.is_digit c = true) as (c & Hc & Hd).
  { destruct (to_ascii_digit _ _ Hc Hd) as (cp & ? & ?). by exists cp. }
  unfold Py.float_chars in H.
  destruct (Py.drop_underscores "000" (Py.strip (Py.to_ascii cps)))
    as [body |] eqn:Hbody; [| done]. cbn in H.
  destruct (Py.take_sign body) as [neg r] eqn:Hsign.
  destruct (_ || _)%bool; [by simplify_eq |].
  destruct (String.eqb _ "nan"); [by simplify_eq |].
  unfold Py.parse_number in H.
  destruct (Py.span_digits r) as [ip r1] eqn:Hip.
  assert (Hsub : forall c, c ∈ r -> c ∈ Py.to_ascii cps).
  { intros c Hc. eapply strip_sub, drop_underscores_sub; [done |].
    by eapply take_sign_sub. }
  pose proof (span_digits_parts _ _ _ Hip) as Hr.
  pose proof (span_digits_digits _ _ _ Hip) as Hdig.
  destruct ip as [| c ip].
  - (* no integer part: the digits follow the point *)
    destruct r1 as [| p r2]; [done |].
    destruct (Ascii.eqb p "."); [| done].
    destruct (Py.span_digits r2) as [fp r3] eqn:Hfp.
    pose proof (span_digits_parts _ _ _ Hfp) as Hr2.
    pose proof (span_digits_digits _ _ _ Hfp) as Hdig2.
    destruct fp as [| c fp]; [done |].
    exists c. split; [| by inversion Hdig2].
    apply Hsub. rewrite Hr, Hr2. simpl. right. by left.
  - exists c. split; [| by inversion Hdig].
    apply Hsub. rewrite Hr. by left.
Qed.

(** ** The registry *)

Lemma index_lookup l x i : Py.index l x = Some i -> l !! i = Some x.
Proof.
  revert i. induction l as [| y l IH]; intros i H; simpl in H; [done |].
  destruct (Nat.eqb_spec y x) as [-> | Hne]; [by simplify_eq |].
  destruct (Py.index l x) as [j |]; simpl in H; simplify_eq. by apply IH.
Qed.

(** [remove] drops the element that [index] finds. *)
Lemma index_remove l x i :
  Py.index l x = Some i -> Py.remove l x = Some (delete i l).
Proof.
  revert i. induction l as [| y l IH]; intros i H; simpl in *; [done |].
  destruct (Nat.eqb_spec y x) as [-> | Hne]; [by simplify_eq |].
  destruct (Py.index l x) as [j |]; simpl in H; simplify_eq.
  by rewrite (IH j eq_refl).
Qed.

Lemma lookup_delete_shifted {A} (l : list A) i j :
  delete i l !! j = l !! shifted i j.
Proof.
  unfold shifted. destruct (Nat.ltb_spec j i).
  - by apply list_lookup_delete_lt.
  - by apply list_lookup_delete_ge.
Qed.

Lemma update_status_indicator_lists w :
  active_timers (run update_status_indicator w) = active_timers w
  /\ timer_submenus (run update_status_indicator w) = timer_submenus w.
Proof.
  unfold run, update_status_indicator. rewrite bind_gets.
  by destruct (length (active_timers w)) as [| [| n]].
Qed.

Lemma pop_submenu_ok w t i m mi :
  Py.index (active_timers w) t = Some i ->
  timer_submenus w !! i = Some m ->
  items w !! m = Some mi ->
  pop_submenu t w =
    (Ok tt, with_items (<[m := set_item_deleted mi]> (items w))
              (with_timer_submenus (delete i (timer_submenus w)) w)).
Proof.
  intros Hi Hm Hmi. unfold pop_submenu. rewrite bind_gets.
  erewrite bind_ok by (rewrite Hi; reflexivity). rewrite bind_gets.
  erewrite bind_ok by (unfold Py.pop; rewrite Hm; reflexivity).
  unfold modify at 1. unfold bind at 1. cbn [fst snd].
  unfold item_set. erewrite bind_ok by (unfold item_get; norm; rewrite Hmi; reflexivity).
  reflexivity.
Qed.

Lemma remove_active_ok w t i :
  Py.index (active_timers w) t = Some i ->
  remove_active t w = (Ok tt, with_active_timers (delete i (active_timers w)) w).
Proof.
  intros Hi. unfold remove_active. rewrite bind_gets.
  erewrite bind_ok by (rewrite (index_remove _ _ _ Hi); reflexivity).
  reflexivity.
Qed.

(** C5.  Unregistering a timer, from the menu ([cancel_timer]) or at its
    expiry ([show_alert]), removes from [active_timers] the position [i]
    where the timer object itself is found and from [timer_submenus] the
    same position: at every position [j] of the new lists stand the timer
    and the handle that stood together at one position before ([j] before
    [i], [j + 1] from [i] on).  Titles play no part. *)
Theorem unregister_keeps_pairs (w : World) (item t i m : nat) (mi : MenuItem)
    (tm : SimpleTimer) (th : Timer) :
  Py.index (active_timers w) t = Some i ->
  timer_submenus w !! i = Some m ->
  items w !! m = Some mi ->
  timers w !! t = Some tm ->
  threads w !! __timer tm = Some th ->
  let unregistered (w' : World) :=
    active_timers w' = delete i (active_timers w)
    /\ timer_submenus w' = delete i (timer_submenus w)
    /\ forall j,
         active_timers w' !! j = active_timers w !! shifted i j
         /\ timer_submenus w' !! j = timer_submenus w !! shifted i j in
  active_timers w !! i = Some t
  /\ fst (cancel_timer item t w) = Ok tt
  /\ unregistered (run (cancel_timer item t) w)
  /\ fst (show_alert t w) = Ok tt
  /\ unregistered (run (show_alert t) w).
Proof.
  intros Hi Hm Hmi Htm Hth unregistered.
  assert (Hun : forall w', active_timers w' = delete i (active_timers w) ->
            timer_submenus w' = delete i (timer_submenus w) -> unregistered w').
  { intros w' H1 H2. split; [done |]. split; [done |]. intros j.
    rewrite H1, H2. split; apply lookup_delete_shifted. }
  split; [by apply index_lookup |].
  set (w1 := with_items (<[m := set_item_deleted mi]> (items w))
               (with_timer_submenus (delete i (timer_submenus w)) w)).
  assert (Hpop : pop_submenu t w = (Ok tt, w1)) by by apply pop_submenu_ok.
  split; [| split; [| split]].
  - unfold cancel_timer. erewrite bind_ok by exact Hpop.
    erewrite bind_ok by (by eapply cancel_ok).
    erewrite bind_ok by (by eapply remove_active_ok).
    apply update_status_indicator_returns.
  - unfold run, cancel_timer. erewrite bind_ok by exact Hpop.
    erewrite bind_ok by (by eapply cancel_ok).
    erewrite bind_ok by (by eapply remove_active_ok).
    match goal with
    | |- unregistered (snd (update_status_indicator ?w2)) =>
        destruct (update_status_indicator_lists w2) as (H1 & H2)
    end.
    apply Hun; unfold run in *; [by rewrite H1 | by rewrite H2].
  - unfold show_alert. erewrite bind_ok by exact Hpop.
    erewrite bind_ok by (by eapply remove_active_ok).
    match goal with
    | |- fst (bind update_status_indicator ?k ?w2) = _ =>
        pose proof (update_status_indicator_returns w2) as Hr;
        destruct (update_status_indicator w2) as [[[] | e] w3] eqn:E; [| done];
        pose proof (menu_only_update_status_indicator w2) as (_ & Ht & _);
        rewrite E in Ht; cbn [snd] in Ht
    end.
    rewrite (bind_ok _ _ _ _ _ E).
    erewrite bind_ok by (apply timer_get_ok; rewrite <- Ht; exact Htm).
    reflexivity.
  - unfold run, show_alert. erewrite bind_ok by exact Hpop.
    erewrite bind_ok by (by eapply remove_active_ok).
    match goal with
    | |- unregistered (snd (bind update_status_indicator ?k ?w2)) =>
        pose proof (update_status_indicator_returns w2) as Hr;
        destruct (update_status_indicator_lists w2) as (H1 & H2);
        unfold run in H1, H2;
        destruct (update_status_indicator w2) as [[[] | e] w3] eqn:E; [| done];
        pose proof (menu_only_update_status_indicator w2) as (_ & Ht & _);
        rewrite E in Ht; cbn [snd] in Ht, H1, H2
    end.
    rewrite (bind_ok _ _ _ _ _ E).
    erewrite bind_ok by (apply timer_get_ok; rewrite <- Ht; exact Htm).
    apply Hun; unfold modify; norm; [by rewrite H1 | by rewrite H2].
Qed.

End Traces.

(** * Instances

    Each statement with hypotheses, applied to a concrete run of the
    script: the hypotheses are evaluated, the conclusion is the
    statement's. *)

Lemma pause_then_resume_running_witness :
  let w := exec unprinted unprinted
             [StartTimer 0 (Sec 60000000); Tick 1000000] (main 0) in
  let tm := mkSimpleTimer "1 minute" (Sec 60000000) true false false
              (Some show_alert_fn) [] 0 60000000 0 None in
  timers w !! 0%nat = Some tm
  /\ exists w1 w2 tm2,
       SimpleTimer.pause 0 w = (Ok tt, w1)
       /\ SimpleTimer.resume 0 w1 = (Ok tt, w2)
       /\ fst (SimpleTimer.time_remaining 0 w2) = Ok (end_time tm - now w)
       /\ timers w2 !! 0%nat = Some tm2 /\ paused tm2 = false.
Proof.
  intros w tm.
  assert (H1 : timers w !! 0%nat = Some tm) by (vm_compute; reflexivity).
  assert (H2 : threads w !! __timer tm
               = Some (mkTimer 60000000 0 false (Waiting 60000000)))
    by (vm_compute; reflexivity).
  split; [exact H1 |].
  destruct (pause_then_resume_running w 0 tm _ H1 H2 eq_refl eq_refl eq_refl)
    as (w1 & w2 & tm2 & Ha & Hb & _ & _ & Hc & Hd & _ & He & _).
  exists w1, w2, tm2. repeat split; assumption.
Defined.

Lemma time_remaining_by_state_witness :
  let w1 := exec unprinted unprinted
              [StartTimer 0 (Sec 60000000); Tick 60000000; Wake 0] (main 0) in
  let wp := exec unprinted unprinted
              [StartTimer 0 (Sec 60000000); Tick 1000000] (main 0) in
  let w2 := exec unprinted unprinted [Tick 5000000; UpdateSubmenus]
              (run (step unprinted unprinted (PauseTimer 7 0)) wp) in
  let w3 := exec unprinted unprinted
              [StartTimer 0 (Sec 60000000); Tick 61000000] (main 0) in
  SimpleTimer.time_remaining 0 w1 = (Ok 0, w1)
  /\ (fst (SimpleTimer.time_remaining 0 wp) = Ok 59000000
      /\ SimpleTimer.time_remaining 0 w2 = (Ok 59000000, w2))
  /\ SimpleTimer.time_remaining 0 w3 = (Ok (60000000 - now w3), w3)
  /\ 60000000 - now w3 < 0.
Proof.
  intros w1 wp w2 w3.
  destruct (time_remaining_by_state unprinted unprinted) as (H1 & H2 & H3).
  split; [| split; [| split]].
  - apply (H1 w1 0%nat
             (mkSimpleTimer "1 minute" (Sec 60000000) true false true
                (Some show_alert_fn) [] 0 60000000 0 None));
      vm_compute; reflexivity.
  - assert (Hr : fst (SimpleTimer.time_remaining 0 wp) = Ok 59000000)
      by (vm_compute; reflexivity).
    split; [exact Hr |].
    apply (H2 0 [StartTimer 0 (Sec 60000000); Tick 1000000] 0%nat 7%nat
             (PauseTimer 7 0) 59000000 [Tick 5000000; UpdateSubmenus]
             (mkSimpleTimer "1 minute" (Sec 60000000) true true false
                (Some show_alert_fn) [] 0 60000000 0 (Some 59000000)));
      [by right | exact Hr | vm_compute; reflexivity ..].
  - apply (H3 w3 0%nat
             (mkSimpleTimer "1 minute" (Sec 60000000) true false false
                (Some show_alert_fn) [] 0 60000000 0 None));
      vm_compute; reflexivity.
  - apply (H3 w3 0%nat
             (mkSimpleTimer "1 minute" (Sec 60000000) true false false
                (Some show_alert_fn) [] 0 60000000 0 None));
      vm_compute; reflexivity.
Defined.


Lemma cancel_prevents_callback_witness :
  let w := exec unprinted unprinted
             [StartTimer 0 (Sec 60000000); Tick 1000000] (main 0) in
  let tm := mkSimpleTimer "1 minute" (Sec 60000000) true false false
              (Some show_alert_fn) [] 0 60000000 0 None in
  (respects unprinted unprinted
     [StartTimer 0 (Sec 60000000); Tick 1000000] (main 0) = true
   /\ timers w !! 0%nat = Some tm)
  /\ calls_of 0
       (exec unprinted unprinted [Tick 60000000; Wake 0]
          (run (step unprinted unprinted (Cancel 0)) w)) = calls_of 0 w.
Proof.
  intros w tm.
  assert (H1 : respects unprinted unprinted
                 [StartTimer 0 (Sec 60000000); Tick 1000000] (main 0) = true)
    by (vm_compute; reflexivity).
  assert (H2 : timers w !! 0%nat = Some tm) by (vm_compute; reflexivity).
  split; [by split |].
  exact (proj1 (cancel_prevents_callback unprinted unprinted 0
                  [StartTimer 0 (Sec 60000000); Tick 1000000] 0 tm
                  [Tick 60000000; Wake 0] H1 H2 eq_refl eq_refl eq_refl)).
Defined.

(** Two timers titled "1 minute" and one titled "5 minutes"; the second
    "1 minute" timer is cancelled from its submenu. *)
Lemma unregister_keeps_pairs_witness :
  let w := exec unprinted unprinted
             [StartTimer 0 (Sec 60000000); StartTimer 0 (Sec 60000000);
              StartTimer 1 (Sec 300000000)] (main 0) in
  (active_timers w = [0; 1; 2]%nat /\ timer_submenus w = [6; 9; 12]%nat
   /\ title <$> timers w = ["1 minute"; "1 minute"; "5 minutes"])
  /\ active_timers (run (cancel_timer 11 1) w) = delete 1%nat (active_timers w)
  /\ timer_submenus (run (cancel_timer 11 1) w) = delete 1%nat (timer_submenus w).
Proof.
  intros w.
  split; [repeat split; vm_compute; reflexivity |].
  assert (H1 : Py.index (active_timers w) 1 = Some 1%nat) by (vm_compute; reflexivity).
  assert (H2 : timer_submenus w !! 1%nat = Some 9%nat) by (vm_compute; reflexivity).
  assert (H3 : items w !! 9%nat
               = Some (mkMenuItem "1 minute (1:0 remaining)" true None [] false))
    by (vm_compute; reflexivity).
  assert (H4 : timers w !! 1%nat
               = Some (mkSimpleTimer "1 minute" (Sec 60000000) true false false
                         (Some show_alert_fn) [] 0 60000000 1 None))
    by (vm_compute; reflexivity).
  assert (H5 : threads w !! 1%nat
               = Some (mkTimer 60000000 1 false (Waiting 60000000)))
    by (vm_compute; reflexivity).
  destruct (unregister_keeps_pairs w 11 1 1 9 _ _ _ H1 H2 H3 H4 H5)
    as (_ & _ & (Ha & Hb & _) & _).
  split; [exact Ha | exact Hb].
Defined.

Lemma status_indicator_title_witness :
  let w := exec unprinted unprinted
             [StartTimer 0 (Sec 60000000); StartTimer 1 (Sec 300000000)] (main 0) in
  (length (active_timers (main 0)) = 0%nat
   /\ length (active_timers w) = 2%nat)
  /\ item_title (status_indicator (run update_status_indicator (main 0)))
     = "No active timers"
  /\ item_title (status_indicator (run update_status_indicator w))
     = Py.str_int (Z.of_nat (length (active_timers w))) ++ " active timers".
Proof.
  intros w.
  assert (H2 : length (active_timers w) = 2%nat) by (vm_compute; reflexivity).
  split; [by split |]. split.
  - destruct (status_indicator_title (main 0)) as (_ & H & _).
    by destruct (H eq_refl).
  - destruct (status_indicator_title w) as (_ & _ & _ & H).
    apply H. rewrite H2. lia.
Defined.


Lemma pause_when_paused_witness :
  let tr := [StartTimer 0 (Sec 60000000); Tick 1000000; PauseTimer 7 0] in
  let tm := mkSimpleTimer "1 minute" (Sec 60000000) true true false
              (Some show_alert_fn) [] 0 60000000 0 (Some 59000000) in
  (respects unprinted unprinted tr (main 0) = true
   /\ timers (exec unprinted unprinted tr (main 0)) !! 0%nat = Some tm)
  /\ SimpleTimer.pause 0 (exec unprinted unprinted tr (main 0))
     = (Ok tt, exec unprinted unprinted tr (main 0)).
Proof.
  intros tr tm.
  assert (H1 : respects unprinted unprinted tr (main 0) = true)
    by (vm_compute; reflexivity).
  assert (H2 : timers (exec unprinted unprinted tr (main 0)) !! 0%nat = Some tm)
    by (vm_compute; reflexivity).
  split; [by split |].
  exact (pause_when_paused unprinted unprinted 0 tr 0 tm H1 H2 eq_refl).
Defined.

Lemma cancel_changes_no_attribute_witness :
  let tr0 := [StartTimer 0 (Sec 60000000); Tick 1000000] in
  let w := exec unprinted unprinted tr0 (main 0) in
  let w1 := run (step unprinted unprinted (Cancel 0)) w in
  let w2 := exec unprinted unprinted [Tick 60000000; Wake 0] w1 in
  let tm := mkSimpleTimer "1 minute" (Sec 60000000) true false false
              (Some show_alert_fn) [] 0 60000000 0 None in
  (respects unprinted unprinted tr0 (main 0) = true
   /\ timers w !! 0%nat = Some tm)
  /\ timers w1 = timers w
  /\ SimpleTimer.time_remaining 0 w2 = (Ok (end_time tm - now w2), w2)
  /\ (end_time tm < now w2 -> end_time tm - now w2 < 0).
Proof.
  intros tr0 w w1 w2 tm.
  assert (H1 : respects unprinted unprinted tr0 (main 0) = true)
    by (vm_compute; reflexivity).
  assert (H2 : timers w !! 0%nat = Some tm) by (vm_compute; reflexivity).
  split; [by split |].
  destruct (cancel_changes_no_attribute unprinted unprinted 0 tr0 0 tm H1 H2)
    as (_ & Ha & _ & Hb).
  split; [exact Ha |].
  destruct (Hb eq_refl eq_refl [Tick 60000000; Wake 0] eq_refl) as (Hc & Hd & _).
  split; [exact Hc | exact Hd].
Defined.

(** * Two runs of the class

    [resume()] after [cancel()] starts a new thread, and the action is
    called when it expires. *)
Example resume_after_cancel_calls :
  length
    (calls_of 0
       (exec unprinted unprinted
          [New "tea" (Sec 60000000) (Some (extern_fn "ring")) None; Start 0;
           Pause 0; Cancel 0; Resume 0; Tick 60000000; Wake 1] (main 0)))
  = 1%nat.
Proof. vm_compute. reflexivity. Qed.

(** Outside the use the docstrings describe: [resume()] on a running timer
    leaves its first thread alive; when that thread finishes the timer
    while it is paused, a second [pause()] stores zero in place of the
    remaining time the first one captured. *)
Example pause_after_stale_expiry :
  let w := exec unprinted unprinted
             [New "tea" (Sec 60000000) (Some (extern_fn "ring")) None; Start 0;
              Resume 0; Tick 1000000; Pause 0; Tick 59000000; Wake 0] (main 0) in
  __time_remaining <$> timers w !! 0%nat = Some (Some 59000000)
  /\ __time_remaining <$> timers (run (SimpleTimer.pause 0) w) !! 0%nat
     = Some (Some 0).
Proof. split; vm_compute; reflexivity. Qed.

(** * Answers to the dialog

    What [float()], the product with [60.0] and [timedelta] make of some
    texts. *)
(** Unicode digits and spaces are read; the ASCII separators 28 to 31 are
    not blanks for [float()]. *)
Example float_unicode_digits :
  Py.float "５" = Some (Py.of_Z 5) /\ Py.float " ١٢٣ " = Some (Py.of_Z 123).
Proof. split; vm_compute; reflexivity. Qed.

Example float_file_separator : Py.float (String "028" "5") = None.
Proof. vm_compute. reflexivity. Qed.

(** A number beyond the largest float is an infinity, and so is sixty times
    a number near it: [timedelta] raises [OverflowError]. *)
Example float_overflow :
  Py.float "1e400" = Some (S754_infinity false)
  /\ timedelta_of <$> custom_duration "1e308" = Some (Raise OverflowError).
Proof. split; vm_compute; reflexivity. Qed.

(** Rounding: [0.000000125 * 60.0] is just below 7.5 microseconds, and
    [0.9999999999999999 * 60.0] is below sixty seconds, and a minute for
    [timedelta]. *)
Example custom_seven_microseconds :
  timedelta_of <$> custom_duration "0.000000125" = Some (Ok 7).
Proof. vm_compute. reflexivity. Qed.

Example custom_almost_a_minute :
  lt_60 <$> custom_duration "0.9999999999999999" = Some true
  /\ timedelta_of <$> custom_duration "0.9999999999999999" = Some (Ok 60000000).
Proof. split; vm_compute; reflexivity. Qed.

(** Ten thousand million minutes from the year 2025 end after the year
    9999. *)
Example custom_out_of_range :
  in_range (CreateCustomTimer 5 (Some ("Start", "10000000000")))
    (main 63900000000000000) = false
  /\ in_range (CreateCustomTimer 5 (Some ("Start", "10")))
       (main 63900000000000000) = true.
Proof. split; vm_compute; reflexivity. Qed.

(** * More on the timer engine *)

Section Engine.

Variable float_str : seconds -> string.
Variable round_minutes_str : seconds -> string.

Local Abbreviation step' := (step float_str round_minutes_str).
Local Abbreviation exec' := (exec float_str round_minutes_str).
Local Abbreviation respects' := (respects float_str round_minutes_str).


(** X2.  A timer can be started once: when [start()] has returned, a second
    [start()] raises [RuntimeError] and changes nothing; and [start()]
    raises it as well on a timer that [resume()] has just resumed, whose new
    thread is already running. *)
Theorem start_twice_raises (t0 : Z) (tr0 : list event) (t : nat) (w1 : World) :
  let w := exec' tr0 (main t0) in
  SimpleTimer.start t w = (Ok tt, w1) \/ SimpleTimer.resume t w = (Ok tt, w1) ->
  fst (SimpleTimer.start t w1) = Raise RuntimeError
  /\ threads (run (SimpleTimer.start t) w1) = threads w1
  /\ (SimpleTimer.start t w = (Ok tt, w1) ->
      SimpleTimer.start t w1 = (Raise RuntimeError, w1)).
Proof.
  intros w H.
  assert (Hwf : wf w) by apply exec_wf, wf_main.
  destruct (timers w !! t) as [tm |] eqn:Htm; cycle 1.
  { exfalso. destruct H as [H | H].
    - unfold SimpleTimer.start in H.
      by rewrite (bind_raise _ _ _ _ _ (timer_set_dangling _ _ _ Htm)) in H.
    - unfold SimpleTimer.resume, datetime_now, gets in H. unfold bind at 1 in H.
      by rewrite (bind_raise _ _ _ _ _ (time_remaining_dangling _ _ Htm)) in H. }
  destruct (wf_thread _ _ _ Hwf Htm) as (th & Hth & Hf).
  assert (Hstart : SimpleTimer.start t w = (Ok tt, w1) ->
            SimpleTimer.start t w1 = (Raise RuntimeError, w1)).
  { intros Hs.
    assert (stage th = Initial) as Hst.
    { destruct (stage th) eqn:E; [done | exfalso ..];
        by rewrite (start_twice _ _ _ _ Htm Hth) in Hs by congruence. }
    rewrite (start_ok _ _ _ _ Htm Hth Hst) in Hs. injection Hs as <-.
    erewrite start_twice; cycle 1.
    - norm. eauto using lookup_insert_same.
    - norm. cbn [__timer set_started]. eauto using lookup_insert_same.
    - done.
    - norm. rewrite list_insert_insert_eq. reflexivity. }
  destruct H as [H | H].
  - rewrite (Hstart H). unfold run. rewrite (Hstart H). done.
  - destruct (SimpleTimer.time_remaining_at tm (now w)) as [r | e] eqn:Hr;
      [| by rewrite (resume_raises _ _ _ _ Htm Hr) in H].
    rewrite (resume_ok _ _ _ _ Htm Hr) in H. injection H as <-.
    match goal with
    | |- fst (SimpleTimer.start t ?W) = _ /\ _ =>
        assert (Hs : exists tm', SimpleTimer.start t W
                  = (Raise RuntimeError, with_timers (<[t := tm']> (timers W)) W))
    end.
    { eexists. eapply start_twice.
      - norm. eauto using lookup_insert_same.
      - norm. cbn [__timer resumed set_paused set___timer].
        apply list_lookup_middle. reflexivity.
      - done. }
    destruct Hs as (tm' & Hs).
    split; [by rewrite Hs |]. split; [unfold run; by rewrite Hs | exact Hstart].
Qed.

(** ** What holds in every run, whatever the use of the class *)

Lemma forallb_true {A} (l : list A) : forallb (fun _ => true) l = true.
Proof. by induction l. Qed.

(** A property of the engine that every effect keeps holds in every run. *)
Lemma exec_always (P : World -> Prop) :
  (forall w w', same_engine w w' -> P w -> P w') ->
  (forall l w w', does l w w' -> wf w -> P w -> P w') ->
  forall tr w, wf w -> P w -> P (exec' tr w).
Proof.
  intros Heng Hdoes tr w Hwf HP.
  apply (exec_invariant float_str round_minutes_str P (fun _ => True) (fun _ => true));
    [done | by eauto | | done | done | apply forallb_true].
  intros e w0 ls _ _ _. by apply Forall_forall.
Qed.

Lemma same_identity_refl tm : same_identity tm tm.
Proof. by repeat split. Qed.

Lemma same_identity_trans tm1 tm2 tm3 :
  same_identity tm1 tm2 -> same_identity tm2 tm3 -> same_identity tm1 tm3.
Proof.
  intros (? & ? & ? & ? & ? & ? & ?) (? & ? & ? & ? & ? & ? & ?).
  repeat split; try congruence; auto.
Qed.

Lemma does_identity l w w' t tm :
  does l w w' -> timers w !! t = Some tm ->
  exists tm', timers w' !! t = Some tm' /\ same_identity tm tm'.
Proof.
  intros H Htm.
  assert (Hset : forall t0 tm0 tm0',
            timers w !! t0 = Some tm0 -> same_identity tm0 tm0' ->
            exists tm', <[t0 := tm0']> (timers w) !! t = Some tm'
                        /\ same_identity tm tm').
  { intros t0 tm0 tm0' H0 Hid. destruct (decide (t0 = t)) as [-> | Hn].
    - exists tm0'. split; [eauto using lookup_insert_same | by simplify_eq].
    - exists tm. split; [by rewrite list_lookup_insert_ne | apply same_identity_refl]. }
  destruct H; norm;
    try (by exists tm; split; [| apply same_identity_refl]);
    try (by eapply Hset; [done | by repeat split]).
  exists tm. split; [by apply lookup_app_l_Some | apply same_identity_refl].
Qed.

(** X3.  In every run of the script, whatever is called and in whatever
    order, a timer object stays where it is and keeps the title, duration,
    action, arguments and creation time it was constructed with; [started]
    and [finished], once true, stay true. *)
Theorem attributes_never_reassigned (t0 : Z) (tr0 tr : list event) (t : nat)
    (tm : SimpleTimer) :
  let w := exec' tr0 (main t0) in
  timers w !! t = Some tm ->
  exists tm', timers (exec' tr w) !! t = Some tm' /\ same_identity tm tm'.
Proof.
  intros w Htm.
  apply (exec_always
           (fun w' => exists tm', timers w' !! t = Some tm' /\ same_identity tm tm')).
  - intros w1 w2 (_ & Ht & _) H. by rewrite <- Ht.
  - intros l w1 w2 Hl _ (tm1 & H1 & Hid).
    destruct (does_identity _ _ _ _ _ Hl H1) as (tm2 & H2 & Hid2).
    exists tm2. split; [done | by eapply same_identity_trans].
  - apply exec_wf, wf_main.
  - exists tm. split; [done | apply same_identity_refl].
Qed.

Lemma does_remaining_stored l w w' :
  does l w w' -> remaining_stored w -> remaining_stored w'.
Proof.
  intros H HP t tm' Htm'.
  assert (Hset : forall t0 tm0 tm0',
            timers w !! t0 = Some tm0 ->
            <[t0 := tm0']> (timers w) !! t = Some tm' ->
            (paused tm0' = true -> is_Some (__time_remaining tm0')) ->
            paused tm' = true -> is_Some (__time_remaining tm')).
  { intros t0 tm0 tm0' H0 Hl Hk.
    apply list_lookup_insert_Some in Hl as [(_ & <- & _) | (_ & Hl)];
      [done | by eapply HP]. }
  destruct H; norm; try (by eapply HP);
    try (eapply Hset; [done | done |]; cbn; by eauto).
  apply lookup_app_Some in Htm' as [H1 | (_ & H1)]; [by eapply HP |].
  by apply list_lookup_singleton_Some in H1 as (_ & <-).
Qed.

(** X4.  In every run of the script, whatever is called and in whatever
    order, reading [time_remaining] of a timer returns a value and changes
    nothing: the private attribute it reads for a paused timer has been
    assigned by then. *)
Theorem time_remaining_always_returns (t0 : Z) (tr : list event) (t : nat)
    (tm : SimpleTimer) :
  let w := exec' tr (main t0) in
  timers w !! t = Some tm ->
  exists r, SimpleTimer.time_remaining t w = (Ok r, w).
Proof.
  intros w Htm.
  assert (HP : remaining_stored w).
  { apply (exec_always remaining_stored).
    - intros w1 w2 (_ & Ht & _) H. unfold remaining_stored. by rewrite <- Ht.
    - intros l w1 w2 Hl _. by eapply does_remaining_stored.
    - apply wf_main.
    - intros t1 tm1 H. simpl in H. by rewrite lookup_nil in H. }
  rewrite (time_remaining_ok _ _ _ Htm). unfold SimpleTimer.time_remaining_at.
  destruct (finished tm); [by eexists |].
  destruct (paused tm) eqn:Hp; [| by eexists].
  destruct (HP _ _ Htm Hp) as [r ->]. by eexists.
Qed.

Lemma filter_insert_length {A} (p : A -> bool) (l : list A) i x y :
  l !! i = Some x ->
  (length (List.filter p (<[i := y]> l)) + (if p x then 1 else 0)
   = length (List.filter p l) + (if p y then 1 else 0))%nat.
Proof.
  revert i. induction l as [| z l IH]; intros [| i] H; simplify_eq/=.
  - destruct (p x), (p y); simpl; lia.
  - specialize (IH _ H). destruct (p z); simpl; lia.
Qed.

Lemma run_insert t (l : list Timer) i th th' :
  l !! i = Some th -> has_run t th = false ->
  (length (List.filter (has_run t) l)
   <= length (List.filter (has_run t) (<[i := th']> l)))%nat
  /\ (has_run t th' = true ->
      length (List.filter (has_run t) (<[i := th']> l))
      = S (length (List.filter (has_run t) l))).
Proof.
  intros Hth Hno.
  pose proof (filter_insert_length (has_run t) _ _ _ th' Hth) as H.
  rewrite Hno in H. destruct (has_run t th'); split; try done; lia.
Qed.

Lemma run_app t (l : list Timer) th :
  has_run t th = false ->
  length (List.filter (has_run t) (l ++ [th])) = length (List.filter (has_run t) l).
Proof.
  intros Hno. rewrite List.filter_app, length_app. simpl. rewrite Hno. simpl. lia.
Qed.

Lemma run_mark_event t (l : list Timer) i th :
  l !! i = Some th ->
  length (List.filter (has_run t) (<[i := mark_event true th]> l))
  = length (List.filter (has_run t) l).
Proof.
  intros Hth.
  pose proof (filter_insert_length (has_run t) _ _ _ (mark_event true th) Hth) as Hl.
  change (has_run t (mark_event true th)) with (has_run t th) in Hl. lia.
Qed.

Lemma has_run_waiting t th d : stage th = Waiting d -> has_run t th = false.
Proof. unfold has_run. intros ->. apply andb_false_r. Qed.

Lemma has_run_initial t th : stage th = Initial -> has_run t th = false.
Proof. unfold has_run. intros ->. apply andb_false_r. Qed.

Lemma does_calls_threads_run l w w' t :
  does l w w' ->
  (length (calls_of t w) <= threads_run t w)%nat ->
  (length (calls_of t w') <= threads_run t w')%nat.
Proof.
  intros H HP. unfold threads_run, calls_of in *.
  destruct H; norm; try done.
  - by rewrite run_app by (by apply has_run_initial).
  - etrans; [exact HP |]. eapply run_insert; [done | by apply has_run_initial].
  - by rewrite run_mark_event.
  - by rewrite run_mark_event.
  - by rewrite run_app by (by eapply has_run_waiting).
  - etrans; [exact HP |]. eapply run_insert; [done | by eapply has_run_waiting].
  - destruct (run_insert t _ i th th' H (has_run_waiting _ _ _ H0)) as (Hle & Hs).
    unfold fired_calls.
    destruct (action tm); [| lia].
    destruct (SimpleTimer.accepts _ _); [| lia].
    destruct (decide (function th = t)) as [Heq | Hne].
    + rewrite filter_cons_True by done. simpl. rewrite Hs; [lia |].
      unfold has_run. destruct H4 as [-> | ->]; simpl; rewrite Heq, Nat.eqb_refl; done.
    + rewrite filter_cons_False by done. lia.
Qed.

(** X5.  In every run of the script, whatever is called and in whatever
    order, the action of a timer has been called at most once for each of
    its threads that has left its wait: one thread, one call at most. *)
Theorem one_call_per_thread (t0 : Z) (tr : list event) (t : nat) :
  let w := exec' tr (main t0) in
  (length (calls_of t w) <= threads_run t w)%nat.
Proof.
  intros w.
  apply (exec_always (fun w' => (length (calls_of t w') <= threads_run t w')%nat)).
  - intros w1 w2 He. rewrite (calls_of_engine _ _ _ He).
    destruct He as (_ & _ & Hth & _). unfold threads_run. by rewrite Hth.
  - intros l w1 w2 Hl _. by eapply does_calls_threads_run.
  - apply wf_main.
  - done.
Qed.

(** ** Pausing for a while *)


(** ** [resume()] on a timer that is not paused *)

(** A thread that is due and not cancelled calls [run_action]: the timer is
    finished and, when its action is callable, the call is recorded. *)
Lemma wake_fires i w th dl tm f :
  wf w ->
  threads w !! i = Some th -> stage th = Waiting dl -> event_set th = false ->
  dl <= now w ->
  timers w !! function th = Some tm ->
  action tm = Some f -> SimpleTimer.accepts f (args tm) = true ->
  let w' := run (wake i) w in
  calls w' = mkCall f (function th) (VRef (function th) :: args tm) (now w)
               (set_finished true tm) :: calls w
  /\ timers w' = <[function th := set_finished true tm]> (timers w)
  /\ (forall j, j <> i -> threads w' !! j = threads w !! j)
  /\ now w' = now w.
Proof.
  intros Hwf Hth Hst Hev Hdl Htm Hact Hacc w'.
  destruct (wake_cases i w Hwf) as [(w1 & Hd & He) | (_ & Hno)]; cycle 1.
  { destruct (Hno _ _ Hth Hst). lia. }
  destruct He as (Hnow & Ht & Hths & Hc). fold w' in Hnow, Ht, Hths, Hc.
  rewrite <- Hnow, <- Ht, <- Hc.
  assert (forall j, j <> i -> threads w' !! j = threads w1 !! j) as Hj
    by (intros j _; by rewrite Hths).
  inversion Hd; subst; simplify_eq; norm; [congruence |].
  unfold fired_calls. rewrite Hact, Hacc.
  split; [done |]. split; [done |]. split; [| done].
  intros j Hne. rewrite Hj by done. by rewrite list_lookup_insert_ne.
Qed.


(** C4.  [cancel()] does not end a timer for good.  In every run of the
    script in which [resume()] is only called on paused timers: when a
    timer that is started, paused and not finished is cancelled and then
    resumed, [cancel()] returns, [resume()] is called on a paused timer as
    its docstring asks, and once the remaining time has passed the thread
    that [resume()] started calls the action: a completion call is recorded
    after [cancel()]. *)
Theorem resume_after_cancel_fires (t0 : Z) (tr0 : list event) (t : nat)
    (tm : SimpleTimer) (f : callback) (d : N) :
  let w := exec' tr0 (main t0) in
  respects' tr0 (main t0) = true ->
  timers w !! t = Some tm ->
  started tm = true -> paused tm = true -> finished tm = false ->
  action tm = Some f -> SimpleTimer.accepts f (args tm) = true ->
  (forall r, __time_remaining tm = Some r -> r <= Z.of_N d) ->
  let tr := [Cancel t; Resume t; Tick d; Wake (length (threads w))] in
  fst (SimpleTimer.cancel t w) = Ok tt
  /\ respects' tr w = true
  /\ exists c, calls_of t (exec' tr w) = c :: calls_of t w
               /\ completion_call t f (args tm) c.
Proof.
  intros w Hok Htm _ Hp Hf Hact Hacc Hd tr.
  assert (Hwf : wf w) by apply exec_wf, wf_main.
  assert (Hord : orderly w)
    by (apply exec_orderly; [apply wf_main | apply orderly_main | done]).
  destruct (wf_thread _ _ _ Hwf Htm) as (th & Hth & Hfn).
  destruct (Hord _ _ Htm) as (_ & _ & Hrem).
  destruct (Hrem Hp) as (r & Hr & _). specialize (Hd r Hr).
  pose proof (cancel_ok _ _ _ _ Htm Hth) as Hcan.
  set (w1 := with_threads (<[__timer tm := mark_event true th]> (threads w)) w) in *.
  assert (Hwf1 : wf w1).
  { pose proof (step_wf float_str round_minutes_str (Cancel t) w Hwf) as H.
    cbn [step] in H. unfold run in H. by rewrite Hcan in H. }
  assert (Htm1 : timers w1 !! t = Some tm) by done.
  assert (Hr1 : SimpleTimer.time_remaining_at tm (now w1) = Ok r)
    by (unfold SimpleTimer.time_remaining_at; by rewrite Hf, Hp, Hr).
  pose proof (resume_ok _ _ _ _ Htm1 Hr1) as Hres.
  match type of Hres with _ = (_, ?W) => set (w2 := W) in * end.
  assert (Hwf2 : wf w2).
  { pose proof (step_wf float_str round_minutes_str (Resume t) w1 Hwf1) as H.
    cbn [step] in H. unfold run in H. by rewrite Hres in H. }
  set (w3 := run (tick d) w2).
  assert (Hwf3 : wf w3)
    by apply (step_wf float_str round_minutes_str (Tick d) w2 Hwf2).
  assert (Hlen : length (threads w1) = length (threads w))
    by (unfold w1; norm; apply length_insert).
  split; [by rewrite Hcan |]. split.
  { unfold tr. cbn [respects step protocol_ok andb]. unfold run.
    rewrite Hcan. cbn [snd]. unfold is_paused. rewrite Htm1, Hp. done. }
  unfold tr. cbn [exec step]. unfold run at 4. rewrite Hcan. cbn [snd].
  unfold run at 3. rewrite Hres. cbn [snd]. fold w3.
  destruct (wake_fires (length (threads w)) w3
              (mkTimer r t false (Waiting (now w1 + r))) (now w1 + r)
              (resumed t r tm w1) f Hwf3) as (Hc & _).
  - change ((threads w1 ++ [mkTimer r t false (Waiting (now w1 + r))])%list
              !! length (threads w) = Some (mkTimer r t false (Waiting (now w1 + r)))).
    rewrite <- Hlen. by apply list_lookup_middle.
  - done.
  - done.
  - change (now w1 + r <= now w + Z.of_N d). change (now w1) with (now w). lia.
  - change (<[t := resumed t r tm w1]> (timers w1) !! t = Some (resumed t r tm w1)).
    eauto using lookup_insert_same.
  - done.
  - done.
  - cbn [function] in Hc. eexists. split.
    + unfold calls_of. rewrite Hc. rewrite filter_cons_True by done. reflexivity.
    + unfold completion_call. cbn [call_self call_fn call_args call_view call_time].
      repeat split.
Qed.

End Engine.
(** * The registry *)

Section Registry.

Variable float_str : seconds -> string.
Variable round_minutes_str : seconds -> string.

Local Abbreviation start_timer' := (start_timer float_str round_minutes_str).
Local Abbreviation create_custom_timer' :=
  (create_custom_timer float_str round_minutes_str).
Local Abbreviation step' := (step float_str round_minutes_str).
Local Abbreviation exec' := (exec float_str round_minutes_str).
Local Abbreviation respects' := (respects float_str round_minutes_str).
Local Abbreviation react' := (react float_str round_minutes_str).
Local Abbreviation play' := (play float_str round_minutes_str).
Local Abbreviation menu_events' := (menu_events float_str round_minutes_str).

(** ** What each handler does *)

Lemma update_status_indicator_ok w :
  update_status_indicator w
  = (Ok tt, with_status_indicator
              (indicate (length (active_timers w)) (status_indicator w)) w).
Proof.
  unfold update_status_indicator. rewrite bind_gets.
  by destruct (length (active_timers w)) as [| [| n]].
Qed.

Lemma item_get_ok i w m : items w !! i = Some m -> item_get i w = (Ok m, w).
Proof. unfold item_get. intros ->. reflexivity. Qed.

Lemma item_set_ok i f w m :
  items w !! i = Some m ->
  item_set i f w = (Ok tt, with_items (<[i := f m]> (items w)) w).
Proof. unfold item_set, bind, item_get. intros ->. reflexivity. Qed.

Lemma time_remaining_new ttl x d f a w :
  SimpleTimer.time_remaining_at (created_timer ttl x d f a w) (now w) = Ok d.
Proof. unfold SimpleTimer.time_remaining_at. simpl. f_equal. lia. Qed.

Lemma start_timer_ok item x d w m :
  items w !! item = Some m -> timedelta_of x = Ok d ->
  start_timer' item x w
  = (Ok tt,
     with_new_timer (timer_title float_str round_minutes_str (item_title m) x)
       x d w).
Proof.
  intros Hm Hx. unfold start_timer.
  erewrite bind_ok by (by apply item_get_ok).
  erewrite bind_ok by (by apply init_returns).
  set (ttl := timer_title float_str round_minutes_str (item_title m) x).
  change (mkSimpleTimer ttl x false false false (Some show_alert_fn)
            (default [] None) (now w) (now w + d) (length (threads w)) None)
    with (created_timer ttl x d (Some show_alert_fn) None w).
  set (tm := created_timer ttl x d (Some show_alert_fn) None w).
  unfold modify at 1. unfold bind at 1. norm.
  unfold modify at 1. unfold bind at 1. norm.
  erewrite bind_ok by apply update_status_indicator_ok. norm.
  erewrite bind_ok; cycle 1.
  { erewrite time_remaining_ok by (norm; apply list_lookup_middle; reflexivity).
    norm. unfold tm. rewrite time_remaining_new. reflexivity. }
  unfold new_item at 1. unfold bind at 1. norm.
  unfold new_item at 1. unfold bind at 1. norm.
  unfold new_item at 1. unfold bind at 1. norm.
  unfold modify at 1. unfold bind at 1. norm.
  erewrite start_ok; cycle 1.
  - norm. apply list_lookup_middle. reflexivity.
  - norm. apply list_lookup_middle. reflexivity.
  - reflexivity.
  - f_equal. unfold with_new_timer. norm.
    cbn [interval __timer tm created_timer set_item_enabled].
    rewrite !insert_app_r_alt by lia. rewrite !Nat.sub_diag.
    rewrite <- !app_assoc, !length_app, !Nat.add_1_r.
    reflexivity.
Qed.

Lemma show_alert_ok w t i m mi tm :
  Py.index (active_timers w) t = Some i ->
  timer_submenus w !! i = Some m ->
  items w !! m = Some mi ->
  timers w !! t = Some tm ->
  show_alert t w
  = (Ok tt, with_alerts (alert_title tm :: alerts w) (without_timer i m mi w)).
Proof.
  intros Hi Hm Hmi Htm. unfold show_alert.
  erewrite bind_ok by (by eapply pop_submenu_ok).
  erewrite bind_ok by (by apply remove_active_ok).
  erewrite bind_ok by apply update_status_indicator_ok.
  erewrite bind_ok by (by apply timer_get_ok).
  reflexivity.
Qed.

Lemma cancel_timer_ok w item t i m mi tm th :
  Py.index (active_timers w) t = Some i ->
  timer_submenus w !! i = Some m ->
  items w !! m = Some mi ->
  timers w !! t = Some tm ->
  threads w !! __timer tm = Some th ->
  cancel_timer item t w
  = (Ok tt,
     without_timer i m mi
       (with_threads (<[__timer tm := mark_event true th]> (threads w)) w)).
Proof.
  intros Hi Hm Hmi Htm Hth. unfold cancel_timer.
  erewrite bind_ok by (by eapply pop_submenu_ok).
  erewrite bind_ok by (by eapply cancel_ok).
  erewrite bind_ok by (by apply remove_active_ok).
  rewrite update_status_indicator_ok. reflexivity.
Qed.

(** A handler that finds the timer missing from [active_timers] raises
    before it has changed anything. *)
Lemma not_listed_raises w item t :
  Py.index (active_timers w) t = None ->
  show_alert t w = (Raise ValueError, w)
  /\ cancel_timer item t w = (Raise ValueError, w).
Proof.
  intros Hi.
  assert (Hpop : pop_submenu t w = (Raise ValueError, w)).
  { unfold pop_submenu. rewrite bind_gets.
    erewrite bind_raise; [reflexivity |]. by rewrite Hi. }
  unfold show_alert, cancel_timer.
  by rewrite !(bind_raise _ _ _ _ _ Hpop).
Qed.

Lemma pause_timer_ok w item t tm th r mi :
  timers w !! t = Some tm ->
  threads w !! __timer tm = Some th ->
  SimpleTimer.time_remaining_at tm (now w) = Ok r ->
  items w !! item = Some mi ->
  pause_timer item t w
  = (Ok tt,
     with_items
       (<[item := set_item_action resume_timer_fn (set_item_title "Resume" mi)]>
          (items w))
       (with_threads (<[__timer tm := mark_event true th]> (threads w))
          (with_timers
             (<[t := set_paused true (set___time_remaining r tm)]> (timers w)) w))).
Proof.
  intros Htm Hth Hr Hmi. unfold pause_timer.
  erewrite bind_ok by (by eapply pause_ok).
  erewrite (bind_ok _ _ _ (if finished tm then 0 else r)); cycle 1.
  { erewrite time_remaining_ok by (norm; eauto using lookup_insert_same).
    norm. unfold SimpleTimer.time_remaining_at. simpl.
    destruct (finished tm); reflexivity. }
  erewrite bind_ok by (by apply item_set_ok).
  erewrite item_set_ok by (norm; eauto using lookup_insert_same).
  norm. by rewrite list_insert_insert_eq.
Qed.

Lemma resume_timer_ok w item t tm r mi :
  timers w !! t = Some tm ->
  SimpleTimer.time_remaining_at tm (now w) = Ok r ->
  items w !! item = Some mi ->
  resume_timer item t w
  = (Ok tt,
     with_items
       (<[item := set_item_action pause_timer_fn (set_item_title "Pause" mi)]>
          (items w))
       (with_timers (<[t := resumed t r tm w]> (timers w))
          (with_threads
             (threads w ++ [mkTimer r t false (Waiting (now w + r))]) w))).
Proof.
  intros Htm Hr Hmi. unfold resume_timer.
  erewrite bind_ok by (by eapply resume_ok).
  erewrite bind_ok by (by apply item_set_ok).
  erewrite item_set_ok by (norm; eauto using lookup_insert_same).
  norm. by rewrite list_insert_insert_eq.
Qed.

(** ** What a wake-up does *)

Lemma wake_idle i w th :
  threads w !! i = Some th ->
  (forall d, stage th = Waiting d -> event_set th = false /\ now w < d) ->
  wake i w = (Ok tt, w).
Proof.
  intros Hth Hidle. unfold wake.
  erewrite bind_ok by (by apply thread_get_ok).
  unfold datetime_now. rewrite bind_gets.
  destruct (stage th) as [| d |]; [done | | done].
  destruct (Hidle d eq_refl) as (-> & Hlt).
  apply Z.leb_gt in Hlt. by rewrite Hlt.
Qed.

Lemma wake_skip i w th d :
  threads w !! i = Some th -> stage th = Waiting d -> event_set th = true ->
  wake i w
  = (Ok tt,
     with_threads (<[i := mark_event true (set_stage Done th)]> (threads w)) w).
Proof.
  intros Hth Hst Hev. unfold wake.
  erewrite bind_ok by (by apply thread_get_ok).
  unfold datetime_now. rewrite bind_gets, Hst, Hev. cbn [orb].
  erewrite bind_ok by (by apply thread_set_ok).
  unfold ret at 1. unfold bind at 1.
  erewrite thread_set_ok by (norm; eauto using lookup_insert_same).
  norm. by rewrite list_insert_insert_eq.
Qed.

Lemma wake_alert i w th d tm j m mi :
  threads w !! i = Some th -> stage th = Waiting d -> event_set th = false ->
  d <= now w ->
  timers w !! function th = Some tm ->
  action tm = Some show_alert_fn -> args tm = [] ->
  Py.index (active_timers w) (function th) = Some j ->
  timer_submenus w !! j = Some m ->
  items w !! m = Some mi ->
  wake i w
  = (Ok tt,
     with_threads (<[i := mark_event true (set_stage Done th)]> (threads w))
       (with_alerts (alert_title tm :: alerts w)
          (without_timer j m mi
             (with_calls
                (mkCall show_alert_fn (function th) [VRef (function th)] (now w)
                   (set_finished true tm) :: calls w)
                (with_timers
                   (<[function th := set_finished true tm]> (timers w)) w))))).
Proof.
  intros Hth Hst Hev Hd Htm Hact Hargs Hj Hm Hmi. unfold wake.
  erewrite bind_ok by (by apply thread_get_ok).
  unfold datetime_now. rewrite bind_gets, Hst, Hev. cbn [orb].
  apply Z.leb_le in Hd. rewrite Hd.
  erewrite bind_ok by (by apply thread_set_ok).
  erewrite bind_ok; cycle 1.
  { unfold SimpleTimer.run_action.
    erewrite bind_ok by (apply timer_set_ok; norm; eauto).
    unfold SimpleTimer.call_action.
    erewrite bind_ok by (apply timer_get_ok; norm; eauto using lookup_insert_same).
    cbn [action set_finished args]. rewrite Hact, Hargs. cbn [SimpleTimer.accepts].
    unfold datetime_now. rewrite bind_gets.
    unfold modify at 1. unfold bind at 1.
    eapply show_alert_ok; norm; eauto using lookup_insert_same. }
  unfold without_timer, alert_title. norm.
  erewrite thread_set_ok by (norm; eauto using lookup_insert_same).
  norm. cbn [title set_finished].
  by rewrite list_insert_insert_eq.
Qed.

(** ** Labels *)

Lemma index_paren_cons c s :
  String.index 0 "(" (String c s)
  = if Ascii.eqb c "(" then Some O else S <$> String.index 0 "(" s.
Proof.
  cbn [String.index String.prefix].
  destruct (ascii_dec "(" c) as [<- | Hne].
  - by destruct s.
  - destruct (Ascii.eqb_spec c "(") as [-> | _]; [done |].
    by destruct (String.index 0 "(" s).
Qed.

Lemma append_cons c (s r : string) : String c s ++ r = String c (s ++ r).
Proof. reflexivity. Qed.

Lemma substring_0_0 s : String.substring 0 0 s = EmptyString.
Proof. by destruct s. Qed.

(** A label rebuilt from its stem has the same stem. *)
Lemma stem_kept old i rest :
  String.index 0 "(" old = Some i ->
  String.index 0 "(" (String.substring 0 (i + 1) old ++ rest) = Some i
  /\ String.substring 0 (i + 1) (String.substring 0 (i + 1) old ++ rest)
     = String.substring 0 (i + 1) old.
Proof.
  revert i. induction old as [| c old IH]; intros i H; [done |].
  rewrite index_paren_cons in H.
  rewrite Nat.add_1_r. cbn [String.substring]. rewrite append_cons.
  rewrite index_paren_cons.
  destruct (Ascii.eqb c "(") eqn:Hc.
  - injection H as <-. split; [done |].
    cbn [String.substring]. by rewrite !substring_0_0.
  - destruct (String.index 0 "(" old) as [i' |] eqn:Hi; [| done].
    injection H as <-.
    destruct (IH i' eq_refl) as (H1 & H2). rewrite Nat.add_1_r in H1, H2.
    rewrite H1. split; [done |].
    change (String.substring 0 (S (S i')) (String c ?x))
      with (String c (String.substring 0 (S i') x)).
    by rewrite H2.
Qed.

(** The stem of the label [start_timer] builds is the title and " (". *)
Lemma stem_of_title ttl rest :
  String.index 0 "(" ttl = None ->
  String.index 0 "(" (ttl ++ " (" ++ rest) = Some (String.length ttl + 1)%nat
  /\ String.substring 0 (String.length ttl + 1 + 1) (ttl ++ " (" ++ rest)
     = ttl ++ " (".
Proof.
  induction ttl as [| c ttl IH]; intros H.
  { change (EmptyString ++ " (" ++ rest) with (String " " (String "(" rest)).
    rewrite !index_paren_cons. split; [reflexivity |].
    cbn [String.length Nat.add String.substring]. by rewrite substring_0_0. }
  rewrite index_paren_cons in H.
  destruct (Ascii.eqb c "(") eqn:Hc; [done |].
  destruct (String.index 0 "(" ttl) eqn:Hi; [done |].
  destruct (IH eq_refl) as (H1 & H2).
  change (String c ttl ++ " (" ++ rest) with (String c (ttl ++ " (" ++ rest)).
  change (String c ttl ++ " (") with (String c (ttl ++ " (")).
  cbn [String.length].
  rewrite index_paren_cons, Hc, H1. split; [done |].
  change (String.substring 0 (S (String.length ttl) + 1 + 1) (String c ?x))
    with (String c (String.substring 0 (String.length ttl + 1 + 1) x)).
  by rewrite H2.
Qed.

(** ** Refreshing the labels *)

Lemma update_submenu_ok w its k t tm r m mi i :
  timer_submenus w !! k = Some m ->
  timers w !! t = Some tm ->
  SimpleTimer.time_remaining_at tm (now w) = Ok r ->
  its !! m = Some mi ->
  String.index 0 "(" (item_title mi) = Some i ->
  update_submenu k t (with_items its w)
  = (Ok tt,
     with_items (<[m := set_item_title (refreshed (item_title mi) i tm r) mi]> its) w).
Proof.
  intros Hm Htm Hr Hmi Hi. unfold update_submenu.
  rewrite bind_gets. norm.
  erewrite bind_ok by (rewrite Hm; reflexivity).
  erewrite bind_ok by (erewrite time_remaining_ok by (norm; eauto); norm;
                       rewrite Hr; reflexivity).
  erewrite bind_ok by (apply timer_get_ok; norm; eauto).
  erewrite bind_ok by (apply item_get_ok; norm; eauto).
  erewrite bind_ok by (unfold label_stem; rewrite Hi; reflexivity).
  erewrite item_set_ok by (norm; eauto).
  reflexivity.
Qed.

(** The loop of [update_submenus] from position [k] on, when the submenus
    of the positions before [k] have been relabelled already. *)
Lemma update_submenus_from_ok w ts : forall k its,
  NoDup (timer_submenus w) ->
  (forall j t, ts !! j = Some t ->
     exists tm r m mi i,
       timers w !! t = Some tm
       /\ SimpleTimer.time_remaining_at tm (now w) = Ok r
       /\ timer_submenus w !! (k + j)%nat = Some m
       /\ items w !! m = Some mi
       /\ String.index 0 "(" (item_title mi) = Some i) ->
  length its = length (items w) ->
  (forall j m, timer_submenus w !! j = Some m -> (k <= j)%nat ->
     its !! m = items w !! m) ->
  exists its',
    update_submenus_from k ts (with_items its w) = (Ok tt, with_items its' w)
    /\ length its' = length (items w)
    /\ (forall j t tm r m mi i,
          ts !! j = Some t ->
          timers w !! t = Some tm ->
          SimpleTimer.time_remaining_at tm (now w) = Ok r ->
          timer_submenus w !! (k + j)%nat = Some m ->
          items w !! m = Some mi ->
          String.index 0 "(" (item_title mi) = Some i ->
          its' !! m = Some (set_item_title (refreshed (item_title mi) i tm r) mi))
    /\ (forall m, (forall j, (k <= j < k + length ts)%nat ->
                     timer_submenus w !! j <> Some m) ->
          its' !! m = its !! m).
Proof.
  induction ts as [| t ts IH]; intros k its Hnd Hts Hlen Hrest.
  { exists its. split; [reflexivity |]. split; [done |]. split; [| done].
    intros j ? ? ? ? ? ? H. by rewrite lookup_nil in H. }
  destruct (Hts O t eq_refl) as (tm & r & m & mi & i & Htm & Hr & Hm & Hmi & Hi).
  rewrite Nat.add_0_r in Hm.
  assert (Hmi' : its !! m = Some mi) by (rewrite (Hrest k m Hm); [done | lia]).
  cbn [update_submenus_from].
  erewrite bind_ok by (by eapply update_submenu_ok).
  set (its1 := <[m := set_item_title (refreshed (item_title mi) i tm r) mi]> its).
  destruct (IH (S k) its1 Hnd) as (its' & Hrun & Hlen' & Hnew & Hold).
  - intros j t' Hj. destruct (Hts (S j) t' Hj) as (? & ? & ? & ? & ? & H).
    rewrite <- Nat.add_succ_comm in H. eauto 10.
  - unfold its1. by rewrite length_insert.
  - intros j m' Hm' Hle. unfold its1.
    rewrite list_lookup_insert_ne; [apply (Hrest j m' Hm'); lia |].
    intros ->. assert (k = j) by (eapply NoDup_lookup; eauto). lia.
  - exists its'. split; [exact Hrun |]. split; [done |]. split.
    + intros [| j] t' tm' r' m' mi' i' Hj Htm' Hr' Hm' Hmi'' Hi'.
      * rewrite Nat.add_0_r in Hm'.
        assert (t' = t) as -> by (by injection Hj).
        assert (tm' = tm) as -> by congruence.
        assert (r' = r) as -> by congruence.
        assert (m' = m) as -> by congruence.
        assert (mi' = mi) as -> by congruence.
        assert (i' = i) as -> by congruence.
        rewrite Hold; [unfold its1; eapply lookup_insert_same, Hmi' |].
        intros j Hj' Hm''. assert (k = j) by (eapply NoDup_lookup; eauto). lia.
      * rewrite <- Nat.add_succ_comm in Hm'. by eapply Hnew.
    + intros m' Hm'. rewrite Hold; cycle 1.
      { intros j Hj. apply Hm'. simpl. lia. }
      unfold its1. rewrite list_lookup_insert_ne; [done |].
      intros ->. apply (Hm' k); [simpl; lia | done].
Qed.

(** [update_submenus] from the menu's items: the loop of
    [update_submenus_from_ok], started at the first active timer. *)
Lemma update_submenus_ok (w : World) :
  NoDup (timer_submenus w) ->
  (forall j t, active_timers w !! j = Some t ->
     exists tm r m mi i,
       timers w !! t = Some tm
       /\ SimpleTimer.time_remaining_at tm (now w) = Ok r
       /\ timer_submenus w !! j = Some m
       /\ items w !! m = Some mi
       /\ String.index 0 "(" (item_title mi) = Some i) ->
  exists its,
    update_submenus w = (Ok tt, with_items its w)
    /\ length its = length (items w)
    /\ (forall j t tm r m mi i,
          active_timers w !! j = Some t ->
          timers w !! t = Some tm ->
          SimpleTimer.time_remaining_at tm (now w) = Ok r ->
          timer_submenus w !! j = Some m ->
          items w !! m = Some mi ->
          String.index 0 "(" (item_title mi) = Some i ->
          its !! m = Some (set_item_title (refreshed (item_title mi) i tm r) mi))
    /\ (forall m, (forall j, (j < length (active_timers w))%nat ->
                     timer_submenus w !! j <> Some m) ->
          its !! m = items w !! m).
Proof.
  intros Hnd Hts.
  destruct (update_submenus_from_ok w (active_timers w) 0 (items w) Hnd)
    as (its & Hrun & Hlen & Hnew & Hold); [done | done | done |].
  exists its. unfold update_submenus. rewrite bind_gets.
  assert (with_items (items w) w = w) as Hw by (by destruct w).
  rewrite Hw in Hrun. split; [exact Hrun |]. split; [done |]. split.
  - intros j t tm r m mi i. apply (Hnew j t tm r m mi i).
  - intros m Hm. apply Hold. intros j Hj. apply Hm. lia.
Qed.

(** X8.  [update_submenus], when every active timer has its submenu at
    its own position of [timer_submenus], no submenu being listed twice,
    and every label has a "(": it returns, and it has rewritten the label
    of each active timer's submenu to the old label up to its first "(",
    then "Paused, " if the timer is paused, then the remaining time and
    " remaining)".  Every other menu item is as it was, and so are the
    timers, the threads, the two lists and the status indicator. *)
Theorem update_submenus_refreshes (w : World) :
  NoDup (timer_submenus w) ->
  (forall j t, active_timers w !! j = Some t ->
     exists tm r m mi i,
       timers w !! t = Some tm
       /\ SimpleTimer.time_remaining_at tm (now w) = Ok r
       /\ timer_submenus w !! j = Some m
       /\ items w !! m = Some mi
       /\ String.index 0 "(" (item_title mi) = Some i) ->
  exists its,
    update_submenus w = (Ok tt, with_items its w)
    /\ length its = length (items w)
    /\ (forall j t tm r m mi i,
          active_timers w !! j = Some t ->
          timers w !! t = Some tm ->
          SimpleTimer.time_remaining_at tm (now w) = Ok r ->
          timer_submenus w !! j = Some m ->
          items w !! m = Some mi ->
          String.index 0 "(" (item_title mi) = Some i ->
          its !! m = Some (set_item_title (refreshed (item_title mi) i tm r) mi))
    /\ (forall m, (forall j, (j < length (active_timers w))%nat ->
                     timer_submenus w !! j <> Some m) ->
          its !! m = items w !! m).
Proof.
  intros Hnd Hts. exact (update_submenus_ok w Hnd Hts).
Qed.

(** ** Runs driven by the menu *)

Lemma index_elem l x : x ∈ l -> exists i, Py.index l x = Some i.
Proof.
  induction l as [| y l IH]; intros H; [by apply elem_of_nil in H |].
  simpl. destruct (Nat.eqb_spec y x) as [-> | Hne]; [by eexists |].
  apply elem_of_cons in H as [-> | H]; [done |].
  destruct (IH H) as (i & ->). by eexists.
Qed.

Lemma index_not_elem l x : x ∉ l -> Py.index l x = None.
Proof.
  intros H. destruct (Py.index l x) as [i |] eqn:E; [| done].
  destruct H. eapply list_elem_of_lookup_2, index_lookup, E.
Qed.

Lemma listed_elem t w : listed t w = true <-> t ∈ active_timers w.
Proof.
  unfold listed. split.
  - destruct (Py.index _ _) as [i |] eqn:E; [| done].
    intros _. eapply list_elem_of_lookup_2, index_lookup, E.
  - intros H. by destruct (index_elem _ _ H) as (i & ->).
Qed.

Lemma delete_nodup {A} (l : list A) i x :
  NoDup l -> l !! i = Some x ->
  NoDup (delete i l)
  /\ forall y, y ∈ delete i l <-> y ∈ l /\ y <> x.
Proof.
  intros Hnd Hx. pose proof (delete_Permutation _ _ _ Hx) as Hp.
  apply (NoDup_Permutation_proper _ _ Hp) in Hnd.
  apply NoDup_cons in Hnd as (Hnot & Hnd').
  split; [done |]. intros y.
  pose proof (elem_of_Permutation_proper y _ _ Hp) as Hy.
  rewrite elem_of_cons in Hy. split.
  - intros Hin. split; [apply Hy; by right | by intros ->].
  - intros (Hin & Hne). apply Hy in Hin as [-> | Hin]; done.
Qed.

Lemma append_assoc (a b c : string) : (a ++ b) ++ c = a ++ b ++ c.
Proof. induction a as [| x a IH]; [done |]. rewrite !append_cons. by f_equal. Qed.

Lemma indicate_current n m :
  (n <> O -> item_enabled m = true) ->
  item_title (indicate n m) = status_label n
  /\ item_enabled (indicate n m) = negb (Nat.eqb n 0).
Proof. destruct n as [| n]; [done |]. intros H. split; [done |]. by apply H. Qed.

Lemma tidy_main t0 : tidy (main t0).
Proof.
  split.
  - apply wf_main.
  - apply orderly_main.
  - repeat split; simpl; constructor.
  - done.
  - intros t tm H. simpl in H. by rewrite lookup_nil in H.
  - intros t H. simpl in H. by apply elem_of_nil in H.
  - intros t tm H. simpl in H. by rewrite lookup_nil in H.
  - intros m H. simpl in H. by apply elem_of_nil in H.
  - intros j t m tm mi H. simpl in H. by rewrite lookup_nil in H.
  - intros item mi H. simpl in H.
    do 6 (destruct item as [| item]; [simplify_eq/=; by eauto |]).
    simpl in H. by rewrite lookup_nil in H.
  - intros i1 i2 m1 m2 t H1 _ Ht. simpl in H1.
    do 6 (destruct i1 as [| i1]; [by simplify_eq/= |]).
    simpl in H1. by rewrite lookup_nil in H1.
  - done.
Qed.

(** The parts of [tidy] that speak of the menus and of the attributes of
    the timers: they hold in a world that differs in the clock and in the
    threads only. *)
Lemma tidy_threads w w' e :
  tidy w ->
  w' = run (step' e) w -> protocol_ok e w = true ->
  timers w' = timers w -> items w' = items w ->
  active_timers w' = active_timers w -> timer_submenus w' = timer_submenus w ->
  status_indicator w' = status_indicator w ->
  calls w' = calls w -> alerts w' = alerts w ->
  (forall t, silent t w -> silent t w') ->
  tidy w'.
Proof.
  intros [Hwf Hord Hl Hsc Htm0 Hact Hcalls Hsub Hlab Hent Htog Halr]
    -> Hok Ht Hi Ha Hs Hst Hc Hal Hsil.
  split.
  - by apply step_wf.
  - by apply step_orderly.
  - unfold lists_paired. by rewrite Ha, Hs.
  - unfold status_current. by rewrite Ha, Hst.
  - unfold timers_from_menu. by rewrite Ht.
  - unfold active_unfinished. by rewrite Ha, Ht.
  - intros t tm Htm. rewrite Ht in Htm.
    destruct (Hcalls t tm Htm) as (H1 & H2 & H3).
    unfold calls_of. rewrite Hc, Ha. split; [done |]. split; [done |].
    intros Hn. by apply Hsil, H3.
  - unfold submenus_shown. by rewrite Hs, Hi.
  - unfold labels_titled. by rewrite Ha, Hs, Ht, Hi.
  - unfold entries_bound, is_paused. by rewrite Hi, Ht, Ha.
  - unfold toggle_unique. by rewrite Hi.
  - unfold alerts_shown. by rewrite Hal, Hc.
Qed.

Lemma tidy_tick w d : tidy w -> tidy (run (tick d) w).
Proof.
  intros H. by apply (tidy_threads w _ (Tick d)).
Qed.

Lemma tidy_wake_skip w i th d :
  tidy w ->
  threads w !! i = Some th -> stage th = Waiting d -> event_set th = true ->
  tidy (run (wake i) w).
Proof.
  intros H Hth Hst Hev.
  apply (tidy_threads w _ (Wake i)); try done;
    try (unfold run; by rewrite (wake_skip _ _ _ _ Hth Hst Hev)).
  intros t Hs. unfold run. rewrite (wake_skip _ _ _ _ Hth Hst Hev). cbn [snd].
  eapply silent_set_thread; [done | | done | done].
  intros _. apply dead_mark_event.
Qed.

Lemma index_paren_app a b : is_Some (String.index 0 "(" (a ++ " (" ++ b)).
Proof.
  induction a as [| c a IH].
  - change (EmptyString ++ " (" ++ b) with (String " " (String "(" b)).
    rewrite !index_paren_cons. by eexists.
  - change (String c a ++ " (" ++ b) with (String c (a ++ " (" ++ b)).
    rewrite index_paren_cons. destruct (Ascii.eqb c "("); [by eexists |].
    destruct IH as [i ->]. by eexists.
Qed.

Lemma calls_of_none t (cs : list Call) :
  (forall c, c ∈ cs -> call_self c <> t) ->
  filter (fun c => call_self c = t) cs = [].
Proof.
  induction cs as [| c cs IH]; intros H; [done |].
  rewrite filter_cons_False by (apply H; by left).
  apply IH. intros c' Hc'. apply H. by right.
Qed.

Lemma is_paused_app t w tm' :
  (t < length (timers w))%nat ->
  is_paused t (with_timers (timers w ++ [tm']) w) = is_paused t w.
Proof.
  intros Hlt. unfold is_paused. norm. by rewrite lookup_app_l.
Qed.

Lemma tidy_start w item m dur d :
  tidy w -> items w !! item = Some m -> timedelta_of dur = Ok d ->
  tidy (with_new_timer
          (timer_title float_str round_minutes_str (item_title m) dur) dur d w).
Proof.
  intros [Hwf Hord (Hlen & Hnd1 & Hnd2) (Hst1 & Hst2) Htm0 Hact Hcalls Hsub
          Hlab Hent Htog Halr] Hm Hxd.
  set (ttl := timer_title float_str round_minutes_str (item_title m) dur).
  assert (Hrun : run (step' (StartTimer item dur)) w = with_new_timer ttl dur d w)
    by (unfold run; cbn [step]; by rewrite (start_timer_ok _ _ _ _ _ Hm Hxd)).
  assert (Hfresh : forall x, x ∈ active_timers w -> (x < length (timers w))%nat).
  { intros x Hx. destruct (Hact x Hx) as (tm & Hx' & _). by eapply lookup_lt_Some. }
  assert (Hfresh' : forall x, x ∈ timer_submenus w -> (x < length (items w))%nat).
  { intros x Hx. destruct (Hsub x Hx) as (mi & Hx' & _). by eapply lookup_lt_Some. }
  split.
  - rewrite <- Hrun. by apply step_wf.
  - rewrite <- Hrun. by apply step_orderly.
  - unfold lists_paired, with_new_timer. norm. rewrite !length_app, Hlen.
    split; [done |]. split; apply NoDup_app; (split; [done |]);
      (split; [| apply NoDup_singleton]); intros x Hx Hin;
      apply list_elem_of_singleton in Hin; subst x.
    + specialize (Hfresh _ Hx). lia.
    + specialize (Hfresh' _ Hx). lia.
  - unfold status_current, with_new_timer. norm.
    rewrite length_app, Nat.add_1_r. by apply indicate_current.
  - intros t tm Ht. unfold with_new_timer in Ht. norm.
    apply lookup_app_Some in Ht as [Ht | (_ & Ht)]; [by eapply Htm0 |].
    by apply list_lookup_singleton_Some in Ht as (_ & <-).
  - intros t Ht. unfold with_new_timer in *. norm.
    apply elem_of_app in Ht as [Ht | Ht].
    + destruct (Hact t Ht) as (tm & Htm & Hf). exists tm.
      split; [by apply lookup_app_l_Some | done].
    + apply list_elem_of_singleton in Ht as ->. eexists.
      split; [by apply list_lookup_middle | done].
  - intros t tm Ht. unfold with_new_timer in *. unfold calls_of. norm.
    apply lookup_app_Some in Ht as [Ht | (Hge & Ht)].
    + destruct (Hcalls t tm Ht) as (H1 & H2 & H3).
      split; [done |]. split; [done |]. intros Hn.
      apply not_elem_of_app in Hn as (Hn & _).
      destruct (H3 Hn) as (Hlt & Hs). split; norm.
      * rewrite length_app. lia.
      * intros j thj Hj Hfj.
        apply lookup_app_Some in Hj as [Hj | (_ & Hj)]; [by eapply Hs |].
        apply list_lookup_singleton_Some in Hj as (_ & <-). simpl in Hfj. lia.
    + apply list_lookup_singleton_Some in Ht as (Ht & <-).
      assert (t = length (timers w)) as -> by lia.
      split; [| split; [done |]].
      * intros _. apply calls_of_none. intros c Hc Heq.
        destruct Hwf as (_ & _ & Hwf3). specialize (Hwf3 c Hc). lia.
      * intros Hn. destruct Hn. apply elem_of_app. right. by apply list_elem_of_singleton.
  - intros x Hx. unfold with_new_timer in *. norm.
    apply elem_of_app in Hx as [Hx | Hx].
    + destruct (Hsub x Hx) as (mi & Hmi & H). exists mi.
      split; [by apply lookup_app_l_Some | done].
    + apply list_elem_of_singleton in Hx as ->. eexists.
      split; [by apply list_lookup_middle |].
      split; [done |]. split; [done |]. apply index_paren_app.
  - intros j t x tm mi Hj Hx Htm Hmi Hno. unfold with_new_timer in *. norm.
    apply lookup_app_Some in Hj as [Hj | (Hge & Hj)].
    + assert (Hjlt : (j < length (timer_submenus w))%nat)
        by (rewrite <- Hlen; by eapply lookup_lt_Some).
      rewrite lookup_app_l in Hx by done.
      rewrite lookup_app_l in Htm
        by (by apply Hfresh; eapply list_elem_of_lookup_2).
      rewrite lookup_app_l in Hmi
        by (by apply Hfresh'; eapply list_elem_of_lookup_2).
      by eapply Hlab.
    + apply list_lookup_singleton_Some in Hj as (Hj & <-).
      assert (j = length (timer_submenus w)) as -> by lia.
      rewrite list_lookup_middle in Hx by done. injection Hx as <-.
      rewrite list_lookup_middle in Htm by done. injection Htm as <-.
      rewrite list_lookup_middle in Hmi by done. injection Hmi as <-.
      by eexists.
  - intros x mi Hx. unfold with_new_timer in *. unfold is_paused. norm.
    rewrite length_app.
    apply lookup_app_Some in Hx as [Hx | (Hge & Hx)].
    + specialize (Hent x mi Hx).
      assert (Hin : forall t, (t < length (timers w))%nat ->
                t ∈ (active_timers w ++ [length (timers w)])%list ->
                t ∈ active_timers w).
      { intros t Hlt Hin. apply elem_of_app in Hin as [Hin | Hin]; [done |].
        apply list_elem_of_singleton in Hin. lia. }
      destruct (item_action mi) as [[| | | | |] |]; try exact Hent.
      * destruct Hent as (t & Ha & Hlt & Htl & Hrest). exists t.
        split; [done |]. split; [lia |]. split; [done |].
        intros Ht. rewrite lookup_app_l by done. apply Hrest. by apply Hin.
      * destruct Hent as (t & Ha & Hlt & Htl & Hrest). exists t.
        split; [done |]. split; [lia |]. split; [done |].
        intros Ht. rewrite lookup_app_l by done. apply Hrest. by apply Hin.
      * destruct Hent as (t & Ha & Hlt). exists t. split; [done | lia].
    + destruct (x - length (items w))%nat as [| [| [| k]]] eqn:Hk;
        simpl in Hx; simplify_eq/=.
      * done.
      * eexists. split; [done |]. split; [lia |]. split; [done |].
        intros _. by rewrite list_lookup_middle.
      * eexists. split; [done |]. lia.
  - intros i1 i2 m1 m2 t H1 H2 Ht1 Ht2 Ha1 Ha2. unfold with_new_timer in *. norm.
    assert (Hold : forall i mi, items w !! i = Some mi -> is_toggle mi = true ->
              item_args mi = [VRef t] -> (t < length (timers w))%nat).
    { intros i mi Hi Htg Ha. specialize (Hent i mi Hi). unfold is_toggle in Htg.
      destruct (item_action mi) as [[| | | | |] |]; try done;
        destruct Hent as (t' & Ha' & Hlt & _); congruence. }
    assert (Hnew : forall i mi,
              [mkMenuItem (ttl ++ " (" ++ start_timer_time_str d ++ " remaining)")
                 true None [] false;
               mkMenuItem "Pause" true (Some pause_timer_fn)
                 [VRef (length (timers w))] false;
               mkMenuItem "Cancel" true (Some cancel_timer_fn)
                 [VRef (length (timers w))] false] !! i = Some mi ->
              is_toggle mi = true -> item_args mi = [VRef t] ->
              i = 1%nat /\ t = length (timers w)).
    { intros [| [| [| i]]] mi Hi Htg Ha; simplify_eq/=; done. }
    apply lookup_app_Some in H1 as [H1 | (Hge1 & H1)];
      apply lookup_app_Some in H2 as [H2 | (Hge2 & H2)].
    + by eapply Htog.
    + pose proof (Hold _ _ H1 Ht1 Ha1). destruct (Hnew _ _ H2 Ht2 Ha2). lia.
    + pose proof (Hold _ _ H2 Ht2 Ha2). destruct (Hnew _ _ H1 Ht1 Ha1). lia.
    + destruct (Hnew _ _ H1 Ht1 Ha1), (Hnew _ _ H2 Ht2 Ha2). lia.
  - done.
Qed.

(** Taking a timer out of the registry, whatever the handler does to the
    timer itself. *)
Lemma tidy_without w W e t j m mi :
  tidy w ->
  W = run (step' e) w -> protocol_ok e w = true ->
  Py.index (active_timers w) t = Some j ->
  timer_submenus w !! j = Some m ->
  items w !! m = Some mi ->
  active_timers W = delete j (active_timers w) ->
  timer_submenus W = delete j (timer_submenus w) ->
  items W = <[m := set_item_deleted mi]> (items w) ->
  status_indicator W
  = indicate (length (delete j (active_timers w))) (status_indicator w) ->
  length (timers W) = length (timers w) ->
  (forall t', t' <> t -> timers W !! t' = timers w !! t') ->
  (forall tm', timers W !! t = Some tm' ->
     (action tm' = Some show_alert_fn /\ args tm' = [] /\ started tm' = true)
     /\ (finished tm' = false -> calls_of t W = [])
     /\ (finished tm' = true -> exists c, calls_of t W = [c])) ->
  silent t W ->
  (forall t', t' <> t -> calls_of t' W = calls_of t' w) ->
  (forall t', t' <> t -> silent t' w -> silent t' W) ->
  alerts_shown W ->
  tidy W.
Proof.
  intros [Hwf Hord (Hlen & Hnd1 & Hnd2) (Hst1 & Hst2) Htm0 Hact Hcalls Hsub
          Hlab Hent Htog Halr]
    HW Hok Hj Hm Hmi Ha Hs Hi Hst Hlt Hother Ht Hsilt Hcother Hsother Halerts.
  pose proof (index_lookup _ _ _ Hj) as Hjt.
  destruct (delete_nodup _ _ _ Hnd1 Hjt) as (Hnd1' & Hin1).
  destruct (delete_nodup _ _ _ Hnd2 Hm) as (Hnd2' & Hin2).
  assert (Hpaused : forall t', t' <> t -> is_paused t' W = is_paused t' w)
    by (intros t' Hne; unfold is_paused; by rewrite Hother).
  split.
  - rewrite HW. by apply step_wf.
  - rewrite HW. by apply step_orderly.
  - unfold lists_paired. rewrite Ha, Hs.
    rewrite !length_delete by (by eexists). by rewrite Hlen.
  - unfold status_current. rewrite Ha, Hst. apply indicate_current.
    intros _. rewrite Hst2. apply lookup_lt_Some in Hjt.
    by destruct (length (active_timers w)); [lia |].
  - intros t' tm' Ht'. destruct (decide (t' = t)) as [-> | Hne].
    + by apply Ht.
    + rewrite Hother in Ht' by done. by eapply Htm0.
  - intros t' Ht'. rewrite Ha in Ht'. apply Hin1 in Ht' as (Ht' & Hne).
    rewrite Hother by done. by apply Hact.
  - intros t' tm' Ht'. destruct (decide (t' = t)) as [-> | Hne].
    + destruct (Ht _ Ht') as (_ & H1 & H2). done.
    + rewrite Hother in Ht' by done.
      destruct (Hcalls t' tm' Ht') as (H1 & H2 & H3).
      rewrite Hcother by done. split; [done |]. split; [done |].
      intros Hn. apply Hsother; [done |]. apply H3. intros Hin.
      apply Hn. rewrite Ha. by apply Hin1.
  - intros m' Hm'. rewrite Hs in Hm'. apply Hin2 in Hm' as (Hm' & Hne).
    rewrite Hi, list_lookup_insert_ne by done. by apply Hsub.
  - intros j' t' m' tm' mi' Hj' Hm' Ht' Hmi' Hno.
    rewrite Ha, lookup_delete_shifted in Hj'.
    rewrite Hs, lookup_delete_shifted in Hm'.
    assert (shifted j j' <> j) as Hsh
      by (unfold shifted; destruct (Nat.ltb_spec j' j); lia).
    assert (t' <> t) as Hne.
    { intros ->. apply Hsh. by apply (NoDup_lookup (active_timers w) _ _ t). }
    assert (m' <> m) as Hne'.
    { intros ->. apply Hsh. by apply (NoDup_lookup (timer_submenus w) _ _ m). }
    rewrite Hother in Ht' by done.
    rewrite Hi, list_lookup_insert_ne in Hmi' by done.
    by eapply Hlab.
  - intros x mi' Hx. rewrite Hi in Hx. rewrite Hlt.
    apply list_lookup_insert_Some in Hx as [(<- & <- & _) | (Hne & Hx)].
    + destruct (Hsub m) as (mi0 & Hmi0 & Hnone & _);
        [by eapply list_elem_of_lookup_2 |].
      simplify_eq. cbn [item_action set_item_deleted]. by rewrite Hnone.
    + specialize (Hent x mi' Hx).
      destruct (item_action mi') as [[| | | | |] |]; try exact Hent.
      * destruct Hent as (t' & Harg & Hlt' & Htl & Hrest). exists t'.
        split; [done |]. split; [done |]. split; [done |].
        intros Hin. rewrite Ha in Hin. apply Hin1 in Hin as (Hin & Hne').
        rewrite Hpaused by done. by apply Hrest.
      * destruct Hent as (t' & Harg & Hlt' & Htl & Hrest). exists t'.
        split; [done |]. split; [done |]. split; [done |].
        intros Hin. rewrite Ha in Hin. apply Hin1 in Hin as (Hin & Hne').
        rewrite Hpaused by done. by apply Hrest.
  - assert (Hback : forall x mi', items W !! x = Some mi' ->
              exists mi0, items w !! x = Some mi0
                          /\ is_toggle mi' = is_toggle mi0
                          /\ item_args mi' = item_args mi0).
    { intros x mi' Hx. rewrite Hi in Hx.
      apply list_lookup_insert_Some in Hx as [(-> & <- & _) | (Hne & Hx)];
        [by exists mi | by exists mi']. }
    intros i1 i2 m1 m2 t' H1 H2 Ht1 Ht2 Ha1 Ha2.
    destruct (Hback _ _ H1) as (m1' & H1' & Ht1' & Ha1').
    destruct (Hback _ _ H2) as (m2' & H2' & Ht2' & Ha2').
    eapply (Htog i1 i2 m1' m2' t'); congruence.
  - done.
Qed.

(** Pausing or resuming an active timer from its entry. *)
Lemma tidy_toggled w W e item mi mi' t tm tm' :
  tidy w ->
  W = run (step' e) w -> protocol_ok e w = true ->
  t ∈ active_timers w ->
  items w !! item = Some mi -> is_toggle mi = true -> item_args mi = [VRef t] ->
  timers w !! t = Some tm ->
  items W = <[item := mi']> (items w) ->
  timers W = <[t := tm']> (timers w) ->
  active_timers W = active_timers w -> timer_submenus W = timer_submenus w ->
  status_indicator W = status_indicator w ->
  calls W = calls w -> alerts W = alerts w ->
  title tm' = title tm -> action tm' = action tm -> args tm' = args tm ->
  started tm' = started tm -> finished tm' = finished tm ->
  item_args mi' = [VRef t] ->
  (item_action mi' = Some pause_timer_fn /\ item_title mi' = "Pause"
   /\ paused tm' = false
   \/ item_action mi' = Some resume_timer_fn /\ item_title mi' = "Resume"
      /\ paused tm' = true) ->
  (forall t', t' <> t -> silent t' w -> silent t' W) ->
  tidy W.
Proof.
  intros [Hwf Hord (Hlen & Hnd1 & Hnd2) (Hst1 & Hst2) Htm0 Hact Hcalls Hsub
          Hlab Hent Htog Halr]
    HW Hok Hin Hmi Htg Harg Htm Hi Ht Ha Hs Hst Hc Hal
    Etitle Eaction Eargs Estarted Efinished Harg' Hmi' Hsother.
  assert (Hnotsub : forall m, m ∈ timer_submenus w -> m <> item).
  { intros m Hm ->. destruct (Hsub _ Hm) as (mi0 & H0 & Hnone & _).
    simplify_eq. unfold is_toggle in Htg. by rewrite Hnone in Htg. }
  assert (Htg' : is_toggle mi' = true).
  { unfold is_toggle. by destruct Hmi' as [(-> & _) | (-> & _)]. }
  assert (Hlt : (t < length (timers w))%nat) by by eapply lookup_lt_Some.
  split.
  - rewrite HW. by apply step_wf.
  - rewrite HW. by apply step_orderly.
  - unfold lists_paired. by rewrite Ha, Hs.
  - unfold status_current. by rewrite Ha, Hst.
  - intros t' tm1 H1. rewrite Ht in H1.
    apply list_lookup_insert_Some in H1 as [(<- & <- & _) | (Hne & H1)].
    + rewrite Eaction, Eargs, Estarted. by eapply Htm0.
    + by eapply Htm0.
  - intros t' Ht'. rewrite Ha in Ht'. rewrite Ht.
    destruct (decide (t' = t)) as [-> | Hne].
    + exists tm'. split; [by eapply lookup_insert_same |].
      rewrite Efinished. destruct (Hact t Hin) as (tm0 & H0 & Hf). congruence.
    + rewrite list_lookup_insert_ne by done. by apply Hact.
  - intros t' tm1 H1. rewrite Ht in H1. unfold calls_of. rewrite Hc, Ha.
    apply list_lookup_insert_Some in H1 as [(<- & <- & _) | (Hne & H1)].
    + destruct (Hcalls t tm Htm) as (H2 & H3 & _). rewrite Efinished.
      split; [done |]. split; [done |]. by intros Hn.
    + destruct (Hcalls t' tm1 H1) as (H2 & H3 & H4).
      split; [done |]. split; [done |]. intros Hn. apply Hsother; [done |].
      by apply H4.
  - intros m Hm. rewrite Hs in Hm. rewrite Hi.
    rewrite list_lookup_insert_ne by (intros <-; by eapply Hnotsub).
    by apply Hsub.
  - intros j t' m tm1 mi1 Hj Hm H1 Hmi1 Hno.
    rewrite Ha in Hj. rewrite Hs in Hm.
    rewrite Hi, list_lookup_insert_ne in Hmi1
      by (intros Heq; apply (Hnotsub m);
          [by eapply list_elem_of_lookup_2 | done]).
    rewrite Ht in H1.
    apply list_lookup_insert_Some in H1 as [(<- & <- & _) | (Hne & H1)].
    + rewrite Etitle in *. by eapply Hlab.
    + by eapply Hlab.
  - intros x mi1 Hx. rewrite Hi in Hx. rewrite Ht, length_insert, Ha.
    assert (Hp : forall t', t' <> t -> is_paused t' W = is_paused t' w).
    { intros t' Hne. unfold is_paused. by rewrite Ht, list_lookup_insert_ne. }
    assert (Hpt : is_paused t W = paused tm').
    { unfold is_paused. rewrite Ht. by erewrite lookup_insert_same. }
    apply list_lookup_insert_Some in Hx as [(<- & <- & _) | (Hne & Hx)].
    + destruct Hmi' as [(-> & Htl & Hp') | (-> & Htl & Hp')];
        exists t; rewrite Hpt; by repeat split.
    + specialize (Hent x mi1 Hx).
      assert (Hdiff : forall t', is_toggle mi1 = true ->
                item_args mi1 = [VRef t'] -> t' <> t).
      { intros t' Htg1 Ha1 ->. apply Hne. by eapply (Htog item x mi mi1 t). }
      destruct (item_action mi1) as [[| | | | |] |] eqn:Hact1; try exact Hent.
      * destruct Hent as (t' & Ha1 & Hlt' & Htl & Hrest). exists t'.
        split; [done |]. split; [done |]. split; [done |].
        rewrite Hp; [done |]. apply Hdiff; [| done].
        unfold is_toggle. by rewrite Hact1.
      * destruct Hent as (t' & Ha1 & Hlt' & Htl & Hrest). exists t'.
        split; [done |]. split; [done |]. split; [done |].
        rewrite Hp; [done |]. apply Hdiff; [| done].
        unfold is_toggle. by rewrite Hact1.
  - assert (Hback : forall x mi1, items W !! x = Some mi1 ->
              exists mi0, items w !! x = Some mi0
                          /\ is_toggle mi1 = is_toggle mi0
                          /\ item_args mi1 = item_args mi0).
    { intros x mi1 Hx. rewrite Hi in Hx.
      apply list_lookup_insert_Some in Hx as [(<- & <- & _) | (Hne & Hx)].
      - exists mi. split; [done |]. split; congruence.
      - by exists mi1. }
    intros i1 i2 m1 m2 t' H1 H2 Ht1 Ht2 Ha1 Ha2.
    destruct (Hback _ _ H1) as (m1' & H1' & Ht1' & Ha1').
    destruct (Hback _ _ H2) as (m2' & H2' & Ht2' & Ha2').
    eapply (Htog i1 i2 m1' m2' t'); congruence.
  - unfold alerts_shown. by rewrite Hal, Hc.
Qed.

(** An active timer and its place in the registry. *)
Lemma tidy_listed w t :
  tidy w -> t ∈ active_timers w ->
  exists j m mi tm th,
    Py.index (active_timers w) t = Some j
    /\ timer_submenus w !! j = Some m
    /\ items w !! m = Some mi
    /\ timers w !! t = Some tm /\ finished tm = false
    /\ action tm = Some show_alert_fn /\ args tm = []
    /\ threads w !! __timer tm = Some th /\ function th = t
    /\ calls_of t w = [].
Proof.
  intros [Hwf Hord (Hlen & Hnd1 & Hnd2) _ Htm0 Hact Hcalls Hsub _ _ _ _] Hin.
  destruct (index_elem _ _ Hin) as (j & Hj).
  pose proof (index_lookup _ _ _ Hj) as Hjt.
  destruct (lookup_lt_is_Some_2 (timer_submenus w) j) as (m & Hm);
    [rewrite <- Hlen; by eapply lookup_lt_Some |].
  destruct (Hsub m) as (mi & Hmi & _); [by eapply list_elem_of_lookup_2 |].
  destruct (Hact t Hin) as (tm & Htm & Hf).
  destruct (Htm0 t tm Htm) as (Hac & Har & _).
  destruct (wf_thread _ _ _ Hwf Htm) as (th & Hth & Hfn).
  destruct (Hcalls t tm Htm) as (Hc & _).
  exists j, m, mi, tm, th. repeat split; auto.
Qed.

(** Threads of a timer other than its current one are dead. *)
Lemma silent_but_current w t tm th' :
  orderly w -> timers w !! t = Some tm ->
  (exists th, threads w !! __timer tm = Some th) ->
  dead th' ->
  silent t (with_threads (<[__timer tm := th']> (threads w)) w).
Proof.
  intros Hord Htm (th & Hth) Hdead. split; [by eapply lookup_lt_Some |].
  intros j thj Hj Hfj. norm.
  apply list_lookup_insert_Some in Hj as [(<- & <- & _) | (Hne & Hj)]; [done |].
  destruct (Hord _ _ Htm) as (HA & _). by eapply HA.
Qed.

Lemma tidy_wake_fire w i th d :
  tidy w ->
  threads w !! i = Some th -> stage th = Waiting d -> event_set th = false ->
  d <= now w ->
  fst (wake i w) = Ok tt /\ tidy (run (wake i) w)
  /\ function th ∈ active_timers w.
Proof.
  intros Htidy Hth Hst Hev Hd.
  pose proof Htidy as [Hwf Hord _ _ _ _ Hcalls _ _ _ _ Halr].
  set (t := function th).
  assert (Hlive : ~ dead th) by (intros [He | Hs]; congruence).
  destruct (lookup_lt_is_Some_2 (timers w) t) as (tm0 & Htm0);
    [destruct Hwf as (_ & Hwf2 & _); by eapply Hwf2 |].
  assert (Hin : t ∈ active_timers w).
  { destruct (decide (t ∈ active_timers w)) as [Hin | Hn]; [done |].
    destruct (Hcalls t tm0 Htm0) as (_ & _ & Hs).
    destruct (Hs Hn) as (_ & Hs'). destruct Hlive. by eapply Hs'. }
  destruct (tidy_listed w t Htidy Hin)
    as (j & m & mi & tm & th0 & Hj & Hm & Hmi & Htm & Hf & Hac & Har & Hth0
        & Hfn & Hc).
  destruct (live_current w i th tm Hord Hth Htm Hlive) as (Hcur & Hp).
  pose proof (wake_alert i w th d tm j m mi Hth Hst Hev Hd Htm Hac Har Hj Hm Hmi)
    as Hwake.
  split; [by rewrite Hwake |]. split; [| done].
  eapply (tidy_without w _ (Wake i) t j m mi); try done;
    unfold run; cbn [step]; rewrite Hwake; unfold without_timer; norm;
    fold t; try done.
  - by rewrite length_insert.
  - intros t' Hne. by rewrite list_lookup_insert_ne.
  - intros tm' Htm'. erewrite lookup_insert_same in Htm' by done.
    injection Htm' as <-. cbn [action args started finished set_finished].
    split; [by eapply (tidy_timers w) |]. split; [done |]. intros _.
    unfold calls_of in *. norm. rewrite filter_cons_True by done.
    rewrite Hc. by eexists.
  - split; norm; [rewrite length_insert; by eapply lookup_lt_Some |].
    intros k thk Hk Hfk.
    apply list_lookup_insert_Some in Hk as [(<- & <- & _) | (Hne & Hk)];
      [apply dead_mark_event |].
    destruct (Hord _ _ Htm) as (HA & _). eapply HA; [done | done | congruence].
  - intros t' Hne. unfold calls_of. norm. by rewrite filter_cons_False.
  - intros t' Hne (Hlt & Hs). split; norm; [by rewrite length_insert |].
    intros k thk Hk Hfk.
    apply list_lookup_insert_Some in Hk as [(<- & <- & _) | (_ & Hk)];
      [apply dead_mark_event | by eapply Hs].
  - unfold alerts_shown in *. norm. by rewrite Halr.
Qed.

Lemma tidy_cancel w item t :
  tidy w -> t ∈ active_timers w ->
  fst (cancel_timer item t w) = Ok tt /\ tidy (run (cancel_timer item t) w).
Proof.
  intros Htidy Hin.
  pose proof Htidy as [Hwf Hord _ _ _ _ Hcalls _ _ _ _ Halr].
  destruct (tidy_listed w t Htidy Hin)
    as (j & m & mi & tm & th & Hj & Hm & Hmi & Htm & Hf & Hac & Har & Hth
        & Hfn & Hc).
  pose proof (cancel_timer_ok w item t j m mi tm th Hj Hm Hmi Htm Hth) as Hrun.
  split; [by rewrite Hrun |].
  eapply (tidy_without w _ (CancelTimer item t) t j m mi); try done;
    unfold run; cbn [step]; rewrite Hrun; unfold without_timer; norm; try done.
  - intros tm' Htm'. simplify_eq.
    split; [by eapply (tidy_timers w) |]. split; [done | congruence].
  - apply (silent_but_current w t tm (mark_event true th) Hord Htm);
      [by eexists | apply dead_mark_event].
  - intros t' Hne (Hlt & Hs). split; norm; [done |].
    intros k thk Hk Hfk.
    apply list_lookup_insert_Some in Hk as [(<- & <- & _) | (_ & Hk)];
      [apply dead_mark_event | by eapply Hs].
Qed.

Lemma tidy_pause w item mi t :
  tidy w -> t ∈ active_timers w ->
  items w !! item = Some mi -> item_action mi = Some pause_timer_fn ->
  item_args mi = [VRef t] ->
  fst (pause_timer item t w) = Ok tt /\ tidy (run (pause_timer item t) w).
Proof.
  intros Htidy Hin Hmi Hact Harg.
  pose proof Htidy as [Hwf Hord _ _ _ _ _ _ _ Hent _ _].
  destruct (tidy_listed w t Htidy Hin)
    as (j & m & mi0 & tm & th & _ & _ & _ & Htm & Hf & _ & _ & Hth & Hfn & _).
  assert (Hp : paused tm = false).
  { specialize (Hent item mi Hmi). rewrite Hact in Hent.
    destruct Hent as (t' & Ha & _ & _ & Hp).
    assert (t' = t) as -> by congruence.
    specialize (Hp Hin). unfold is_paused in Hp. by rewrite Htm in Hp. }
  assert (Hr : SimpleTimer.time_remaining_at tm (now w) = Ok (end_time tm - now w))
    by (unfold SimpleTimer.time_remaining_at; by rewrite Hf, Hp).
  pose proof (pause_timer_ok w item t tm th _ mi Htm Hth Hr Hmi) as Hrun.
  split; [by rewrite Hrun |].
  eapply (tidy_toggled w _ (PauseTimer item t) item mi
            (set_item_action resume_timer_fn (set_item_title "Resume" mi)) t tm
            (set_paused true (set___time_remaining (end_time tm - now w) tm)));
    try done;
    try (unfold run; cbn [step]; rewrite Hrun; norm; reflexivity).
  - unfold is_toggle. by rewrite Hact.
  - right. by repeat split.
  - intros t' Hne (Hlt & Hs). unfold run. cbn [step]. rewrite Hrun.
    split; norm; [by rewrite length_insert |].
    intros k thk Hk Hfk.
    apply list_lookup_insert_Some in Hk as [(<- & <- & _) | (_ & Hk)];
      [apply dead_mark_event | by eapply Hs].
Qed.

Lemma tidy_resume w item mi t :
  tidy w -> t ∈ active_timers w ->
  items w !! item = Some mi -> item_action mi = Some resume_timer_fn ->
  item_args mi = [VRef t] ->
  is_paused t w = true
  /\ fst (resume_timer item t w) = Ok tt /\ tidy (run (resume_timer item t) w).
Proof.
  intros Htidy Hin Hmi Hact Harg.
  pose proof Htidy as [Hwf Hord _ _ _ _ _ _ _ Hent _ _].
  destruct (tidy_listed w t Htidy Hin)
    as (j & m & mi0 & tm & th & _ & _ & _ & Htm & Hf & _ & _ & Hth & Hfn & _).
  assert (Hp : is_paused t w = true).
  { specialize (Hent item mi Hmi). rewrite Hact in Hent.
    destruct Hent as (t' & Ha & _ & _ & Hp).
    assert (t' = t) as -> by congruence. by apply Hp. }
  split; [done |].
  assert (Hp' : paused tm = true) by (unfold is_paused in Hp; by rewrite Htm in Hp).
  destruct (Hord _ _ Htm) as (_ & _ & HC). destruct (HC Hp') as (r & Hr0 & _).
  assert (Hr : SimpleTimer.time_remaining_at tm (now w) = Ok r)
    by (unfold SimpleTimer.time_remaining_at; by rewrite Hf, Hp', Hr0).
  pose proof (resume_timer_ok w item t tm r mi Htm Hr Hmi) as Hrun.
  split; [by rewrite Hrun |].
  eapply (tidy_toggled w _ (ResumeTimer item t) item mi
            (set_item_action pause_timer_fn (set_item_title "Pause" mi)) t tm
            (resumed t r tm w));
    try done;
    try (unfold run; cbn [step]; rewrite Hrun; norm; reflexivity).
  - unfold is_toggle. by rewrite Hact.
  - left. by repeat split.
  - intros t' Hne (Hlt & Hs). unfold run. cbn [step]. rewrite Hrun.
    split; norm; [by rewrite length_insert |].
    intros k thk Hk Hfk.
    apply lookup_app_Some in Hk as [Hk | (_ & Hk)]; [by eapply Hs |].
    apply list_lookup_singleton_Some in Hk as (_ & <-). simpl in Hfk. congruence.
Qed.

(** The label of a titled submenu, refreshed. *)
Lemma refreshed_titled ttl rest i tm r :
  String.index 0 "(" ttl = None ->
  String.index 0 "(" (ttl ++ " (" ++ rest) = Some i ->
  refreshed (ttl ++ " (" ++ rest) i tm r
  = ttl ++ " ("
    ++ (if paused tm then "Paused, " ++ update_submenus_time_str r
        else update_submenus_time_str r)
    ++ " remaining)".
Proof.
  intros Hno Hi. destruct (stem_of_title ttl rest Hno) as (H1 & H2).
  rewrite H1 in Hi. injection Hi as <-.
  unfold refreshed. rewrite H2. by rewrite append_assoc.
Qed.

Lemma tidy_hover w :
  tidy w ->
  exists its,
    update_submenus w = (Ok tt, with_items its w)
    /\ tidy (with_items its w)
    /\ forall j t m tm mi,
         active_timers w !! j = Some t -> timer_submenus w !! j = Some m ->
         timers w !! t = Some tm -> items w !! m = Some mi ->
         exists r i,
           SimpleTimer.time_remaining_at tm (now w) = Ok r
           /\ String.index 0 "(" (item_title mi) = Some i
           /\ its !! m = Some (set_item_title (refreshed (item_title mi) i tm r) mi).
Proof.
  intros Htidy.
  pose proof Htidy as [Hwf Hord (Hlen & Hnd1 & Hnd2) Hst Htm0 Hact Hcalls Hsub
                       Hlab Hent Htog Halr].
  assert (Hpos : forall j t, active_timers w !! j = Some t ->
            exists tm r m mi i,
              timers w !! t = Some tm
              /\ SimpleTimer.time_remaining_at tm (now w) = Ok r
              /\ timer_submenus w !! j = Some m
              /\ items w !! m = Some mi
              /\ String.index 0 "(" (item_title mi) = Some i).
  { intros j t Hj.
    destruct (Hact t) as (tm & Htm & Hf); [by eapply list_elem_of_lookup_2 |].
    destruct (lookup_lt_is_Some_2 (timer_submenus w) j) as (m & Hm);
      [rewrite <- Hlen; by eapply lookup_lt_Some |].
    destruct (Hsub m) as (mi & Hmi & _ & _ & (i & Hi));
      [by eapply list_elem_of_lookup_2 |].
    assert (exists r, SimpleTimer.time_remaining_at tm (now w) = Ok r) as (r & Hr).
    { unfold SimpleTimer.time_remaining_at. rewrite Hf.
      destruct (paused tm) eqn:Hp; [| by eexists].
      destruct (Hord _ _ Htm) as (_ & _ & HC).
      destruct (HC Hp) as (r & -> & _). by eexists. }
    by exists tm, r, m, mi, i. }
  destruct (update_submenus_ok w Hnd2 Hpos) as (its & Hrun & Hl & Hnew & Hold).
  exists its. split; [exact Hrun |].
  assert (Hview : forall x mi', its !! x = Some mi' ->
            exists mi0, items w !! x = Some mi0
              /\ (mi' = mi0
                  \/ exists j t tm r i,
                       active_timers w !! j = Some t
                       /\ timer_submenus w !! j = Some x
                       /\ timers w !! t = Some tm
                       /\ String.index 0 "(" (item_title mi0) = Some i
                       /\ mi' = set_item_title (refreshed (item_title mi0) i tm r) mi0)).
  { intros x mi' Hx.
    destruct (decide (x ∈ timer_submenus w)) as [Hin | Hn].
    - apply list_elem_of_lookup_1 in Hin as (j & Hj).
      destruct (lookup_lt_is_Some_2 (active_timers w) j) as (t & Ht);
        [rewrite Hlen; by eapply lookup_lt_Some |].
      destruct (Hpos j t Ht) as (tm & r & m & mi & i & Htm & Hr & Hm & Hmi & Hi).
      assert (m = x) as -> by congruence.
      rewrite (Hnew j t tm r x mi i Ht Htm Hr Hm Hmi Hi) in Hx.
      injection Hx as <-. exists mi. split; [done |]. right.
      by exists j, t, tm, r, i.
    - rewrite Hold in Hx; [by exists mi'; split; [| left] |].
      intros j _ Hj. apply Hn. by eapply list_elem_of_lookup_2. }
  assert (Hrun' : run (step' UpdateSubmenus) w = with_items its w)
    by (unfold run; cbn [step]; by rewrite Hrun).
  split; [| ].
  { split.
    - rewrite <- Hrun'. by apply step_wf.
    - rewrite <- Hrun'. by apply step_orderly.
    - done.
    - done.
    - done.
    - done.
    - done.
    - intros m Hm. change (timer_submenus (with_items its w)) with (timer_submenus w) in Hm.
      destruct (Hsub m Hm) as (mi0 & Hmi0 & Hnone & Hdel & Hidx).
      destruct (lookup_lt_is_Some_2 its m) as (mi' & Hmi');
        [rewrite Hl; by eapply lookup_lt_Some |].
      exists mi'. split; [done |].
      destruct (Hview m mi' Hmi') as (mi1 & Hmi1 & [-> | H]); simplify_eq; [done |].
      destruct H as (j & t & tm & r & i & _ & _ & _ & Hi & ->).
      split; [done |]. split; [done |]. cbn [item_title set_item_title].
      unfold refreshed. by rewrite (proj1 (stem_kept _ _ _ Hi)).
    - intros j t m tm mi' Hj Hm Htm Hmi' Hno.
      change (items (with_items its w) !! m = Some mi') with (its !! m = Some mi') in Hmi'.
      destruct (Hview m mi' Hmi') as (mi0 & Hmi0 & [-> | H]); [by eapply Hlab |].
      destruct H as (j' & t' & tm' & r & i & Hj' & Hm' & Htm' & Hi & ->).
      assert (j' = j) as -> by (by apply (NoDup_lookup (timer_submenus w) _ _ m)).
      cbn in Hj. assert (t' = t) as -> by congruence.
      cbn in Htm. assert (tm' = tm) as -> by congruence.
      destruct (Hlab j t m tm mi0 Hj Hm Htm Hmi0 Hno) as (rest & Hrest).
      cbn [item_title set_item_title]. rewrite Hrest in *.
      rewrite (refreshed_titled _ _ _ _ _ Hno Hi). by eexists.
    - intros x mi' Hx.
      change (items (with_items its w) !! x = Some mi') with (its !! x = Some mi') in Hx.
      destruct (Hview x mi' Hx) as (mi0 & Hmi0 & [-> | H]);
        [exact (Hent x mi0 Hmi0) |].
      destruct H as (j & t & tm & r & i & _ & Hm & _ & _ & ->).
      destruct (Hsub x) as (mi1 & Hmi1 & Hnone & _);
        [by eapply list_elem_of_lookup_2 |].
      simplify_eq. cbn [item_action set_item_title]. by rewrite Hnone.
    - assert (Hback : forall x mi', its !! x = Some mi' ->
                exists mi0, items w !! x = Some mi0
                            /\ is_toggle mi' = is_toggle mi0
                            /\ item_args mi' = item_args mi0).
      { intros x mi' Hx.
        destruct (Hview x mi' Hx) as (mi0 & Hmi0 & [-> | H]); [by exists mi0 |].
        destruct H as (j & t & tm & r & i & _ & _ & _ & _ & ->). by exists mi0. }
      intros i1 i2 m1 m2 t H1 H2 Ht1 Ht2 Ha1 Ha2.
      destruct (Hback _ _ H1) as (m1' & H1' & Ht1' & Ha1').
      destruct (Hback _ _ H2) as (m2' & H2' & Ht2' & Ha2').
      eapply (Htog i1 i2 m1' m2' t); congruence.
    - done. }
  intros j t m tm mi Hj Hm Htm Hmi.
  destruct (Hpos j t Hj) as (tm' & r & m' & mi' & i & Htm' & Hr & Hm' & Hmi' & Hi).
  simplify_eq. exists r, i. split; [done |]. split; [done |]. by eapply Hnew.
Qed.

(** One input of a run driven by the menu: the handler or the wake-up it
    leads to keeps the world tidy, calls [resume()] on a paused timer only,
    and returns, unless it is the custom-duration dialog answered with a
    text that gives no finite number of seconds, which changes nothing. *)
Lemma react_ok inp w e :
  tidy w -> dispatch inp w = Some e ->
  tidy (run (step' e) w)
  /\ protocol_ok e w = true
  /\ (fst (step' e w) = Ok tt
      \/ exists item button text,
           e = CreateCustomTimer item (Some (button, text))
           /\ (forall x, Py.float text = Some x ->
                 Py.is_finite (Py.fmul x (Py.of_Z 60)) = false)
           /\ run (step' e) w = w).
Proof.
  intros Htidy Hd. destruct inp as [d | i | | item response]; simpl in Hd.
  - injection Hd as <-. split; [by apply tidy_tick |]. split; [done | by left].
  - destruct (Nat.ltb_spec i (length (threads w))) as [Hlt | _]; [| done].
    injection Hd as <-. split; [| split; [done |]]; cbn [step].
    + destruct (lookup_lt_is_Some_2 _ _ Hlt) as (th & Hth).
      destruct (stage th) as [| dl |] eqn:Hst.
      * unfold run. rewrite (wake_idle i w th Hth); [done | congruence].
      * destruct (event_set th) eqn:Hev; [by eapply tidy_wake_skip |].
        destruct (Z.le_gt_cases dl (now w)) as [Hle | Hgt].
        -- by eapply tidy_wake_fire.
        -- unfold run. rewrite (wake_idle i w th Hth); [done |].
           intros d' Hd'. split; [done |]. assert (d' = dl) as -> by congruence. lia.
      * unfold run. rewrite (wake_idle i w th Hth); [done | congruence].
    + left. destruct (lookup_lt_is_Some_2 _ _ Hlt) as (th & Hth).
      destruct (stage th) as [| dl |] eqn:Hst.
      * rewrite (wake_idle i w th Hth); [done | congruence].
      * destruct (event_set th) eqn:Hev; [by erewrite wake_skip |].
        destruct (Z.le_gt_cases dl (now w)) as [Hle | Hgt].
        -- by eapply tidy_wake_fire.
        -- rewrite (wake_idle i w th Hth); [done |].
           intros d' Hd'. split; [done |]. assert (d' = dl) as -> by congruence. lia.
      * rewrite (wake_idle i w th Hth); [done | congruence].
  - injection Hd as <-. destruct (tidy_hover w Htidy) as (its & Hrun & Ht & _).
    cbn [step]. unfold run. rewrite Hrun. split; [done |]. split; [done | by left].
  - destruct (items w !! item) as [mi |] eqn:Hmi; [| done].
    pose proof (tidy_entries w Htidy item mi Hmi) as Hent.
    destruct (item_action mi) as [[| | | | |] |] eqn:Hact; try done.
    + (* start_timer *)
      destruct Hent as (d & Harg). rewrite Harg in Hd. injection Hd as <-.
      cbn [step]. unfold run.
      rewrite (start_timer_ok _ (Sec d) d _ _ Hmi eq_refl).
      split; [exact (tidy_start w item mi (Sec d) d Htidy Hmi eq_refl) |].
      split; [done | by left].
    + (* create_custom_timer *)
      destruct (item_args mi) as [| ? ?]; [| done]. injection Hd as <-.
      cbn [step protocol_ok].
      destruct response as [[button text] |];
        [| by split; [| split; [| left]]].
      destruct (Py.float text) as [x |] eqn:Hx.
      * assert (Hcc : create_custom_timer' item (Some (button, text)) w
                      = start_timer' item (SecFloat (Py.fmul x (Py.of_Z 60))) w).
        { unfold create_custom_timer.
          change (Py.float (snd (button, text))) with (Py.float text).
          by rewrite Hx. }
        unfold run. rewrite Hcc.
        destruct (timedelta_of (SecFloat (Py.fmul x (Py.of_Z 60))))
          as [d | ex] eqn:Hs.
        -- rewrite (start_timer_ok _ _ _ _ _ Hmi Hs).
           split; [exact (tidy_start w item mi _ _ Htidy Hmi Hs) |].
           split; [done | by left].
        -- rewrite (start_timer_raises float_str round_minutes_str _ _ _ _ _ Hmi Hs).
           split; [done |]. split; [done |]. right.
           exists item, button, text. split; [done |]. split; [| done].
           intros x0 Heq. rewrite Heq in Hx. injection Hx as <-.
           by destruct (Py.fmul x0 (Py.of_Z 60)).
      * assert (Hcc : create_custom_timer' item (Some (button, text)) w
                      = (Raise ValueError, w)).
        { unfold create_custom_timer.
          change (Py.float (snd (button, text))) with (Py.float text).
          by rewrite Hx. }
        unfold run. rewrite Hcc. split; [done |]. split; [done |]. right.
        exists item, button, text. split; [done |]. split; [| done].
        intros x0 Heq. by rewrite Heq in Hx.
    + (* pause_timer *)
      destruct Hent as (t & Harg & _). rewrite Harg in Hd.
      destruct (listed t w) eqn:Hl; [| done]. injection Hd as <-.
      apply listed_elem in Hl.
      destruct (tidy_pause w item mi t Htidy Hl Hmi Hact Harg) as (Hok & Ht).
      cbn [step]. split; [done |]. split; [done | by left].
    + (* resume_timer *)
      destruct Hent as (t & Harg & _). rewrite Harg in Hd.
      destruct (listed t w) eqn:Hl; [| done]. injection Hd as <-.
      apply listed_elem in Hl.
      destruct (tidy_resume w item mi t Htidy Hl Hmi Hact Harg) as (Hp & Hok & Ht).
      cbn [step]. split; [done |]. split; [done | by left].
    + (* cancel_timer *)
      destruct Hent as (t & Harg & _). rewrite Harg in Hd.
      destruct (listed t w) eqn:Hl; [| done]. injection Hd as <-.
      apply listed_elem in Hl.
      destruct (tidy_cancel w item t Htidy Hl) as (Hok & Ht).
      cbn [step]. split; [done |]. split; [done | by left].
Qed.

Lemma react_tidy inp w : tidy w -> tidy (react' inp w).
Proof.
  intros H. unfold react. destruct (dispatch inp w) as [e |] eqn:Hd; [| done].
  by destruct (react_ok inp w e H Hd).
Qed.

Lemma play_tidy ins : forall w, tidy w -> tidy (play' ins w).
Proof.
  induction ins as [| inp ins IH]; intros w H; simpl; [done |].
  by apply IH, react_tidy.
Qed.

Lemma play_main_tidy ins t0 : tidy (play' ins (main t0)).
Proof. apply play_tidy, tidy_main. Qed.

Lemma play_app ins ins' w : play' (ins ++ ins') w = play' ins' (play' ins w).
Proof. revert w. induction ins as [| i ins IH]; intros w; simpl; [done | apply IH]. Qed.

(** ** What every run driven by the menu keeps *)

(** X9.  In every run of the script driven by the menu, [active_timers] and
    [timer_submenus] have the same length and hold no object twice, and at
    each position stand a timer that is started and not finished and a
    submenu that is displayed. *)
Theorem menu_run_keeps_registry (t0 : Z) (ins : list input) :
  let w := play' ins (main t0) in
  length (active_timers w) = length (timer_submenus w)
  /\ NoDup (active_timers w) /\ NoDup (timer_submenus w)
  /\ forall j t, active_timers w !! j = Some t ->
       exists tm m mi,
         timers w !! t = Some tm /\ started tm = true /\ finished tm = false
         /\ timer_submenus w !! j = Some m
         /\ items w !! m = Some mi /\ item_deleted mi = false.
Proof.
  intros w.
  destruct (play_main_tidy ins t0)
    as [_ _ (Hlen & Hnd1 & Hnd2) _ Htm0 Hact _ Hsub _ _ _ _].
  fold w in Hlen, Hnd1, Hnd2, Htm0, Hact, Hsub.
  split; [done |]. split; [done |]. split; [done |].
  intros j t Hj.
  destruct (Hact t) as (tm & Htm & Hf); [by eapply list_elem_of_lookup_2 |].
  destruct (lookup_lt_is_Some_2 (timer_submenus w) j) as (m & Hm);
    [rewrite <- Hlen; by eapply lookup_lt_Some |].
  destruct (Hsub m) as (mi & Hmi & _ & Hdel & _);
    [by eapply list_elem_of_lookup_2 |].
  destruct (Htm0 t tm Htm) as (_ & _ & Hst).
  by exists tm, m, mi.
Qed.

(** X10.  In every run of the script driven by the menu, the status
    indicator shows the number of active timers, and it is enabled exactly
    when there is one. *)
Theorem menu_run_status_indicator (t0 : Z) (ins : list input) :
  let w := play' ins (main t0) in
  item_title (status_indicator w) = status_label (length (active_timers w))
  /\ item_enabled (status_indicator w)
     = negb (Nat.eqb (length (active_timers w)) 0).
Proof. intros w. by destruct (play_main_tidy ins t0). Qed.


Lemma menu_events_respects ins : forall w,
  tidy w ->
  respects' (menu_events' ins w) w = true
  /\ exec' (menu_events' ins w) w = play' ins w.
Proof.
  induction ins as [| inp ins IH]; intros w H; [done |].
  cbn [menu_events play]. unfold react.
  destruct (dispatch inp w) as [e |] eqn:Hd; [| by apply IH].
  destruct (react_ok inp w e H Hd) as (Ht & Hok & _).
  destruct (IH _ Ht) as (H1 & H2).
  cbn [respects exec]. by rewrite Hok, H1, H2.
Qed.

(** X12.  A run of the script driven by the menu calls [resume()] on paused
    timers only: its handler calls and wake-ups form a run of the kind the
    statements about [cancel()] and [pause()] above are about. *)
Theorem menu_run_respects_protocol (t0 : Z) (ins : list input) :
  respects' (menu_events' ins (main t0)) (main t0) = true
  /\ exec' (menu_events' ins (main t0)) (main t0) = play' ins (main t0).
Proof. apply menu_events_respects, tidy_main. Qed.

(** X13.  In every run of the script driven by the menu, the entry of an
    active timer that pauses and resumes it reads "Pause" and calls
    [pause_timer] while the timer runs, and reads "Resume" and calls
    [resume_timer] while it is paused; the timer has one such entry. *)
Theorem menu_run_toggle_entry (t0 : Z) (ins : list input) (item t : nat)
    (mi : MenuItem) :
  let w := play' ins (main t0) in
  items w !! item = Some mi ->
  is_toggle mi = true -> item_args mi = [VRef t] ->
  t ∈ active_timers w ->
  (item_title mi = "Pause" /\ item_action mi = Some pause_timer_fn
   /\ is_paused t w = false
   \/ item_title mi = "Resume" /\ item_action mi = Some resume_timer_fn
      /\ is_paused t w = true)
  /\ forall item' mi', items w !! item' = Some mi' -> is_toggle mi' = true ->
       item_args mi' = [VRef t] -> item' = item.
Proof.
  intros w Hmi Htg Harg Hin.
  destruct (play_main_tidy ins t0) as [_ _ _ _ _ _ _ _ _ Hent Htog _].
  fold w in Hent, Htog. split.
  - specialize (Hent item mi Hmi). unfold is_toggle in Htg.
    destruct (item_action mi) as [[| | | | |] |]; try done.
    + destruct Hent as (t' & Ha & _ & Htl & Hp).
      assert (t' = t) as -> by congruence. left. by repeat split; [| apply Hp].
    + destruct Hent as (t' & Ha & _ & Htl & Hp).
      assert (t' = t) as -> by congruence. right. by repeat split; [| apply Hp].
  - intros item' mi' Hmi' Htg' Harg'. by eapply (Htog item' item mi' mi t).
Qed.

(** X14.  In every run of the script driven by the menu, one alert has
    been shown for each call of [show_alert], titled after its timer; the
    action of a timer has been called once if the timer is finished and
    never otherwise; a finished timer is no longer in [active_timers], and
    a timer that is not there has no thread left that could call its
    action. *)
Theorem menu_run_one_alert (t0 : Z) (ins : list input) :
  let w := play' ins (main t0) in
  alerts w = map (fun c => alert_title (call_view c)) (calls w)
  /\ forall t tm, timers w !! t = Some tm ->
       length (calls_of t w) = (if finished tm then 1 else 0)%nat
       /\ (finished tm = true -> t ∉ active_timers w)
       /\ (t ∉ active_timers w -> silent t w).
Proof.
  intros w.
  destruct (play_main_tidy ins t0) as [_ _ _ _ _ Hact Hcalls _ _ _ _ Halr].
  fold w in Hact, Hcalls, Halr. split; [done |].
  intros t tm Htm. destruct (Hcalls t tm Htm) as (H1 & H2 & H3).
  split; [| split; [| done]].
  - destruct (finished tm); [| by rewrite H1].
    destruct (H2 eq_refl) as (c & ->). done.
  - intros Hf Hin. destruct (Hact t Hin) as (tm' & Htm' & Hf'). congruence.
Qed.

(** X15.  In every run of the script driven by the menu, when the pointer
    comes over the status indicator, [update_submenus] returns and the
    submenu of every active timer whose title has no "(" reads: the title,
    " (", "Paused, " if the timer is paused, its remaining time and
    " remaining)". *)
Theorem menu_run_labels (t0 : Z) (ins : list input) (j t m : nat)
    (tm : SimpleTimer) :
  let w := play' ins (main t0) in
  active_timers w !! j = Some t -> timer_submenus w !! j = Some m ->
  timers w !! t = Some tm ->
  String.index 0 "(" (title tm) = None ->
  fst (update_submenus w) = Ok tt
  /\ exists r mi,
       SimpleTimer.time_remaining_at tm (now w) = Ok r
       /\ items (react' Hover w) !! m = Some mi
       /\ item_title mi
          = title tm ++ " ("
            ++ (if paused tm then "Paused, " ++ update_submenus_time_str r
                else update_submenus_time_str r)
            ++ " remaining)".
Proof.
  intros w Hj Hm Htm Hno.
  pose proof (play_main_tidy ins t0) as Htidy. fold w in Htidy.
  destruct (tidy_hover w Htidy) as (its & Hrun & _ & Hnew).
  split; [by rewrite Hrun |].
  destruct (tidy_submenus w Htidy m) as (mi & Hmi & _);
    [by eapply list_elem_of_lookup_2 |].
  destruct (Hnew j t m tm mi Hj Hm Htm Hmi) as (r & i & Hr & Hi & Hits).
  destruct (tidy_labels w Htidy j t m tm mi Hj Hm Htm Hmi Hno) as (rest & Hrest).
  exists r, (set_item_title (refreshed (item_title mi) i tm r) mi).
  split; [done |]. split.
  - unfold react. cbn [dispatch step]. unfold run. by rewrite Hrun.
  - cbn [item_title set_item_title]. rewrite Hrest in *.
    by apply refreshed_titled.
Qed.

(** ** Round trips through the menu *)

Lemma index_app_fresh l x : x ∉ l -> Py.index (l ++ [x]) x = Some (length l).
Proof.
  induction l as [| y l IH]; intros H; simpl.
  - by rewrite Nat.eqb_refl.
  - apply not_elem_of_cons in H as (Hne & H).
    destruct (Nat.eqb_spec y x) as [-> | _]; [done |]. by rewrite (IH H).
Qed.

Lemma indicate_back n st :
  item_title st = status_label n ->
  item_enabled st = negb (Nat.eqb n 0) ->
  indicate n (indicate (S n) (set_item_enabled true st)) = st.
Proof.
  intros Ht He. destruct st as [ttl en act a del]. simpl in *. subst.
  by destruct n as [| n].
Qed.

(** What a click on an entry bound to [start_timer] does, in a tidy
    world. *)
Lemma click_start w item mi r :
  tidy w ->
  items w !! item = Some mi -> item_action mi = Some start_timer_fn ->
  exists d,
    item_args mi = [VSeconds (Sec d)]
    /\ react' (Click item r) w
       = with_new_timer
           (timer_title float_str round_minutes_str (item_title mi) (Sec d))
           (Sec d) d w.
Proof.
  intros Htidy Hmi Hact.
  pose proof (tidy_entries w Htidy item mi Hmi) as Hent. rewrite Hact in Hent.
  destruct Hent as (d & Harg). exists d. split; [done |].
  unfold react. cbn [dispatch]. rewrite Hmi, Hact, Harg.
  cbn [step]. unfold run. by rewrite (start_timer_ok _ (Sec d) d _ _ Hmi eq_refl).
Qed.

(** X16.  In every run of the script driven by the menu: when a timer is
    started from an entry of the menu and then cancelled from the Cancel
    entry of its submenu, the two lists and the status indicator are again
    what they were before, no alert is shown, and the timer has no thread
    left that could call its action. *)
Theorem start_then_cancel_restores (t0 : Z) (ins : list input) (item : nat)
    (mi : MenuItem) (r r' : option (string * string)) :
  let w := play' ins (main t0) in
  items w !! item = Some mi -> item_action mi = Some start_timer_fn ->
  let w1 := react' (Click item r) w in
  let w2 := react' (Click (length (items w) + 2) r') w1 in
  active_timers w1 = (active_timers w ++ [length (timers w)])%list
  /\ timer_submenus w1 = (timer_submenus w ++ [length (items w)])%list
  /\ active_timers w2 = active_timers w
  /\ timer_submenus w2 = timer_submenus w
  /\ status_indicator w2 = status_indicator w
  /\ calls w2 = calls w /\ alerts w2 = alerts w
  /\ silent (length (timers w)) w2.
Proof.
  intros w Hmi Hact w1 w2.
  pose proof (play_main_tidy ins t0) as Htidy. fold w in Htidy.
  destruct (click_start w item mi r Htidy Hmi Hact) as (d & Harg & Hw1).
  fold w1 in Hw1.
  set (ttl := timer_title float_str round_minutes_str (item_title mi) (Sec d)) in *.
  assert (Htidy1 : tidy w1) by (rewrite Hw1; by eapply tidy_start).
  pose proof Htidy as [_ _ (Hlen & _ & _) (Hs1 & Hs2) _ Hact0 _ _ _ _ _ _].
  set (t := length (timers w)) in *.
  assert (Hfresh : t ∉ active_timers w).
  { intros Hin. destruct (Hact0 t Hin) as (tm & Htm & _).
    apply lookup_lt_Some in Htm. unfold t in Htm. lia. }
  assert (Hin1 : t ∈ active_timers w1).
  { rewrite Hw1. unfold with_new_timer. norm. apply elem_of_app. right.
    by apply list_elem_of_singleton. }
  assert (Hw2 : w2 = run (cancel_timer (length (items w) + 2) t) w1).
  { unfold w2, react. cbn [dispatch].
    assert (items w1 !! (length (items w) + 2)%nat
            = Some (mkMenuItem "Cancel" true (Some cancel_timer_fn) [VRef t] false))
      as ->.
    { rewrite Hw1. unfold with_new_timer. norm.
      rewrite lookup_app_r by lia.
      by replace (length (items w) + 2 - length (items w))%nat with 2%nat by lia. }
    cbn [item_action item_args].
    by rewrite (proj2 (listed_elem t w1) Hin1). }
  assert (Hrun : cancel_timer (length (items w) + 2) t w1
            = (Ok tt,
               without_timer (length (active_timers w)) (length (items w))
                 (mkMenuItem (ttl ++ " (" ++ start_timer_time_str d ++ " remaining)")
                    true None [] false)
                 (with_threads
                    (<[length (threads w)
                       := mark_event true
                            (mkTimer d t false (Waiting (now w + d)))]>
                       (threads w1)) w1))).
  { eapply (cancel_timer_ok w1 _ t _ _ _
              (set_started true (new_timer ttl d (Some show_alert_fn) None w)));
      rewrite Hw1; unfold with_new_timer; norm.
    - by apply index_app_fresh.
    - rewrite Hlen. by apply list_lookup_middle.
    - by apply list_lookup_middle.
    - by apply list_lookup_middle.
    - cbn [__timer set_started new_timer]. by apply list_lookup_middle. }
  assert (Ha2 : active_timers w2 = active_timers w).
  { rewrite Hw2. unfold run. rewrite Hrun. unfold without_timer. norm.
    rewrite Hw1. unfold with_new_timer. norm.
    rewrite delete_middle. by rewrite app_nil_r. }
  split; [by rewrite Hw1 |]. split; [by rewrite Hw1 |].
  split; [done |]. split; [| split; [| split; [| split]]].
  - rewrite Hw2. unfold run. rewrite Hrun. unfold without_timer. norm.
    rewrite Hw1. unfold with_new_timer. norm.
    rewrite Hlen, delete_middle. by rewrite app_nil_r.
  - rewrite Hw2. unfold run. rewrite Hrun. unfold without_timer. norm.
    rewrite Hw1. unfold with_new_timer. norm.
    rewrite delete_middle, app_nil_r. by apply indicate_back.
  - rewrite Hw2. unfold run. rewrite Hrun. unfold without_timer. norm.
    by rewrite Hw1.
  - rewrite Hw2. unfold run. rewrite Hrun. unfold without_timer. norm.
    by rewrite Hw1.
  - assert (Htidy2 : tidy w2)
      by (rewrite Hw2; by apply tidy_cancel).
    assert (Htm2 : is_Some (timers w2 !! t)).
    { apply lookup_lt_is_Some_2. rewrite Hw2. unfold run. rewrite Hrun.
      unfold without_timer. norm. rewrite Hw1. unfold with_new_timer. norm.
      rewrite length_app. simpl. unfold t. lia. }
    destruct Htm2 as (tm2 & Htm2).
    destruct (tidy_calls w2 Htidy2 t tm2 Htm2) as (_ & _ & H3).
    apply H3. by rewrite Ha2.
Qed.

(** X17.  In every run of the script driven by the menu: when a timer is
    started from an entry of the menu and its thread wakes up once its
    duration has passed, [show_alert] runs: one call and one alert, titled
    after the timer, are added, the timer is finished, and the two lists
    and the status indicator are again what they were before the timer was
    started. *)
Theorem start_then_expire_restores (t0 : Z) (ins : list input) (item : nat)
    (mi : MenuItem) (r : option (string * string)) (d : Z) (d0 : N) :
  let w := play' ins (main t0) in
  items w !! item = Some mi -> item_action mi = Some start_timer_fn ->
  item_args mi = [VSeconds (Sec d)] -> d <= Z.of_N d0 ->
  let t := length (timers w) in
  let w2 := play' [Click item r; Elapse d0; Expire (length (threads w))] w in
  active_timers w2 = active_timers w
  /\ timer_submenus w2 = timer_submenus w
  /\ status_indicator w2 = status_indicator w
  /\ alerts w2
     = ("Your timer for "
        ++ timer_title float_str round_minutes_str (item_title mi) (Sec d)
        ++ " has ended!") :: alerts w
  /\ (exists c, calls w2 = c :: calls w /\ call_self c = t
                /\ call_time c = now w + Z.of_N d0)
  /\ finished <$> timers w2 !! t = Some true.
Proof.
  intros w Hmi Hact Harg Hd t w2.
  pose proof (play_main_tidy ins t0) as Htidy. fold w in Htidy.
  destruct (click_start w item mi r Htidy Hmi Hact) as (d' & Harg' & Hw1).
  assert (d' = d) as -> by congruence.
  set (ttl := timer_title float_str round_minutes_str (item_title mi) (Sec d)) in *.
  pose proof Htidy as [_ _ (Hlen & _ & _) (Hs1 & Hs2) _ Hact0 _ _ _ _ _ _].
  assert (Hfresh : t ∉ active_timers w).
  { intros Hin. destruct (Hact0 t Hin) as (tm & Htm & _).
    apply lookup_lt_Some in Htm. unfold t in Htm. lia. }
  set (w1 := with_now (now w + Z.of_N d0) (with_new_timer ttl (Sec d) d w)).
  assert (Hw2 : w2 = run (wake (length (threads w))) w1).
  { unfold w2. cbn [play]. rewrite Hw1. unfold react at 2. cbn [dispatch step].
    change (run (tick d0) (with_new_timer ttl (Sec d) d w)) with w1.
    unfold react. cbn [dispatch].
    assert (Nat.ltb (length (threads w)) (length (threads w1)) = true) as ->.
    { apply Nat.ltb_lt. unfold w1, with_new_timer. norm. rewrite length_app.
      simpl. lia. }
    reflexivity. }
  set (tm := set_started true (new_timer ttl d (Some show_alert_fn) None w)).
  set (th := mkTimer d t false (Waiting (now w + d))).
  set (sub := mkMenuItem (ttl ++ " (" ++ start_timer_time_str d ++ " remaining)")
                true None [] false).
  assert (H1 : threads w1 !! length (threads w) = Some th)
    by (by apply list_lookup_middle).
  assert (H2 : timers w1 !! function th = Some tm)
    by (by apply list_lookup_middle).
  assert (H3 : Py.index (active_timers w1) (function th)
               = Some (length (active_timers w)))
    by (by apply index_app_fresh).
  assert (H4 : timer_submenus w1 !! length (active_timers w)
               = Some (length (items w)))
    by (rewrite Hlen; by apply list_lookup_middle).
  assert (H5 : items w1 !! length (items w) = Some sub)
    by (by apply list_lookup_middle).
  assert (H6 : now w + d <= now w1) by (cbn; lia).
  pose proof (wake_alert _ w1 th _ tm _ _ sub H1 eq_refl eq_refl H6 H2
                eq_refl eq_refl H3 H4 H5) as Hrun.
  rewrite Hw2. unfold run. rewrite Hrun. clear Hrun Hw2.
  unfold without_timer. norm.
  change (active_timers w1) with (active_timers w ++ [t])%list.
  change (timer_submenus w1) with (timer_submenus w ++ [length (items w)])%list.
  change (status_indicator w1)
    with (indicate (S (length (active_timers w)))
            (set_item_enabled true (status_indicator w))).
  change (alerts w1) with (alerts w). change (calls w1) with (calls w).
  change (now w1) with (now w + Z.of_N d0).
  rewrite Hlen at 2. rewrite !delete_middle, !app_nil_r.
  split; [done |]. split; [done |]. split; [by apply indicate_back |].
  split; [done |]. split; [by eexists |].
  rewrite list_lookup_insert_eq; [done |].
  change (timers w1) with (timers w ++ [tm])%list.
  rewrite length_app. simpl. unfold t. lia.
Qed.


(** X18.  In every run of the script driven by the menu: a click on the
    "Pause" entry of an active timer followed, at the same clock value, by
    a click on the same entry, which now reads "Resume", leaves every menu
    item, the two lists and the status indicator as they were before, and
    the timer running with the same [time_remaining]. *)
Theorem pause_then_resume_entry (t0 : Z) (ins : list input) (item t : nat)
    (mi : MenuItem) (r r' : option (string * string)) :
  let w := play' ins (main t0) in
  items w !! item = Some mi -> item_action mi = Some pause_timer_fn ->
  item_args mi = [VRef t] -> t ∈ active_timers w ->
  let w1 := react' (Click item r) w in
  let w2 := react' (Click item r') w1 in
  (item_title <$> items w1 !! item) = Some "Resume"
  /\ is_paused t w1 = true
  /\ items w2 = items w
  /\ active_timers w2 = active_timers w
  /\ timer_submenus w2 = timer_submenus w
  /\ status_indicator w2 = status_indicator w
  /\ calls w2 = calls w /\ alerts w2 = alerts w
  /\ is_paused t w2 = false
  /\ fst (SimpleTimer.time_remaining t w2) = fst (SimpleTimer.time_remaining t w).
Proof.
  intros w Hmi Hact Harg Hin w1 w2.
  pose proof (play_main_tidy ins t0) as Htidy. fold w in Htidy.
  destruct (tidy_listed w t Htidy Hin)
    as (j & m & mi0 & tm & th & _ & _ & _ & Htm & Hf & _ & _ & Hth & _ & _).
  pose proof (tidy_entries w Htidy item mi Hmi) as Hent. rewrite Hact in Hent.
  destruct Hent as (t' & Ha & _ & Htl & Hp).
  assert (t' = t) as -> by congruence. specialize (Hp Hin).
  assert (Hp' : paused tm = false) by (unfold is_paused in Hp; by rewrite Htm in Hp).
  set (rem := end_time tm - now w).
  assert (Hr : SimpleTimer.time_remaining_at tm (now w) = Ok rem)
    by (unfold SimpleTimer.time_remaining_at; by rewrite Hf, Hp').
  pose proof (pause_timer_ok w item t tm th rem mi Htm Hth Hr Hmi) as Hrun1.
  assert (Hw1 : w1 = snd (pause_timer item t w)).
  { unfold w1, react. cbn [dispatch]. rewrite Hmi, Hact, Harg.
    by rewrite (proj2 (listed_elem t w) Hin). }
  rewrite Hrun1 in Hw1. cbn [snd] in Hw1.
  set (mi1 := set_item_action resume_timer_fn (set_item_title "Resume" mi)) in *.
  set (tm1 := set_paused true (set___time_remaining rem tm)) in *.
  assert (Hmi1 : items w1 !! item = Some mi1)
    by (rewrite Hw1; norm; by eapply lookup_insert_same).
  assert (Htm1 : timers w1 !! t = Some tm1)
    by (rewrite Hw1; norm; by eapply lookup_insert_same).
  assert (Hin1 : t ∈ active_timers w1) by (by rewrite Hw1).
  assert (Hr1 : SimpleTimer.time_remaining_at tm1 (now w1) = Ok rem)
    by (unfold SimpleTimer.time_remaining_at; simpl; by rewrite Hf).
  pose proof (resume_timer_ok w1 item t tm1 rem mi1 Htm1 Hr1 Hmi1) as Hrun2.
  assert (Hw2 : w2 = snd (resume_timer item t w1)).
  { unfold w2, react. cbn [dispatch]. rewrite Hmi1.
    cbn [item_action item_args mi1 set_item_action set_item_title]. rewrite Harg.
    by rewrite (proj2 (listed_elem t w1) Hin1). }
  rewrite Hrun2 in Hw2. cbn [snd] in Hw2.
  split; [by rewrite Hmi1 |].
  split; [unfold is_paused; by rewrite Htm1 |].
  rewrite Hw2. norm.
  split.
  { rewrite Hw1. norm. rewrite list_insert_insert_eq. apply list_insert_id.
    rewrite Hmi. f_equal. destruct mi; simpl in *; by subst. }
  rewrite Hw1. norm.
  do 5 (split; [done |]).
  assert (Hlook : <[t := resumed t rem tm1
                            (with_items (<[item := mi1]> (items w))
                               (with_threads
                                  (<[__timer tm := mark_event true th]> (threads w))
                                  (with_timers (<[t := tm1]> (timers w)) w)))]>
                    (<[t := tm1]> (timers w)) !! t
                  = Some (resumed t rem tm1
                            (with_items (<[item := mi1]> (items w))
                               (with_threads
                                  (<[__timer tm := mark_event true th]> (threads w))
                                  (with_timers (<[t := tm1]> (timers w)) w))))).
  { apply list_lookup_insert_eq. rewrite length_insert. by eapply lookup_lt_Some. }
  split.
  - unfold is_paused. norm. by rewrite Hlook.
  - erewrite (time_remaining_ok t w) by done.
    erewrite time_remaining_ok by (norm; exact Hlook).
    norm. rewrite Hr. unfold SimpleTimer.time_remaining_at. simpl. rewrite Hf.
    f_equal. unfold rem. lia.
Qed.

(** ** Registering, and handlers called for a timer that is not registered *)

(** X19.  [start_timer], called for an existing menu item with a duration
    that [timedelta] turns into [d] microseconds, within the ranges of
    [timedelta] and [datetime] and the longest wait of a thread, returns.  It has allocated a timer named
    after the item (or after the duration, for the custom entry) with
    [show_alert] as its action, started it so that its thread waits until
    [d] from now, created a submenu labelled with the title and the
    remaining time (the whole duration, the handler running at one clock
    value) and, after it, a "Pause" and a "Cancel" entry bound to the
    timer, appended the timer to [active_timers] and the submenu to
    [timer_submenus], enabled the status indicator and made it count one
    timer more. *)
Theorem start_timer_registers (w : World) (item : nat) (mi : MenuItem)
    (x : seconds) (d : Z) :
  items w !! item = Some mi ->
  timedelta_of x = Ok d ->
  in_range (StartTimer item x) w = true ->
  let ttl := timer_title float_str round_minutes_str (item_title mi) x in
  let t := length (timers w) in
  exists w',
    start_timer' item x w = (Ok tt, w')
    /\ timers w'
       = (timers w
          ++ [mkSimpleTimer ttl x true false false (Some show_alert_fn) []
                (now w) (now w + d) (length (threads w)) None])%list
    /\ threads w' = (threads w ++ [mkTimer d t false (Waiting (now w + d))])%list
    /\ items w'
       = (items w
          ++ [mkMenuItem (ttl ++ " (" ++ start_timer_time_str d ++ " remaining)")
                true None [] false;
              mkMenuItem "Pause" true (Some pause_timer_fn) [VRef t] false;
              mkMenuItem "Cancel" true (Some cancel_timer_fn) [VRef t] false])%list
    /\ active_timers w' = (active_timers w ++ [t])%list
    /\ timer_submenus w' = (timer_submenus w ++ [length (items w)])%list
    /\ item_enabled (status_indicator w') = true
    /\ item_title (status_indicator w')
       = status_label (S (length (active_timers w)))
    /\ now w' = now w /\ calls w' = calls w /\ alerts w' = alerts w.
Proof.
  intros Hmi Hx _ ttl t. eexists. split; [by apply start_timer_ok |].
  unfold with_new_timer. norm. by repeat split.
Qed.

(** X20.  [cancel_timer] and [show_alert], called for a timer that is not
    in [active_timers], raise [ValueError] before they have changed
    anything: no submenu is deleted, and [cancel_timer] does not cancel
    the timer. *)
Theorem unregistered_timer_raises (w : World) (item t : nat) :
  t ∉ active_timers w ->
  cancel_timer item t w = (Raise ValueError, w)
  /\ show_alert t w = (Raise ValueError, w).
Proof.
  intros Hn. destruct (not_listed_raises w item t (index_not_elem _ _ Hn)). done.
Qed.

(** ** The time shown for an overdue timer *)

(** X21.  [update_submenus] does not clamp a remaining time that has
    become negative: the hours of [divmod] are then negative and left out,
    and the string shows the minutes and seconds of the remaining time
    taken modulo one hour.  A timer one second overdue shows "59:59". *)
Theorem overdue_time_str_wraps (total : Z) :
  total < 0 ->
  update_submenus_time_str total
  = update_submenus_time_str (total mod 3600000000)
  /\ (-3600000000 <= total ->
      update_submenus_time_str total
      = update_submenus_time_str (total + 3600000000)).
Proof.
  intros Hneg.
  assert (Hmod : update_submenus_time_str total
                 = update_submenus_time_str (total mod 3600000000)).
  { unfold update_submenus_time_str, divmod.
    assert (0 <= total mod 3600000000 < 3600000000)
      by (apply Z.mod_pos_bound; lia).
    rewrite Z.mod_mod by lia.
    rewrite (Z.div_small (total mod 3600000000) 3600000000) by assumption.
    assert (total / 3600000000 < 0) by (apply Z.div_lt_upper_bound; lia).
    destruct (Z.ltb_spec 0 (total / 3600000000)); [lia |]. done. }
  split; [exact Hmod |]. intros Hge. rewrite Hmod. f_equal.
  rewrite <- (Z.mod_add total 1 3600000000) by lia.
  rewrite Z.mul_1_l. apply Z.mod_small. lia.
Qed.

Example one_second_overdue : update_submenus_time_str (-1000000) = "59:59".
Proof. vm_compute. reflexivity. Qed.
(** ** The custom-duration dialog answered with a whole number *)

(** Binary64 rounding, on the numbers used here. *)
Lemma digits2_log2 p : Zpos (digits2_pos p) = Z.log2 (Zpos p) + 1.
Proof.
  induction p as [p IH | p IH |]; cbn [digits2_pos]; [| | done].
  - rewrite Pos2Z.inj_succ, IH, (Pos2Z.inj_xI p).
    rewrite Z.log2_succ_double by lia. lia.
  - rewrite Pos2Z.inj_succ, IH, (Pos2Z.inj_xO p).
    rewrite Z.log2_double by lia. lia.
Qed.

Lemma digits2_bounds p k :
  2 ^ (k - 1) <= Zpos p < 2 ^ k -> 0 < k -> Zpos (digits2_pos p) = k.
Proof.
  intros H Hk. rewrite digits2_log2.
  rewrite (Z.log2_unique (Zpos p) (k - 1)); [lia | lia |].
  by replace (Z.succ (k - 1)) with k by lia.
Qed.

Lemma digits2_spec p :
  2 ^ (Zpos (digits2_pos p) - 1) <= Zpos p < 2 ^ Zpos (digits2_pos p).
Proof.
  rewrite digits2_log2. replace (Z.log2 (Zpos p) + 1 - 1) with (Z.log2 (Zpos p)) by lia.
  replace (Z.log2 (Zpos p) + 1) with (Z.succ (Z.log2 (Zpos p))) by lia.
  apply Z.log2_spec. lia.
Qed.

Lemma iter_pos_nat {A} (f : A -> A) p x :
  iter_pos f p x = Nat.iter (Pos.to_nat p) f x.
Proof.
  revert x. induction p as [p IH | p IH |]; intros x; cbn [iter_pos]; [| | done].
  - rewrite !IH. rewrite Pos2Nat.inj_xI.
    replace (S (2 * Pos.to_nat p)) with (Pos.to_nat p + S (Pos.to_nat p))%nat by lia.
    rewrite Nat.iter_add. f_equal. by rewrite Nat.iter_succ_r.
  - rewrite !IH. rewrite Pos2Nat.inj_xO.
    replace (2 * Pos.to_nat p)%nat with (Pos.to_nat p + Pos.to_nat p)%nat by lia.
    by rewrite Nat.iter_add.
Qed.

Lemma shr_1_iter n m :
  Nat.iter n shr_1 (Build_shr_record (Zpos (Nat.iter n xO m)) false false)
  = Build_shr_record (Zpos m) false false.
Proof.
  induction n as [| n IH]; [done |].
  rewrite Nat.iter_succ_r. exact IH.
Qed.

Lemma iter_xO_pow n m : Zpos (Nat.iter n xO m) = Zpos m * 2 ^ Z.of_nat n.
Proof.
  induction n as [| n IH]; [simpl; lia |].
  rewrite Nat2Z.inj_succ, Z.pow_succ_r by lia.
  change (Nat.iter (S n) xO m) with (xO (Nat.iter n xO m)).
  rewrite Pos2Z.inj_xO, IH. lia.
Qed.

Lemma pos_iter_nat {A} (f : A -> A) p x :
  Pos.iter f x p = Nat.iter (Pos.to_nat p) f x.
Proof. by rewrite Pos2Nat.inj_iter. Qed.

Lemma digits2_iter j m :
  Zpos (digits2_pos (Nat.iter j xO m)) = Zpos (digits2_pos m) + Z.of_nat j.
Proof.
  induction j as [| j IH]; [simpl; lia |].
  change (Nat.iter (S j) xO m) with (xO (Nat.iter j xO m)).
  cbn [digits2_pos]. rewrite Pos2Z.inj_succ, IH. lia.
Qed.

Lemma fexp_normal d : -1021 <= d -> fexp 53 1024 d = d - 53.
Proof. intros H. unfold fexp, emin. lia. Qed.

Lemma shr_exact j m e :
  shr (Build_shr_record (Zpos (Nat.iter j xO m)) false false) e (Z.of_nat j)
  = (Build_shr_record (Zpos m) false false, e + Z.of_nat j).
Proof.
  destruct j as [| j]; [simpl; f_equal; lia |].
  change (Z.of_nat (S j)) with (Zpos (Pos.of_succ_nat j)).
  cbv beta iota delta [shr].
  rewrite iter_pos_nat, SuccNat2Pos.id_succ, shr_1_iter. reflexivity.
Qed.

(** Rounding is exact on a mantissa that ends in enough zeros. *)
Lemma binary_round_aux_exact s j m e :
  Zpos (digits2_pos m) = 53 ->
  -1074 <= e + Z.of_nat j <= 971 ->
  binary_round_aux 53 1024 s (Zpos (Nat.iter j xO m)) e loc_Exact
  = S754_finite s m (e + Z.of_nat j).
Proof.
  intros Hd He. unfold binary_round_aux, shr_fexp.
  cbn [Zdigits2 shr_record_of_loc]. rewrite digits2_iter, Hd.
  rewrite fexp_normal by lia.
  replace (53 + Z.of_nat j + e - 53 - e) with (Z.of_nat j) by lia.
  rewrite shr_exact. cbn [shr_m loc_of_shr_record round_nearest_even].
  cbn [Zdigits2]. rewrite Hd, fexp_normal by lia.
  replace (53 + (e + Z.of_nat j) - 53 - (e + Z.of_nat j)) with 0 by lia.
  cbn [shr shr_m].
  destruct (Z.leb_spec (e + Z.of_nat j) (1024 - 53)); [done | lia].
Qed.

Lemma binary_round_aux_same s m e :
  Zpos (digits2_pos m) = 53 -> -1074 <= e <= 971 ->
  binary_round_aux 53 1024 s (Zpos m) e loc_Exact = S754_finite s m e.
Proof.
  intros Hd He. pose proof (binary_round_aux_exact s 0 m e Hd) as H.
  change (Nat.iter 0 xO m) with m in H. rewrite H by (simpl; lia).
  f_equal. simpl. lia.
Qed.

Lemma digits2_whole q :
  Zpos (digits2_pos q) <= 53 ->
  Zpos (digits2_pos (Nat.iter (Z.to_nat (53 - Zpos (digits2_pos q))) xO q)) = 53.
Proof. intros H. rewrite digits2_iter. lia. Qed.

Lemma binary_round_whole s q :
  Zpos (digits2_pos q) <= 53 -> binary_round 53 1024 s q 0 = whole s q.
Proof.
  intros H. unfold binary_round, shl_align.
  rewrite Z.add_0_r, fexp_normal by lia. rewrite Z.sub_0_r.
  pose proof (digits2_whole q H) as Hd.
  destruct (Zpos (digits2_pos q) - 53) as [| d | d] eqn:Hk; [| lia |].
  - assert (Z.to_nat (53 - Zpos (digits2_pos q)) = 0%nat) as Hz by lia.
    rewrite Hz in Hd. change (Nat.iter 0 xO q) with q in Hd.
    rewrite (binary_round_aux_same s q 0 Hd) by lia.
    unfold whole. rewrite Hz, Hk. reflexivity.
  - rewrite pos_iter_nat.
    assert (Z.to_nat (53 - Zpos (digits2_pos q)) = Pos.to_nat d) as Hz by lia.
    rewrite Hz in Hd.
    rewrite (binary_round_aux_same s _ (Zneg d) Hd) by lia.
    unfold whole. rewrite Hz, Hk. reflexivity.
Qed.

Lemma whole_mul s q r :
  Zpos (digits2_pos (q * r)) <= 53 ->
  Py.fmul (whole s q) (whole false r) = whole s (q * r).
Proof.
  intros H.
  pose proof (digits2_spec q) as Hq. pose proof (digits2_spec r) as Hr.
  pose proof (digits2_spec (q * r)) as Hqr.
  set (dq := Zpos (digits2_pos q)) in *. set (dr := Zpos (digits2_pos r)) in *.
  set (dqr := Zpos (digits2_pos (q * r))) in *.
  assert (0 < dq /\ 0 < dr /\ 0 < dqr) as (Hq0 & Hr0 & Hqr0) by (unfold dq, dr, dqr; lia).
  assert (Hlow : dq + dr - 2 < dqr).
  { apply (Z.pow_lt_mono_r_iff 2); [lia | lia |].
    eapply Z.le_lt_trans; [| apply Hqr]. rewrite Pos2Z.inj_mul.
    replace (dq + dr - 2) with ((dq - 1) + (dr - 1)) by lia.
    rewrite Z.pow_add_r by lia. apply Z.mul_le_mono_nonneg; lia. }
  assert (Hup : dqr <= dq + dr).
  { assert (dqr - 1 < dq + dr); [| lia].
    apply (Z.pow_lt_mono_r_iff 2); [lia | lia |].
    eapply Z.le_lt_trans; [apply Hqr |]. rewrite Pos2Z.inj_mul.
    rewrite Z.pow_add_r by lia. apply Z.mul_lt_mono_nonneg; lia. }
  unfold Py.fmul, whole. fold dq dr dqr. cbn [SFmul xorb].
  rewrite xorb_false_r.
  set (j := Z.to_nat (53 + dqr - dq - dr)).
  assert (Hm : (Nat.iter (Z.to_nat (53 - dq)) xO q * Nat.iter (Z.to_nat (53 - dr)) xO r)%positive
               = Nat.iter j xO (Nat.iter (Z.to_nat (53 - dqr)) xO (q * r)%positive)).
  { apply Pos2Z.inj. rewrite Pos2Z.inj_mul, !iter_xO_pow, Pos2Z.inj_mul.
    rewrite !Z2Nat.id by lia. unfold j. rewrite Z2Nat.id by lia.
    replace (Zpos q * 2 ^ (53 - dq) * (Zpos r * 2 ^ (53 - dr)))
      with (Zpos q * Zpos r * (2 ^ (53 - dq) * 2 ^ (53 - dr))) by lia.
    rewrite <- !Z.mul_assoc. f_equal. f_equal.
    rewrite <- !Z.pow_add_r by lia. f_equal. lia. }
  rewrite Hm.
  rewrite binary_round_aux_exact.
  - f_equal. unfold j. lia.
  - apply digits2_whole. done.
  - unfold j. lia.
Qed.

Lemma microseconds_zero s : Py.microseconds (S754_zero s) = 0.
Proof. by destruct s. Qed.

Lemma nearest_int_fraction_zero s :
  Py.nearest_int (Py.fmul (Py.of_Z 1000000) (S754_zero s)) = 0.
Proof. by destruct s. Qed.

Lemma microseconds_whole s q :
  Zpos (digits2_pos q) <= 53 ->
  Py.microseconds (whole s q) = cond_Zopp s (Zpos q) * 1000000.
Proof.
  intros H. unfold Py.microseconds, Py.modf, whole.
  set (k := Z.to_nat (53 - Zpos (digits2_pos q))).
  pose proof (iter_xO_pow k q) as Hm.
  assert (Hk : Z.of_nat k = 53 - Zpos (digits2_pos q)) by (unfold k; lia).
  destruct (Z.leb_spec 0 (Zpos (digits2_pos q) - 53)) as [Hle | Hlt].
  - rewrite nearest_int_fraction_zero, Hm.
    replace (Z.of_nat k) with 0 by lia.
    replace (Zpos (digits2_pos q) - 53) with 0 by lia.
    destruct s; simpl; lia.
  - rewrite Hm.
    replace (- (Zpos (digits2_pos q) - 53)) with (Z.of_nat k) by lia.
    rewrite Z.div_mul by lia. rewrite Z.mod_mul by lia.
    assert (cond_Zopp s 0 = 0) as -> by (by destruct s).
    cbn [binary_normalize]. rewrite nearest_int_fraction_zero. lia.
Qed.

(** Decimal digits are ASCII, and so is the minus sign. *)
Lemma decode_ascii l :
  Forall (fun c => (N_of_ascii c < 127)%N) l ->
  Py.decode l = Some (map N_of_ascii l) /\ Py.to_ascii (map N_of_ascii l) = l.
Proof.
  induction 1 as [| c l Hc _ (IH1 & IH2)]; [done |].
  cbn [Py.decode Py.to_ascii map].
  destruct (N.ltb_spec (N_of_ascii c) 128); [| lia].
  destruct (N.ltb_spec (N_of_ascii c) 127); [| lia].
  rewrite IH1, IH2, ascii_N_embedding. done.
Qed.

Lemma digit_ascii c : Py.is_digit c = true -> (N_of_ascii c < 127)%N.
Proof.
  unfold Py.is_digit, nat_of_ascii. intros H.
  apply andb_prop in H as (_ & H). apply Nat.leb_le in H. lia.
Qed.

Lemma digits2_le p : Zpos p < 2 ^ 53 -> Zpos (digits2_pos p) <= 53.
Proof.
  intros H. pose proof (digits2_spec p) as (Hl & _).
  assert (Zpos (digits2_pos p) - 1 < 53); [| lia].
  apply (Z.pow_lt_mono_r_iff 2); lia.
Qed.

Lemma of_Z_whole n :
  Z.abs n < 2 ^ 53 ->
  Py.of_Z n = match n with
              | Z0 => S754_zero false
              | Zpos p => whole false p
              | Zneg p => whole true p
              end.
Proof.
  intros H. destruct n as [| p | p]; [done | |];
    unfold Py.of_Z; cbn [binary_normalize]; apply binary_round_whole, digits2_le; lia.
Qed.

(** [float(n) * 60.0] is exact as long as the product is below [2^53], and
    [timedelta] then makes whole seconds of it. *)
Lemma whole_minutes n :
  Z.abs (n * 60) < 2 ^ 53 ->
  Py.fmul (Py.of_Z n) (Py.of_Z 60) = Py.of_Z (n * 60)
  /\ timedelta_of (SecFloat (Py.of_Z (n * 60))) = Ok (n * 60000000).
Proof.
  intros H.
  assert (H60 : Py.of_Z 60 = whole false 60) by (by apply of_Z_whole).
  rewrite H60, !of_Z_whole by lia.
  destruct n as [| p | p].
  - done.
  - change (Zpos p * 60) with (Zpos (p * 60)) in *.
    assert (Hd : Zpos (digits2_pos (p * 60)) <= 53) by (apply digits2_le; lia).
    rewrite whole_mul by done. split; [done |].
    unfold whole at 1. cbn [timedelta_of]. fold (whole false (p * 60)).
    rewrite microseconds_whole by done. f_equal. cbn [cond_Zopp]. lia.
  - change (Zneg p * 60) with (Zneg (p * 60)) in *.
    assert (Hd : Zpos (digits2_pos (p * 60)) <= 53) by (apply digits2_le; lia).
    rewrite whole_mul by done. split; [done |].
    unfold whole at 1. cbn [timedelta_of]. fold (whole true (p * 60)).
    rewrite microseconds_whole by done. f_equal. cbn [cond_Zopp]. lia.
Qed.

Lemma digit_facts c :
  Py.is_digit c = true ->
  Py.is_space c = false /\ Ascii.eqb c "_" = false /\ Ascii.eqb c "-" = false
  /\ Ascii.eqb c "+" = false /\ Py.lower c = c
  /\ Ascii.eqb c "i" = false /\ Ascii.eqb c "n" = false.
Proof.
  unfold Py.is_digit, Py.is_space, Py.lower. intros H.
  apply andb_prop in H as (H1 & H2).
  apply Nat.leb_le in H1. apply Nat.leb_le in H2.
  assert (Hne : forall c', (nat_of_ascii c' < 48 \/ 57 < nat_of_ascii c')%nat ->
            Ascii.eqb c c' = false).
  { intros c' Hc'. destruct (Ascii.eqb_spec c c') as [-> | _]; [lia | done]. }
  repeat split; try (apply Hne; compute; lia).
  - destruct (Nat.leb_spec 9 (nat_of_ascii c)), (Nat.leb_spec (nat_of_ascii c) 13),
      (Nat.eqb_spec (nat_of_ascii c) 32); simpl; try done; lia.
  - destruct (Nat.leb_spec 65 (nat_of_ascii c)),
      (Nat.leb_spec (nat_of_ascii c) 90); simpl; try done; lia.
Qed.

Lemma uint_digits d :
  Forall (fun c => Py.is_digit c = true)
    (String.list_ascii_of_string (NilEmpty.string_of_uint d)).
Proof. induction d; simpl; by constructor. Qed.

Lemma lstrip_digits l :
  Forall (fun c => Py.is_space c = false) l -> Py.lstrip l = l.
Proof. intros H. destruct H as [| c l Hc _]; [done |]. simpl. by rewrite Hc. Qed.

Lemma strip_no_space l :
  Forall (fun c => Py.is_space c = false) l -> Py.strip l = l.
Proof.
  intros H. unfold Py.strip. rewrite (lstrip_digits l H).
  rewrite lstrip_digits by (by apply Forall_rev). apply rev_involutive.
Qed.

Lemma drop_underscores_none l : forall prev,
  Ascii.eqb prev "_" = false ->
  Forall (fun c => Ascii.eqb c "_" = false) l ->
  Py.drop_underscores prev l = Some l.
Proof.
  induction l as [| c l IH]; intros prev Hp H; simpl; [by rewrite Hp |].
  apply Forall_cons in H as (Hc & H). rewrite Hc, Hp. simpl.
  by rewrite (IH c Hc H).
Qed.

Lemma span_all_digits l :
  Forall (fun c => Py.is_digit c = true) l -> Py.span_digits l = (l, []).
Proof.
  induction l as [| c l IH]; intros H; simpl; [done |].
  apply Forall_cons in H as (Hc & H). by rewrite Hc, (IH H).
Qed.

Lemma digits_val_acc d : forall p,
  fold_left (fun acc c => 10 * acc + Py.digit_val c)
    (String.list_ascii_of_string (NilEmpty.string_of_uint d)) (Z.pos p)
  = Z.pos (Pos.of_uint_acc d p).
Proof.
  induction d; intros p; simpl; [done | rewrite <- IHd; f_equal; unfold Py.digit_val; simpl; lia ..].
Qed.

Lemma digits_val_uint d :
  Py.digits_val (String.list_ascii_of_string (NilEmpty.string_of_uint d))
  = Z.of_uint d.
Proof.
  unfold Py.digits_val, Z.of_uint.
  induction d; simpl; [done | exact IHd | apply digits_val_acc ..].
Qed.

(** A text made of digits, with or without a minus sign in front. *)
Lemma float_digits neg ds :
  ds <> [] -> Forall (fun c => Py.is_digit c = true) ds ->
  Py.float_chars (if neg : bool then "-"%char :: ds else ds)
  = Some (Py.of_decimal neg (length ds) (Py.digits_val ds) 0).
Proof.
  intros Hne Hds.
  assert (Hf : Forall (fun c => Py.is_space c = false /\ Ascii.eqb c "_" = false)
                 (if neg then "-"%char :: ds else ds)).
  { assert (Forall (fun c => Py.is_space c = false /\ Ascii.eqb c "_" = false) ds).
    { eapply Forall_impl; [exact Hds |]. intros c Hc.
      by destruct (digit_facts c Hc) as (? & ? & _). }
    destruct neg; [by constructor | done]. }
  unfold Py.float_chars.
  rewrite strip_no_space by (eapply Forall_impl; [exact Hf |]; by intros c (? & _)).
  rewrite drop_underscores_none;
    [| done | eapply Forall_impl; [exact Hf |]; by intros c (_ & ?)].
  cbn [mbind option_bind].
  destruct ds as [| c ds']; [done |]. clear Hne.
  pose proof Hds as Hds0. apply Forall_cons in Hds0 as (Hc & _).
  destruct (digit_facts c Hc) as (_ & _ & Hm & Hp & Hl & Hi & Hn).
  assert (Hsign : Py.take_sign (if neg then "-"%char :: c :: ds' else c :: ds')
                  = (neg, c :: ds')).
  { destruct neg; simpl; [done |]. by rewrite Hm, Hp. }
  rewrite Hsign. cbn [map String.string_of_list_ascii]. rewrite Hl.
  assert (Hw : forall w', Ascii.eqb c w' = false ->
            forall s s', String.eqb (String c s) (String w' s') = false).
  { intros w' Hw' s s'. simpl. by rewrite Hw'. }
  rewrite !Hw by done. cbn [orb].
  unfold Py.parse_number. rewrite (span_all_digits _ Hds).
  rewrite app_nil_r. cbn [Py.parse_exponent mbind option_bind length].
  by rewrite Z.sub_0_r.
Qed.

Lemma of_decimal_whole neg nd p :
  Py.of_decimal neg nd (Zpos p) 0 = Py.of_Z (if neg : bool then Zneg p else Zpos p).
Proof.
  unfold Py.of_decimal, Py.of_Z.
  destruct (Z.leb_spec (Z.of_nat nd + 0) (-330)); [lia |].
  change (Z.to_pos (10 ^ 0)) with 1%positive. cbn [Z.leb Z.compare].
  rewrite Pos.mul_1_r. by destruct neg.
Qed.

Lemma float_ascii l :
  Forall (fun c => (N_of_ascii c < 127)%N) l ->
  Py.float (String.string_of_list_ascii l) = Py.float_chars l.
Proof.
  intros H. unfold Py.float. rewrite String.list_ascii_of_string_of_list_ascii.
  destruct (decode_ascii l H) as (-> & Hl). cbn. by rewrite Hl.
Qed.

(** [float(str(n))] is [float(n)]. *)
Lemma float_str_int n : Py.float (Py.str_int n) = Some (Py.of_Z n).
Proof.
  unfold Py.str_int.
  assert (Hnil : forall d, d <> Decimal.Nil ->
            NilZero.string_of_uint d = NilEmpty.string_of_uint d)
    by (by intros []).
  assert (Hne : forall d, d <> Decimal.Nil ->
            String.list_ascii_of_string (NilEmpty.string_of_uint d) <> [])
    by (by intros []).
  assert (Hasc : forall d,
            Forall (fun c => (N_of_ascii c < 127)%N)
              (String.list_ascii_of_string (NilEmpty.string_of_uint d))).
  { intros d. eapply Forall_impl; [apply uint_digits |]. apply digit_ascii. }
  assert (Hpos : forall d, d <> Decimal.Nil ->
            Py.float (NilZero.string_of_uint d)
            = Some (Py.of_decimal false
                      (length (String.list_ascii_of_string (NilEmpty.string_of_uint d)))
                      (Z.of_uint d) 0)).
  { intros d Hd. rewrite Hnil by done.
    rewrite <- (String.string_of_list_ascii_of_string (NilEmpty.string_of_uint d)) at 1.
    rewrite float_ascii by done.
    rewrite (float_digits false) by (auto using uint_digits).
    by rewrite digits_val_uint. }
  assert (Hneg : forall d, d <> Decimal.Nil ->
            Py.float (String "-" (NilZero.string_of_uint d))
            = Some (Py.of_decimal true
                      (length (String.list_ascii_of_string (NilEmpty.string_of_uint d)))
                      (Z.of_uint d) 0)).
  { intros d Hd. rewrite Hnil by done.
    rewrite <- (String.string_of_list_ascii_of_string
                  (String "-" (NilEmpty.string_of_uint d))) at 1.
    cbn [String.list_ascii_of_string].
    rewrite float_ascii by (constructor; [by compute | done]).
    rewrite (float_digits true) by (auto using uint_digits).
    by rewrite digits_val_uint. }
  destruct n as [| p | p]; cbn [Z.to_int NilZero.string_of_int].
  - by vm_compute.
  - rewrite Hpos by apply DecimalPos.Unsigned.to_uint_nonnil.
    unfold Z.of_uint. rewrite DecimalPos.Unsigned.of_to. cbn [Z.of_N].
    by rewrite of_decimal_whole.
  - rewrite Hneg by apply DecimalPos.Unsigned.to_uint_nonnil.
    unfold Z.of_uint. rewrite DecimalPos.Unsigned.of_to. cbn [Z.of_N].
    by rewrite of_decimal_whole.
Qed.

(** X22.  When the dialog of [create_custom_timer] is answered with a whole
    number of minutes [n], written in decimal, and the timer ends within
    the range of [datetime] and lasts no longer than a thread can wait,
    [create_custom_timer] does what [start_timer]
    does for the float [n * 60]: it returns, and a timer of [n] times sixty
    seconds is registered and started.  A number that is zero or negative
    is taken as it is: the timer is due at once. *)
Theorem custom_timer_whole_minutes (w : World) (item : nat) (mi : MenuItem)
    (button : string) (n : Z) :
  items w !! item = Some mi ->
  in_datetime (now w) = true -> in_datetime (now w + n * 60000000) = true ->
  in_wait (n * 60000000) = true ->
  in_range (CreateCustomTimer item (Some (button, Py.str_int n))) w = true
  /\ create_custom_timer' item (Some (button, Py.str_int n)) w
     = start_timer' item (SecFloat (Py.of_Z (n * 60))) w
  /\ exists w',
       create_custom_timer' item (Some (button, Py.str_int n)) w = (Ok tt, w')
       /\ active_timers w' = (active_timers w ++ [length (timers w)])%list
       /\ timer_submenus w' = (timer_submenus w ++ [length (items w)])%list
       /\ (end_time <$> timers w' !! length (timers w))
          = Some (now w + n * 60000000)
       /\ threads w' !! length (threads w)
          = Some (mkTimer (n * 60000000) (length (timers w)) false
                    (Waiting (now w + n * 60000000))).
Proof.
  intros Hmi Hnow Hend Hwait.
  assert (Hn : Z.abs (n * 60) < 2 ^ 53).
  { unfold in_datetime, datetime_max in Hnow, Hend.
    apply andb_prop in Hnow as (H1 & H2). apply andb_prop in Hend as (H3 & H4).
    apply Z.leb_le in H1, H2, H3, H4. change (2 ^ 53) with 9007199254740992. lia. }
  destruct (whole_minutes n Hn) as (Hmul & Htd).
  assert (Hcc : create_custom_timer' item (Some (button, Py.str_int n)) w
                = start_timer' item (SecFloat (Py.of_Z (n * 60))) w).
  { unfold create_custom_timer.
    change (Py.float (snd (button, Py.str_int n))) with (Py.float (Py.str_int n)).
    rewrite float_str_int. cbn [of_option]. unfold ret at 1. unfold bind at 1.
    by rewrite Hmul. }
  split.
  { unfold in_range, custom_duration.
    change (Py.float (snd (button, Py.str_int n))) with (Py.float (Py.str_int n)).
    rewrite float_str_int. cbn [fmap option_fmap option_map].
    rewrite Hmul, Hnow. unfold fits. rewrite Htd, Hend, Hwait.
    unfold in_timedelta. unfold in_datetime, datetime_max in Hnow, Hend.
    apply andb_prop in Hnow as (H1 & H2). apply andb_prop in Hend as (H3 & H4).
    apply Z.leb_le in H1, H2, H3, H4.
    apply andb_true_intro. split; [done |].
    apply andb_true_intro. split; [| done].
    apply andb_true_intro. split; [| done].
    apply andb_true_intro. split; apply Z.leb_le; lia. }
  split; [exact Hcc |]. rewrite Hcc. eexists.
  split; [by apply start_timer_ok |].
  unfold with_new_timer. norm. split; [done |]. split; [done |].
  split; by rewrite list_lookup_middle.
Qed.

End Registry.

(** * More instances *)

Lemma start_twice_raises_witness :
  let w := exec unprinted unprinted
             [New "tea" (Sec 60000000) (Some (extern_fn "ring")) None] (main 0) in
  let w1 := run (SimpleTimer.start 0) w in
  SimpleTimer.start 0 w = (Ok tt, w1)
  /\ fst (SimpleTimer.start 0 w1) = Raise RuntimeError
  /\ threads (run (SimpleTimer.start 0) w1) = threads w1.
Proof.
  intros w w1.
  assert (H : SimpleTimer.start 0 w = (Ok tt, w1)) by (vm_compute; reflexivity).
  split; [exact H |].
  destruct (start_twice_raises unprinted unprinted 0
              [New "tea" (Sec 60000000) (Some (extern_fn "ring")) None] 0 w1
              (or_introl H)) as (Ha & Hb & _).
  split; [exact Ha | exact Hb].
Defined.

Lemma attributes_never_reassigned_witness :
  let w := exec unprinted unprinted [StartTimer 0 (Sec 60000000)] (main 0) in
  let tm := mkSimpleTimer "1 minute" (Sec 60000000) true false false
              (Some show_alert_fn) [] 0 60000000 0 None in
  timers w !! 0%nat = Some tm
  /\ exists tm',
       timers (exec unprinted unprinted
                 [Tick 1000000; PauseTimer 7 0; Tick 5000000; ResumeTimer 7 0;
                  Tick 59000000; Wake 1] w) !! 0%nat = Some tm'
       /\ same_identity tm tm'.
Proof.
  intros w tm.
  assert (H : timers w !! 0%nat = Some tm) by (vm_compute; reflexivity).
  split; [exact H |].
  exact (attributes_never_reassigned unprinted unprinted 0
           [StartTimer 0 (Sec 60000000)]
           [Tick 1000000; PauseTimer 7 0; Tick 5000000; ResumeTimer 7 0;
            Tick 59000000; Wake 1] 0 tm H).
Defined.

Lemma time_remaining_always_returns_witness :
  let w := exec unprinted unprinted
             [StartTimer 0 (Sec 60000000); Tick 1000000; PauseTimer 7 0]
             (main 0) in
  let tm := mkSimpleTimer "1 minute" (Sec 60000000) true true false
              (Some show_alert_fn) [] 0 60000000 0 (Some 59000000) in
  timers w !! 0%nat = Some tm
  /\ exists r, SimpleTimer.time_remaining 0 w = (Ok r, w).
Proof.
  intros w tm.
  assert (H : timers w !! 0%nat = Some tm) by (vm_compute; reflexivity).
  split; [exact H |].
  exact (time_remaining_always_returns unprinted unprinted 0
           [StartTimer 0 (Sec 60000000); Tick 1000000; PauseTimer 7 0] 0 tm H).
Defined.



Lemma update_submenus_refreshes_witness :
  let w := exec unprinted unprinted
             [StartTimer 0 (Sec 60000000); StartTimer 1 (Sec 300000000);
              Tick 1000000; PauseTimer 7 0] (main 0) in
  NoDup (timer_submenus w)
  /\ exists its,
       update_submenus w = (Ok tt, with_items its w)
       /\ length its = length (items w)
       /\ (forall m, (forall j, (j < length (active_timers w))%nat ->
                        timer_submenus w !! j <> Some m) ->
             its !! m = items w !! m).
Proof.
  intros w.
  assert (H1 : NoDup (timer_submenus w))
    by (apply (bool_decide_unpack _); vm_compute; exact I).
  assert (H2 : forall j t, active_timers w !! j = Some t ->
            exists tm r m mi i,
              timers w !! t = Some tm
              /\ SimpleTimer.time_remaining_at tm (now w) = Ok r
              /\ timer_submenus w !! j = Some m
              /\ items w !! m = Some mi
              /\ String.index 0 "(" (item_title mi) = Some i).
  { intros [|[|j]] t Ht; vm_compute in Ht; [| |discriminate Ht];
      injection Ht as <-.
    - exists (mkSimpleTimer "1 minute" (Sec 60000000) true true false
                (Some show_alert_fn) [] 0 60000000 0 (Some 59000000)),
        59000000,
        6%nat,
        (mkMenuItem "1 minute (1:0 remaining)" true None [] false),
        9%nat.
      vm_compute. repeat split.
    - exists (mkSimpleTimer "5 minutes" (Sec 300000000) true false false
                (Some show_alert_fn) [] 0 300000000 1 None),
        299000000,
        9%nat,
        (mkMenuItem "5 minutes (5:0 remaining)" true None [] false),
        10%nat.
      vm_compute. repeat split. }
  split; [exact H1 |].
  destruct (update_submenus_refreshes w H1 H2) as (its & Ha & Hb & _ & Hc).
  exists its. split; [exact Ha |]. split; [exact Hb | exact Hc].
Defined.


Lemma menu_run_toggle_entry_witness :
  let w := play unprinted unprinted [Click 0 None; Click 7 None] (main 0) in
  let mi := mkMenuItem "Resume" true (Some resume_timer_fn) [VRef 0] false in
  (items w !! 7%nat = Some mi /\ 0%nat ∈ active_timers w)
  /\ (item_title mi = "Pause" /\ item_action mi = Some pause_timer_fn
      /\ is_paused 0 w = false
      \/ item_title mi = "Resume" /\ item_action mi = Some resume_timer_fn
         /\ is_paused 0 w = true).
Proof.
  intros w mi.
  assert (H1 : items w !! 7%nat = Some mi) by (vm_compute; reflexivity).
  assert (H2 : 0%nat ∈ active_timers w) by (vm_compute; constructor).
  split; [by split |].
  exact (proj1 (menu_run_toggle_entry unprinted unprinted 0
                  [Click 0 None; Click 7 None] 7 0 mi H1 eq_refl eq_refl H2)).
Defined.

Lemma menu_run_labels_witness :
  let w := play unprinted unprinted [Click 0 None; Elapse 1000000] (main 0) in
  let tm := mkSimpleTimer "1 minute" (Sec 60000000) true false false
              (Some show_alert_fn) [] 0 60000000 0 None in
  (active_timers w !! 0%nat = Some 0%nat /\ timer_submenus w !! 0%nat = Some 6%nat
   /\ timers w !! 0%nat = Some tm
   /\ String.index 0 "(" (title tm) = None)
  /\ fst (update_submenus w) = Ok tt
  /\ exists r mi,
       SimpleTimer.time_remaining_at tm (now w) = Ok r
       /\ items (react unprinted unprinted Hover w) !! 6%nat = Some mi
       /\ item_title mi
          = title tm ++ " ("
            ++ (if paused tm then "Paused, " ++ update_submenus_time_str r
                else update_submenus_time_str r)
            ++ " remaining)".
Proof.
  intros w tm.
  assert (H1 : active_timers w !! 0%nat = Some 0%nat) by (vm_compute; reflexivity).
  assert (H2 : timer_submenus w !! 0%nat = Some 6%nat) by (vm_compute; reflexivity).
  assert (H3 : timers w !! 0%nat = Some tm) by (vm_compute; reflexivity).
  assert (H4 : String.index 0 "(" (title tm) = None) by (vm_compute; reflexivity).
  split; [by repeat split |].
  exact (menu_run_labels unprinted unprinted 0 [Click 0 None; Elapse 1000000]
           0 0 6 tm H1 H2 H3 H4).
Defined.

Lemma start_then_cancel_restores_witness :
  let w := play unprinted unprinted [Click 1 None; Elapse 1000000] (main 0) in
  let mi := mkMenuItem "1 minute" true (Some start_timer_fn)
              [VSeconds (Sec 60000000)] false in
  let w2 := react unprinted unprinted (Click (length (items w) + 2) None)
              (react unprinted unprinted (Click 0 None) w) in
  items w !! 0%nat = Some mi
  /\ active_timers w2 = active_timers w
  /\ timer_submenus w2 = timer_submenus w
  /\ status_indicator w2 = status_indicator w
  /\ calls w2 = calls w /\ alerts w2 = alerts w
  /\ silent (length (timers w)) w2.
Proof.
  intros w mi w2.
  assert (H : items w !! 0%nat = Some mi) by (vm_compute; reflexivity).
  split; [exact H |].
  exact (proj2 (proj2 (start_then_cancel_restores unprinted unprinted 0
                         [Click 1 None; Elapse 1000000] 0 mi None None
                         H eq_refl))).
Defined.

Lemma start_then_expire_restores_witness :
  let w := play unprinted unprinted [Click 1 None; Elapse 1000000] (main 0) in
  let mi := mkMenuItem "1 minute" true (Some start_timer_fn)
              [VSeconds (Sec 60000000)] false in
  let w2 := play unprinted unprinted
              [Click 0 None; Elapse 61000000; Expire (length (threads w))] w in
  (items w !! 0%nat = Some mi /\ 60000000 <= Z.of_N 61000000)
  /\ active_timers w2 = active_timers w
  /\ timer_submenus w2 = timer_submenus w
  /\ status_indicator w2 = status_indicator w
  /\ alerts w2
     = ("Your timer for "
        ++ timer_title unprinted unprinted (item_title mi) (Sec 60000000)
        ++ " has ended!") :: alerts w.
Proof.
  intros w mi w2.
  assert (H1 : items w !! 0%nat = Some mi) by (vm_compute; reflexivity).
  assert (H2 : 60000000 <= Z.of_N 61000000) by (vm_compute; discriminate).
  split; [by split |].
  destruct (start_then_expire_restores unprinted unprinted 0
              [Click 1 None; Elapse 1000000] 0 mi None 60000000 61000000
              H1 eq_refl eq_refl H2) as (Ha & Hb & Hc & Hd & _).
  split; [exact Ha |]. split; [exact Hb |]. split; [exact Hc | exact Hd].
Defined.

Lemma pause_then_resume_entry_witness :
  let w := play unprinted unprinted [Click 0 None; Elapse 1000000] (main 0) in
  let mi := mkMenuItem "Pause" true (Some pause_timer_fn) [VRef 0] false in
  let w1 := react unprinted unprinted (Click 7 None) w in
  let w2 := react unprinted unprinted (Click 7 None) w1 in
  (items w !! 7%nat = Some mi /\ 0%nat ∈ active_timers w)
  /\ (item_title <$> items w1 !! 7%nat) = Some "Resume"
  /\ is_paused 0 w1 = true
  /\ items w2 = items w
  /\ active_timers w2 = active_timers w
  /\ timer_submenus w2 = timer_submenus w
  /\ status_indicator w2 = status_indicator w
  /\ calls w2 = calls w /\ alerts w2 = alerts w
  /\ is_paused 0 w2 = false
  /\ fst (SimpleTimer.time_remaining 0 w2) = fst (SimpleTimer.time_remaining 0 w).
Proof.
  intros w mi w1 w2.
  assert (H1 : items w !! 7%nat = Some mi) by (vm_compute; reflexivity).
  assert (H2 : 0%nat ∈ active_timers w) by (vm_compute; constructor).
  split; [by split |].
  exact (pause_then_resume_entry unprinted unprinted 0
           [Click 0 None; Elapse 1000000] 7 0 mi None None
           H1 eq_refl eq_refl H2).
Defined.

Lemma start_timer_registers_witness :
  let mi := mkMenuItem "5 minutes" true (Some start_timer_fn)
              [VSeconds (Sec 300000000)] false in
  (items (main 0) !! 1%nat = Some mi
   /\ in_range (StartTimer 1 (Sec 300000000)) (main 0) = true)
  /\ exists w',
       start_timer unprinted unprinted 1 (Sec 300000000) (main 0) = (Ok tt, w')
       /\ active_timers w' = (active_timers (main 0) ++ [0%nat])%list
       /\ timer_submenus w' = (timer_submenus (main 0) ++ [6%nat])%list.
Proof.
  intros mi.
  assert (H : items (main 0) !! 1%nat = Some mi) by (vm_compute; reflexivity).
  assert (H2 : in_range (StartTimer 1 (Sec 300000000)) (main 0) = true)
    by (vm_compute; reflexivity).
  split; [by split |].
  destruct (start_timer_registers unprinted unprinted (main 0) 1 mi
              (Sec 300000000) 300000000 H eq_refl H2)
    as (w' & Ha & _ & _ & _ & Hb & Hc & _).
  exists w'. split; [exact Ha |]. split; [exact Hb | exact Hc].
Defined.

Lemma unregistered_timer_raises_witness :
  let w := play unprinted unprinted [Click 0 None; Click 8 None] (main 0) in
  (0%nat ∉ active_timers w)
  /\ cancel_timer 8 0 w = (Raise ValueError, w)
  /\ show_alert 0 w = (Raise ValueError, w).
Proof.
  intros w.
  assert (H : 0%nat ∉ active_timers w)
    by (vm_compute; intros Hin; inversion Hin).
  split; [exact H |].
  exact (unregistered_timer_raises w 8 0 H).
Defined.

Lemma overdue_time_str_wraps_witness :
  -1000000 < 0
  /\ update_submenus_time_str (-1000000)
     = update_submenus_time_str ((-1000000) mod 3600000000).
Proof.
  assert (H : -1000000 < 0) by lia.
  split; [exact H |].
  exact (proj1 (overdue_time_str_wraps (-1000000) H)).
Defined.

Lemma custom_timer_whole_minutes_witness :
  let mi := mkMenuItem "Custom Timer..." true (Some create_custom_timer_fn)
              [] false in
  (items (main 0) !! 5%nat = Some mi
   /\ in_datetime (now (main 0)) = true
   /\ in_datetime (now (main 0) + 5 * 60000000) = true
   /\ in_wait (5 * 60000000) = true)
  /\ create_custom_timer unprinted unprinted 5 (Some ("Start", Py.str_int 5))
       (main 0)
     = start_timer unprinted unprinted 5 (SecFloat (Py.of_Z (5 * 60))) (main 0).
Proof.
  intros mi.
  assert (H : items (main 0) !! 5%nat = Some mi) by (vm_compute; reflexivity).
  assert (H1 : in_datetime (now (main 0)) = true) by (vm_compute; reflexivity).
  assert (H2 : in_datetime (now (main 0) + 5 * 60000000) = true)
    by (vm_compute; reflexivity).
  assert (H3 : in_wait (5 * 60000000) = true) by (vm_compute; reflexivity).
  split; [by repeat split |].
  exact (proj1 (proj2 (custom_timer_whole_minutes unprinted unprinted (main 0)
                         5 mi "Start" 5 H H1 H2 H3))).
Defined.

Lemma resume_after_cancel_fires_witness :
  let tr0 := [New "tea" (Sec 60000000) (Some (extern_fn "ring")) None; Start 0;
              Tick 1000000; Pause 0] in
  let w := exec unprinted unprinted tr0 (main 0) in
  let tm := mkSimpleTimer "tea" (Sec 60000000) true true false
              (Some (extern_fn "ring")) [] 0 60000000 0 (Some 59000000) in
  let tr := [Cancel 0; Resume 0; Tick 59000000; Wake (length (threads w))] in
  (respects unprinted unprinted tr0 (main 0) = true
   /\ timers w !! 0%nat = Some tm)
  /\ respects unprinted unprinted tr w = true
  /\ exists c, calls_of 0 (exec unprinted unprinted tr w) = c :: calls_of 0 w.
Proof.
  intros tr0 w tm tr.
  assert (H1 : respects unprinted unprinted tr0 (main 0) = true)
    by (vm_compute; reflexivity).
  assert (H2 : timers w !! 0%nat = Some tm) by (vm_compute; reflexivity).
  assert (H3 : forall r, __time_remaining tm = Some r -> r <= Z.of_N 59000000)
    by (intros r [= <-]; vm_compute; discriminate).
  split; [by split |].
  destruct (resume_after_cancel_fires unprinted unprinted 0 tr0 0 tm
              (extern_fn "ring") 59000000 H1 H2 eq_refl eq_refl eq_refl eq_refl
              eq_refl H3) as (_ & Ha & c & Hb & _).
  split; [exact Ha |]. exists c. exact Hb.
Defined.
